(** * LifeFlow backend: streak engine, check-in recorder, notification service

    A shallow embedding of
      - [app/api/tasks.py]                       (task CRUD, [get_local_date],
                                                  [calculate_streak], [checkin_task],
                                                  [get_task_checkins])
      - [app/services/notification_service.py]   ([NotificationService])
      - [app/api/notifications.py]               (notification CRUD and generators)
      - [app/api/stats.py]                       (daily ring and overview, their
                                                  integer counts)
      - [app/api/life_entries.py]                (the plain and the grouped listing)
      - [app/models/*.py]                        (the tables involved)

    Conventions of the embedding.
      - A Python [date] is its proleptic Gregorian ordinal ([date.toordinal()],
        day 1 is 0001-01-01), an integer; [(a - b).days] is [a - b].
      - A naive UTC [datetime] is the number of microseconds elapsed since
        0001-01-01T00:00:00, an integer.
      - SQL [Integer] columns and Python [int]s are unbounded integers.
      - A table is the list of its rows in insertion order.
      - [uuid.uuid4()] is a fresh-name supply: the n-th draw of the process
        is the decimal rendering of n.
      - One request is served at one server instant: every clock read of a
        handler sees the same [utc_now] and the same [date.today()].
      - JSON payload values are scalars (null, booleans, integers, strings),
        which is all the service itself ever writes.
      - Arithmetic on a [datetime] raises OverflowError when the result
        leaves [datetime.min .. datetime.max]; an integer of a request that
        is sent to SQLite as a statement parameter raises OverflowError
        when it does not fit 64 bits. *)

From Stdlib Require Import ZArith Lia.
From stdpp Require Import base decidable option list strings pretty gmap sorting.

Local Open Scope Z_scope.

(* ===================================================================== *)
(** ** Dates and instants *)
(* ===================================================================== *)

Abbreviation date := Z (only parsing).
Abbreviation datetime := Z (only parsing).

Definition us_per_minute : Z := 60 * 1000000.
Definition us_per_day : Z := 86400 * 1000000.

(** [date.max.toordinal()], the ordinal of 9999-12-31. *)
Definition max_ordinal : Z := 3652059.

(** [datetime.min <= t <= datetime.max] *)
Definition datetime_in_range (t : datetime) : bool :=
  bool_decide (0 <= t < max_ordinal * us_per_day).

(** [t.date()] *)
Definition date_of (t : datetime) : date := t / us_per_day + 1.

(** [datetime(t.year, t.month, t.day, 0, 0, 0)] *)
Definition start_of_day (t : datetime) : datetime := (t / us_per_day) * us_per_day.

(** Year, month and day of an ordinal (the civil-from-days computation,
    shifted so that the era starts on 0000-03-01). *)
Definition ymd_of_ordinal (n : date) : Z * Z * Z :=
  let z := n + 305 in
  let era := z / 146097 in
  let doe := z - era * 146097 in
  let yoe := (doe - doe / 1460 + doe / 36524 - doe / 146096) / 365 in
  let doy := doe - (365 * yoe + yoe / 4 - yoe / 100) in
  let mp := (5 * doy + 2) / 153 in
  let d := doy - (153 * mp + 2) / 5 + 1 in
  let m := if mp <? 10 then mp + 3 else mp - 9 in
  let y := yoe + era * 400 + (if m <=? 2 then 1 else 0) in
  (y, m, d).

(** ["%0*d" % (width, z)] for a non-negative [z]. *)
Definition zfill (width : nat) (z : Z) : string :=
  let s := pretty z in
  String.concat "" (replicate (width - String.length s) "0") +:+ s.

(** [d.isoformat()], ["%04d-%02d-%02d"] *)
Definition isoformat (d : date) : string :=
  let '(y, m, dd) := ymd_of_ordinal d in
  zfill 4 y +:+ "-" +:+ zfill 2 m +:+ "-" +:+ zfill 2 dd.

(* ===================================================================== *)
(** ** Exceptions *)
(* ===================================================================== *)

(** The exceptions the modelled handlers can raise. *)
Inductive error : Type :=
| HTTP_404_NOT_FOUND     (* HTTPException(status_code=404) *)
| MultipleResultsFound   (* sqlalchemy.exc, from scalar_one_or_none() *)
| IntegrityError         (* sqlalchemy.exc, primary key violated at commit *)
| TypeError              (* timedelta(minutes=None) *)
| OverflowError.         (* date value out of range; int too large for SQLite *)

Inductive result (A : Type) : Type :=
| Ok (a : A)
| Raise (e : error).
Arguments Ok {A} a.
Arguments Raise {A} e.

#[global] Instance error_eq_dec : EqDecision error.
Proof. solve_decision. Defined.

(* ===================================================================== *)
(** ** The streak engine ([app/api/tasks.py]) *)
(* ===================================================================== *)

(** The two clock reads of a request. [date_today] is [date.today()], the
    calendar date in the server's own time zone. *)
Record Clock : Type := {
  utc_now : datetime;      (* datetime.now(timezone.utc), datetime.utcnow() *)
  date_today : date        (* date.today() *)
}.

(** [get_local_date(timezone_offset_minutes)]: a [None] offset makes
    [timedelta(minutes=...)] raise, and so does a shifted instant that
    leaves the range of [datetime]. *)
Definition get_local_date (clk : Clock) (timezone_offset_minutes : option Z)
  : result date :=
  match timezone_offset_minutes with
  | None => Raise TypeError
  | Some off =>
      let local_time := utc_now clk - off * us_per_minute in
      if datetime_in_range local_time then Ok (date_of local_time)
      else Raise OverflowError
  end.

Definition calculate_streak (last_checkin_date : option date)
           (current_streak : Z) (today : date) : Z :=
  match last_checkin_date with
  | None => 1
  | Some last =>
      if bool_decide (last = today) then current_streak
      else
        let days_since_last := today - last in
        if bool_decide (days_since_last = 1) then current_streak + 1
        else 1
  end.

(* ===================================================================== *)
(** ** JSON payloads *)
(* ===================================================================== *)

Inductive json : Type :=
| JNull
| JBool (b : bool)
| JInt (z : Z)
| JStr (s : string).

#[global] Instance json_eq_dec : EqDecision json.
Proof. solve_decision. Defined.

(** The [data] column: a nullable JSON object. *)
Abbreviation payload := (gmap string json) (only parsing).

(** Python truthiness of [d.get(key)] ([None] when the key is absent). *)
Definition truthy (v : option json) : bool :=
  match v with
  | None | Some JNull => false
  | Some (JBool b) => b
  | Some (JInt z) => negb (z =? 0)
  | Some (JStr s) => negb (String.eqb s "")
  end.

(** Python truthiness of the [data] attribute itself: [None] and the empty
    dict are falsy. *)
Definition data_truthy (data : option payload) : bool :=
  match data with
  | None => false
  | Some d => negb (bool_decide (d = ∅))
  end.

(** [n.data.get(key)] on a truthy [data]. *)
Definition data_get (data : option payload) (key : string) : option json :=
  d ← data; d !! key.

(** [v == s] for a Python [str] [s]: only an equal string compares equal. *)
Definition py_eq_str (v : option json) (s : string) : bool :=
  match v with
  | Some (JStr s') => String.eqb s' s
  | _ => false
  end.

(** SQLite values produced by [json_extract]; SQL NULL is [None]. *)
Inductive sqlvalue : Type :=
| SqlInteger (z : Z)
| SqlText (s : string).

(** [json_extract(data, '$.key')]: NULL for a NULL column, a missing key or
    a JSON null; booleans come out as the integers 1 and 0. *)
Definition json_extract (data : option payload) (key : string) : option sqlvalue :=
  match data_get data key with
  | None | Some JNull => None
  | Some (JBool b) => Some (SqlInteger (if b then 1 else 0))
  | Some (JInt z) => Some (SqlInteger z)
  | Some (JStr s) => Some (SqlText s)
  end.

(** [lhs = :param] in a WHERE clause: NULL never satisfies it, and values
    of different storage classes are never equal. *)
Definition sql_eq (lhs : option sqlvalue) (param : sqlvalue) : bool :=
  match lhs, param with
  | Some (SqlInteger a), SqlInteger b => a =? b
  | Some (SqlText a), SqlText b => String.eqb a b
  | _, _ => false
  end.

(* ===================================================================== *)
(** ** The tables ([app/models]) *)
(* ===================================================================== *)

Module TaskCard.
Record t : Type := mk {
  id : string;
  title : string;
  content : string;
  list_id : option string;
  is_habit : bool;
  reminder_time : option datetime;
  current_streak : Z;
  longest_streak : Z;
  last_checkin_date : option date;
  created_at : datetime;
  updated_at : datetime;
  is_deleted : bool
}.

Definition set_title (v : string) (r : t) : t :=
  mk (id r) v (content r) (list_id r) (is_habit r) (reminder_time r)
     (current_streak r) (longest_streak r) (last_checkin_date r)
     (created_at r) (updated_at r) (is_deleted r).
Definition set_content (v : string) (r : t) : t :=
  mk (id r) (title r) v (list_id r) (is_habit r) (reminder_time r)
     (current_streak r) (longest_streak r) (last_checkin_date r)
     (created_at r) (updated_at r) (is_deleted r).
Definition set_list_id (v : option string) (r : t) : t :=
  mk (id r) (title r) (content r) v (is_habit r) (reminder_time r)
     (current_streak r) (longest_streak r) (last_checkin_date r)
     (created_at r) (updated_at r) (is_deleted r).
Definition set_is_habit (v : bool) (r : t) : t :=
  mk (id r) (title r) (content r) (list_id r) v (reminder_time r)
     (current_streak r) (longest_streak r) (last_checkin_date r)
     (created_at r) (updated_at r) (is_deleted r).
Definition set_reminder_time (v : option datetime) (r : t) : t :=
  mk (id r) (title r) (content r) (list_id r) (is_habit r) v
     (current_streak r) (longest_streak r) (last_checkin_date r)
     (created_at r) (updated_at r) (is_deleted r).
Definition set_current_streak (v : Z) (r : t) : t :=
  mk (id r) (title r) (content r) (list_id r) (is_habit r) (reminder_time r)
     v (longest_streak r) (last_checkin_date r)
     (created_at r) (updated_at r) (is_deleted r).
Definition set_longest_streak (v : Z) (r : t) : t :=
  mk (id r) (title r) (content r) (list_id r) (is_habit r) (reminder_time r)
     (current_streak r) v (last_checkin_date r)
     (created_at r) (updated_at r) (is_deleted r).
Definition set_last_checkin_date (v : option date) (r : t) : t :=
  mk (id r) (title r) (content r) (list_id r) (is_habit r) (reminder_time r)
     (current_streak r) (longest_streak r) v
     (created_at r) (updated_at r) (is_deleted r).
Definition set_updated_at (v : datetime) (r : t) : t :=
  mk (id r) (title r) (content r) (list_id r) (is_habit r) (reminder_time r)
     (current_streak r) (longest_streak r) (last_checkin_date r)
     (created_at r) v (is_deleted r).
Definition set_is_deleted (v : bool) (r : t) : t :=
  mk (id r) (title r) (content r) (list_id r) (is_habit r) (reminder_time r)
     (current_streak r) (longest_streak r) (last_checkin_date r)
     (created_at r) (updated_at r) v.

#[global] Instance eq_dec : EqDecision t.
Proof. solve_decision. Defined.
End TaskCard.

Module CheckinRecord.
Record t : Type := mk {
  id : string;
  task_id : string;
  checkin_date : date;
  checkin_time : datetime
}.

#[global] Instance eq_dec : EqDecision t.
Proof. solve_decision. Defined.
End CheckinRecord.

Module Notification.
Record t : Type := mk {
  id : string;
  type : string;   (* habit_reminder, achievement, daily_complete, system *)
  title : string;
  message : string;
  data : option payload;
  is_read : bool;
  created_at : datetime;
  user_id : string
}.

Definition set_is_read (v : bool) (r : t) : t :=
  mk (id r) (type r) (title r) (message r) (data r) v (created_at r)
     (user_id r).

#[global] Instance eq_dec : EqDecision t.
Proof. solve_decision. Defined.
End Notification.

(** The committed database together with the number of uuids drawn so far. *)
Record World : Type := mkWorld {
  task_cards : list TaskCard.t;
  checkin_records : list CheckinRecord.t;
  notifications : list Notification.t;
  uuids_drawn : N
}.

#[global] Instance World_eq_dec : EqDecision World.
Proof. solve_decision. Defined.

(** The database right after [init_db()]. *)
Definition init_world : World := mkWorld [] [] [] 0.

(* ===================================================================== *)
(** ** The request monad: committed state plus exceptions *)
(* ===================================================================== *)

(** A handler maps the committed world to the committed world it leaves
    behind and either a response or the exception it raised. What was
    committed before an exception stays committed. *)
Definition M (A : Type) : Type := World → World * result A.

#[global] Instance M_ret : MRet M := λ A a w, (w, Ok a).
#[global] Instance M_bind : MBind M := λ A B k m w,
  match m w with
  | (w', Ok a) => k a w'
  | (w', Raise e) => (w', Raise e)
  end.

Definition raise {A} (e : error) : M A := λ w, (w, Raise e).

(** A pure computation that may raise. *)
Definition lift {A} (r : result A) : M A := λ w, (w, r).

(** [await db.execute(select(...))] followed by [.scalars().all()]. *)
Definition execute {A} (query : World → list A) : M (list A) :=
  λ w, (w, Ok (query w)).

(** [Result.scalar_one_or_none()] *)
Definition scalar_one_or_none {A} (rows : list A) : M (option A) :=
  match rows with
  | [] => mret None
  | [row] => mret (Some row)
  | _ :: _ :: _ => raise MultipleResultsFound
  end.

(** [str(uuid.uuid4())] *)
Definition uuid4 : M string := λ w,
  (mkWorld (task_cards w) (checkin_records w) (notifications w)
           (N.succ (uuids_drawn w)),
   Ok (pretty (uuids_drawn w))).

(* ===================================================================== *)
(** ** Session primitives: what a commit writes *)
(* ===================================================================== *)

(** [db.add(row); await db.commit()]: the INSERT fails on a primary key
    already present; the model classes declare no other constraint that an
    insert could violate. *)
Definition add_task (row : TaskCard.t) : M unit := λ w,
  if bool_decide (TaskCard.id row ∈ (TaskCard.id <$> task_cards w))
  then (w, Raise IntegrityError)
  else (mkWorld (task_cards w ++ [row]) (checkin_records w) (notifications w)
                (uuids_drawn w), Ok ()).

Definition add_checkin_record (row : CheckinRecord.t) : M unit := λ w,
  if bool_decide (CheckinRecord.id row ∈ (CheckinRecord.id <$> checkin_records w))
  then (w, Raise IntegrityError)
  else (mkWorld (task_cards w) (checkin_records w ++ [row]) (notifications w)
                (uuids_drawn w), Ok ()).

Definition add_notification (row : Notification.t) : M unit := λ w,
  if bool_decide (Notification.id row ∈ (Notification.id <$> notifications w))
  then (w, Raise IntegrityError)
  else (mkWorld (task_cards w) (checkin_records w) (notifications w ++ [row])
                (uuids_drawn w), Ok ()).

(** Flushing a loaded task whose attributes were assigned: an UPDATE is
    emitted only when some column value differs from the loaded one, and
    then [onupdate] stamps [updated_at]. *)
Definition flushed_task (clk : Clock) (loaded modified : TaskCard.t) : TaskCard.t :=
  if bool_decide (modified = loaded) then loaded
  else TaskCard.set_updated_at (utc_now clk) modified.

Definition update_task_row (clk : Clock) (loaded modified : TaskCard.t) : M unit := λ w,
  (mkWorld (fmap (λ row, if bool_decide (TaskCard.id row = TaskCard.id loaded)
                        then flushed_task clk loaded modified else row)
                (task_cards w))
           (checkin_records w) (notifications w) (uuids_drawn w), Ok ()).

(** [await db.delete(task); await db.commit()] *)
Definition delete_task_row (task : TaskCard.t) : M unit := λ w,
  (mkWorld (filter (λ row, TaskCard.id row ≠ TaskCard.id task) (task_cards w))
           (checkin_records w) (notifications w) (uuids_drawn w), Ok ()).

Definition update_notification_row (modified : Notification.t) : M unit := λ w,
  (mkWorld (task_cards w) (checkin_records w)
           (fmap (λ row, if bool_decide (Notification.id row = Notification.id modified)
                        then modified else row) (notifications w))
           (uuids_drawn w), Ok ()).

Definition delete_notification_row (n : Notification.t) : M unit := λ w,
  (mkWorld (task_cards w) (checkin_records w)
           (filter (λ row, Notification.id row ≠ Notification.id n) (notifications w))
           (uuids_drawn w), Ok ()).

(** [await db.refresh(task)]: the row as stored after the commit. *)
Definition refresh_task (clk : Clock) (loaded modified : TaskCard.t) : M TaskCard.t :=
  mret (flushed_task clk loaded modified).

(* ===================================================================== *)
(** ** [NotificationService] ([app/services/notification_service.py]) *)
(* ===================================================================== *)

Definition ACHIEVEMENT_MILESTONES : list Z := [7; 14; 30; 60; 100].

(** [select(TaskCard).where(is_habit == True, is_deleted == False)] *)
Definition select_active_habits (w : World) : list TaskCard.t :=
  filter (λ t, TaskCard.is_habit t = true ∧ TaskCard.is_deleted t = false)
         (task_cards w).

(** [last_checkin_date != :today] as SQL evaluates it: a NULL date makes
    the comparison NULL and the row is not selected. *)
Definition sql_date_ne (d : option date) (today : date) : bool :=
  match d with
  | None => false
  | Some d => negb (d =? today)
  end.

(** The SELECT of [generate_at_risk_notifications]. *)
Definition select_at_risk_habits (today : date) (w : World) : list TaskCard.t :=
  filter (λ t, TaskCard.is_habit t = true ∧ TaskCard.is_deleted t = false
               ∧ TaskCard.current_streak t > 0
               ∧ sql_date_ne (TaskCard.last_checkin_date t) today = true)
         (task_cards w).

(** [start_of_day_utc + timedelta(days=1)]: the sum raises when it leaves
    the range of [datetime], which it does when the day is 9999-12-31. *)
Definition end_of_day (start_of_day_utc : datetime) : result datetime :=
  let end_of_day_utc := start_of_day_utc + us_per_day in
  if datetime_in_range end_of_day_utc then Ok end_of_day_utc
  else Raise OverflowError.

(** The SELECT shared by the three day-window checks:
    [type == ..., created_at >= start_of_day_utc, created_at < end_of_day_utc]. *)
Definition select_notifications_between (type : string)
           (start_of_day_utc end_of_day_utc : datetime) (w : World)
  : list Notification.t :=
  filter (λ n, Notification.type n = type
               ∧ start_of_day_utc <= Notification.created_at n
               ∧ Notification.created_at n < end_of_day_utc)
         (notifications w).

Definition _create_notification (clk : Clock) (notification_type title message : string)
           (data : option payload) : M Notification.t :=
  nid ← uuid4;
  let notification :=
    Notification.mk nid notification_type title message data false
                    (utc_now clk) "default" in
  _ ← add_notification notification;
  mret notification.

(** The argument [today] is received and not used; the bounds of the day
    are computed before the query is sent. *)
Definition _check_existing_reminder (clk : Clock) (habit_id : string) (today : date)
  : M bool :=
  let start_of_day_utc := start_of_day (utc_now clk) in
  end_of_day_utc ← lift (end_of_day start_of_day_utc);
  notifications ← execute (select_notifications_between "habit_reminder"
                             start_of_day_utc end_of_day_utc);
  mret (existsb (λ n, data_truthy (Notification.data n)
                      && py_eq_str (data_get (Notification.data n) "habit_id") habit_id
                      && negb (truthy (data_get (Notification.data n) "at_risk")))
                notifications).

Definition _check_existing_at_risk (clk : Clock) (habit_id : string) (today : date)
  : M bool :=
  let start_of_day_utc := start_of_day (utc_now clk) in
  end_of_day_utc ← lift (end_of_day start_of_day_utc);
  notifications ← execute (select_notifications_between "habit_reminder"
                             start_of_day_utc end_of_day_utc);
  mret (existsb (λ n, data_truthy (Notification.data n)
                      && py_eq_str (data_get (Notification.data n) "habit_id") habit_id
                      && truthy (data_get (Notification.data n) "at_risk"))
                notifications).

(** The SELECT of [_check_existing_achievement], before its [limit(1)]. *)
Definition select_achievements (habit_id : string) (milestone : Z) (w : World)
  : list Notification.t :=
  filter (λ n, Notification.type n = "achievement"
               ∧ sql_eq (json_extract (Notification.data n) "habit_id") (SqlText habit_id) = true
               ∧ sql_eq (json_extract (Notification.data n) "milestone") (SqlInteger milestone) = true)
         (notifications w).

Definition _check_existing_achievement (habit_id : string) (milestone : Z) : M bool :=
  result ← execute (λ w, take 1 (select_achievements habit_id milestone w));
  notification ← scalar_one_or_none result;
  mret (bool_decide (notification ≠ None)).

Definition _check_existing_daily_complete (clk : Clock) (today : date) : M bool :=
  let start_of_day_utc := start_of_day (utc_now clk) in
  end_of_day_utc ← lift (end_of_day start_of_day_utc);
  result ← execute (select_notifications_between "daily_complete"
                      start_of_day_utc end_of_day_utc);
  notification ← scalar_one_or_none result;
  mret (bool_decide (notification ≠ None)).

Definition reminder_data (habit : TaskCard.t) : payload :=
  {[ "habit_id" := JStr (TaskCard.id habit);
     "habit_title" := JStr (TaskCard.title habit);
     "current_streak" := JInt (TaskCard.current_streak habit) ]}.

Definition at_risk_data (habit : TaskCard.t) : payload :=
  {[ "habit_id" := JStr (TaskCard.id habit);
     "habit_title" := JStr (TaskCard.title habit);
     "current_streak" := JInt (TaskCard.current_streak habit);
     "at_risk" := JBool true ]}.

Definition achievement_data (habit_id habit_title : string) (streak : Z) : payload :=
  {[ "habit_id" := JStr habit_id;
     "habit_title" := JStr habit_title;
     "streak" := JInt streak;
     "milestone" := JInt streak ]}.

Definition daily_complete_data (completed_count : Z) (today : date) : payload :=
  {[ "completed_count" := JInt completed_count;
     "date" := JStr (isoformat today) ]}.

(** The body of the [for habit in habits] loop of [generate_habit_reminders];
    [created_notifications] is the accumulator. *)
Fixpoint habit_reminders_loop (clk : Clock) (today : date) (habits : list TaskCard.t)
         (created_notifications : list Notification.t) : M (list Notification.t) :=
  match habits with
  | [] => mret created_notifications
  | habit :: rest =>
      if bool_decide (TaskCard.last_checkin_date habit = Some today)
      then habit_reminders_loop clk today rest created_notifications
      else if bool_decide (TaskCard.current_streak habit > 0)
      then habit_reminders_loop clk today rest created_notifications
      else
        existing ← _check_existing_reminder clk (TaskCard.id habit) today;
        if existing : bool
        then habit_reminders_loop clk today rest created_notifications
        else
          notification ← _create_notification clk "habit_reminder"
            ("习惯提醒: " +:+ TaskCard.title habit)
            ("别忘了完成今天的「" +:+ TaskCard.title habit +:+ "」习惯打卡！")
            (Some (reminder_data habit));
          habit_reminders_loop clk today rest (created_notifications ++ [notification])
  end.

Definition generate_habit_reminders (clk : Clock) : M (list Notification.t) :=
  let today := date_today clk in
  habits ← execute select_active_habits;
  habit_reminders_loop clk today habits [].

Fixpoint at_risk_loop (clk : Clock) (today : date) (habits : list TaskCard.t)
         (created_notifications : list Notification.t) : M (list Notification.t) :=
  match habits with
  | [] => mret created_notifications
  | habit :: rest =>
      existing ← _check_existing_at_risk clk (TaskCard.id habit) today;
      if existing : bool
      then at_risk_loop clk today rest created_notifications
      else
        notification ← _create_notification clk "habit_reminder"
          "⚠️ 连续打卡即将中断"
          ("「" +:+ TaskCard.title habit +:+ "」已连续打卡 "
             +:+ pretty (TaskCard.current_streak habit) +:+ " 天，今天还没打卡哦！")
          (Some (at_risk_data habit));
        at_risk_loop clk today rest (created_notifications ++ [notification])
  end.

Definition generate_at_risk_notifications (clk : Clock) : M (list Notification.t) :=
  let today := date_today clk in
  habits ← execute (select_at_risk_habits today);
  at_risk_loop clk today habits [].

Definition check_streak_achievement (clk : Clock) (habit_id : string) (streak : Z)
           (habit_title : string) : M (option Notification.t) :=
  if negb (bool_decide (streak ∈ ACHIEVEMENT_MILESTONES)) then mret None
  else
    existing ← _check_existing_achievement habit_id streak;
    if existing : bool then mret None
    else
      notification ← _create_notification clk "achievement"
        "🎉 成就解锁！"
        ("恭喜！「" +:+ habit_title +:+ "」已连续打卡 " +:+ pretty streak +:+ " 天！")
        (Some (achievement_data habit_id habit_title streak));
      mret (Some notification).

Definition check_daily_complete (clk : Clock) : M (option Notification.t) :=
  let today := date_today clk in
  habits ← execute select_active_habits;
  if bool_decide (habits = []) then mret None
  else
    let all_completed :=
      forallb (λ habit, bool_decide (TaskCard.last_checkin_date habit = Some today))
              habits in
    if negb all_completed then mret None
    else
      existing ← _check_existing_daily_complete clk today;
      if existing : bool then mret None
      else
        notification ← _create_notification clk "daily_complete"
          "🌟 今日习惯全部完成！"
          ("太棒了！你已完成今天的所有 " +:+ pretty (Z.of_nat (length habits))
             +:+ " 个习惯！")
          (Some (daily_complete_data (Z.of_nat (length habits)) today));
        mret (Some notification).

(* ===================================================================== *)
(** ** Request bodies ([app/schemas]) *)
(* ===================================================================== *)

(** Field validation (422) happens before a handler runs. [title] stands
    for the submitted title after [.strip()], which is what the handlers
    store. *)
Module TaskCardCreate.
Record t : Type := mk {
  title : string;
  content : string;
  list_id : option string;
  is_habit : bool;
  reminder_time : option datetime
}.
End TaskCardCreate.

Module TaskCardUpdate.
Record t : Type := mk {
  title : option string;
  content : option string;
  list_id : option string;
  is_habit : option bool;
  reminder_time : option datetime;
  clear_reminder : bool
}.
End TaskCardUpdate.

Module CheckinRequest.
Record t : Type := mk {
  timezone_offset : option Z     (* Optional[int], default 0 *)
}.
End CheckinRequest.

Module NotificationCreate.
Record t : Type := mk {
  type : string;
  title : string;
  message : string;
  data : option payload
}.
End NotificationCreate.

(* ===================================================================== *)
(** ** Task endpoints ([app/api/tasks.py]) *)
(* ===================================================================== *)

(** [select(TaskCard).where(TaskCard.id == task_id)] *)
Definition select_task_by_id (task_id : string) (w : World) : list TaskCard.t :=
  filter (λ t, TaskCard.id t = task_id) (task_cards w).

(** [select(CheckinRecord).where(task_id == ..., checkin_date == ...)] *)
Definition select_checkin (task_id : string) (today : date) (w : World)
  : list CheckinRecord.t :=
  filter (λ r, CheckinRecord.task_id r = task_id ∧ CheckinRecord.checkin_date r = today)
         (checkin_records w).

Definition create_task (clk : Clock) (task_data : TaskCardCreate.t) : M TaskCard.t :=
  tid ← uuid4;
  let task :=
    TaskCard.mk tid (TaskCardCreate.title task_data) (TaskCardCreate.content task_data)
                (TaskCardCreate.list_id task_data) (TaskCardCreate.is_habit task_data)
                (TaskCardCreate.reminder_time task_data)
                0 0 None (utc_now clk) (utc_now clk) false in
  _ ← add_task task;
  mret task.

Definition update_task (clk : Clock) (task_id : string) (task_data : TaskCardUpdate.t)
  : M TaskCard.t :=
  result ← execute (select_task_by_id task_id);
  task ← scalar_one_or_none result;
  match task with
  | None => raise HTTP_404_NOT_FOUND
  | Some task =>
      let t1 := from_option (λ v, TaskCard.set_title v task) task
                            (TaskCardUpdate.title task_data) in
      let t2 := from_option (λ v, TaskCard.set_content v t1) t1
                            (TaskCardUpdate.content task_data) in
      let t3 := from_option (λ v, TaskCard.set_list_id (Some v) t2) t2
                            (TaskCardUpdate.list_id task_data) in
      let t4 := from_option (λ v, TaskCard.set_is_habit v t3) t3
                            (TaskCardUpdate.is_habit task_data) in
      let t5 := if TaskCardUpdate.clear_reminder task_data
                then TaskCard.set_reminder_time None t4
                else from_option (λ v, TaskCard.set_reminder_time (Some v) t4) t4
                                 (TaskCardUpdate.reminder_time task_data) in
      _ ← update_task_row clk task t5;
      refresh_task clk task t5
  end.

Definition delete_task (clk : Clock) (task_id : string) (hard_delete : bool) : M unit :=
  result ← execute (select_task_by_id task_id);
  task ← scalar_one_or_none result;
  match task with
  | None => raise HTTP_404_NOT_FOUND
  | Some task =>
      if hard_delete then delete_task_row task
      else update_task_row clk task (TaskCard.set_is_deleted true task)
  end.

Definition checkin_task (clk : Clock) (task_id : string)
           (checkin_data : option CheckinRequest.t) : M TaskCard.t :=
  result ← execute (select_task_by_id task_id);
  task ← scalar_one_or_none result;
  match task with
  | None => raise HTTP_404_NOT_FOUND
  | Some task =>
      (* Get timezone offset from request, default to UTC *)
      let timezone_offset :=
        match checkin_data with
        | Some d => CheckinRequest.timezone_offset d
        | None => Some 0
        end in
      today ← lift (get_local_date clk timezone_offset);
      (* Check if already checked in today *)
      existing_checkin ← execute (select_checkin task_id today);
      existing ← scalar_one_or_none existing_checkin;
      match existing with
      | Some _ => mret task
      | None =>
          rid ← uuid4;
          let checkin_record := CheckinRecord.mk rid task_id today (utc_now clk) in
          let new_streak :=
            calculate_streak (TaskCard.last_checkin_date task)
                             (TaskCard.current_streak task) today in
          let task1 := TaskCard.set_current_streak new_streak task in
          let task2 := TaskCard.set_last_checkin_date (Some today) task1 in
          let task3 := if bool_decide (new_streak > TaskCard.longest_streak task2)
                       then TaskCard.set_longest_streak new_streak task2
                       else task2 in
          (* await db.commit(): one transaction, only the INSERT can fail *)
          _ ← add_checkin_record checkin_record;
          _ ← update_task_row clk task task3;
          task ← refresh_task clk task task3;
          (* Generate notifications after successful check-in *)
          _ ← check_streak_achievement clk task_id new_streak (TaskCard.title task);
          _ ← check_daily_complete clk;
          mret task
      end
  end.

(** *** Check-ins that overlap

    [checkin_task] is a coroutine: at an [await] the event loop may serve
    another request, which works on a session of its own and sees what is
    committed. A suspended handler keeps its local variables, among them
    the task object it loaded. The handler is cut here at the [await] of
    its existence query, the last point at which it reads the check-in
    table. *)

(** What the handler holds once its existence query is answered: the
    response, when a record was found, or the loaded task and the local day
    it goes on with. *)
Inductive checkin_pending : Type :=
| Responded (task : TaskCard.t)
| ToInsert (task : TaskCard.t) (today : date).

(** [checkin_task] up to the answer of the existence query. *)
Definition checkin_task_begin (clk : Clock) (task_id : string)
           (checkin_data : option CheckinRequest.t) : M checkin_pending :=
  result ← execute (select_task_by_id task_id);
  task ← scalar_one_or_none result;
  match task with
  | None => raise HTTP_404_NOT_FOUND
  | Some task =>
      let timezone_offset :=
        match checkin_data with
        | Some d => CheckinRequest.timezone_offset d
        | None => Some 0
        end in
      today ← lift (get_local_date clk timezone_offset);
      existing_checkin ← execute (select_checkin task_id today);
      existing ← scalar_one_or_none existing_checkin;
      match existing with
      | Some _ => mret (Responded task)
      | None => mret (ToInsert task today)
      end
  end.

(** [checkin_task] from there on, with the task and the day it holds. The
    UPDATE of the flush sets the columns that were assigned a new value;
    [update_task_row] stores the same row as long as no request has written
    another column of it in between. *)
Definition checkin_task_resume (clk : Clock) (task_id : string) (task : TaskCard.t)
           (today : date) : M TaskCard.t :=
  rid ← uuid4;
  let checkin_record := CheckinRecord.mk rid task_id today (utc_now clk) in
  let new_streak :=
    calculate_streak (TaskCard.last_checkin_date task)
                     (TaskCard.current_streak task) today in
  let task1 := TaskCard.set_current_streak new_streak task in
  let task2 := TaskCard.set_last_checkin_date (Some today) task1 in
  let task3 := if bool_decide (new_streak > TaskCard.longest_streak task2)
               then TaskCard.set_longest_streak new_streak task2
               else task2 in
  _ ← add_checkin_record checkin_record;
  _ ← update_task_row clk task task3;
  task ← refresh_task clk task task3;
  _ ← check_streak_achievement clk task_id new_streak (TaskCard.title task);
  _ ← check_daily_complete clk;
  mret task.

Definition checkin_task_finish (clk : Clock) (task_id : string)
           (pending : checkin_pending) : M TaskCard.t :=
  match pending with
  | Responded task => mret task
  | ToInsert task today => checkin_task_resume clk task_id task today
  end.

(** Two check-in requests whose handlers are both suspended at their
    existence query and then resumed, the first one first. *)
Definition checkin_task_overlapped (clk1 clk2 : Clock) (task_id : string)
           (checkin_data1 checkin_data2 : option CheckinRequest.t)
  : M (TaskCard.t * TaskCard.t) :=
  pending1 ← checkin_task_begin clk1 task_id checkin_data1;
  pending2 ← checkin_task_begin clk2 task_id checkin_data2;
  response1 ← checkin_task_finish clk1 task_id pending1;
  response2 ← checkin_task_finish clk2 task_id pending2;
  mret (response1, response2).

(* ===================================================================== *)
(** ** Notification endpoints ([app/api/notifications.py]) *)
(* ===================================================================== *)

Definition select_notification_by_id (notification_id : string) (w : World)
  : list Notification.t :=
  filter (λ n, Notification.id n = notification_id) (notifications w).

Definition create_notification (clk : Clock) (notification : NotificationCreate.t)
  : M Notification.t :=
  nid ← uuid4;
  let new_notification :=
    Notification.mk nid (NotificationCreate.type notification)
                    (NotificationCreate.title notification)
                    (NotificationCreate.message notification)
                    (NotificationCreate.data notification)
                    false (utc_now clk) "default" in
  _ ← add_notification new_notification;
  mret new_notification.

Definition mark_as_read (notification_id : string) : M Notification.t :=
  result ← execute (select_notification_by_id notification_id);
  notification ← scalar_one_or_none result;
  match notification with
  | None => raise HTTP_404_NOT_FOUND
  | Some notification =>
      let notification := Notification.set_is_read true notification in
      _ ← update_notification_row notification;
      mret notification
  end.

(** [update(Notification).where(is_read == False).values(is_read=True)];
    the response carries the number of rows matched. *)
Definition mark_all_as_read : M nat := λ w,
  (mkWorld (task_cards w) (checkin_records w)
           (fmap (λ row, if Notification.is_read row then row
                        else Notification.set_is_read true row) (notifications w))
           (uuids_drawn w),
   Ok (length (filter (λ row, Notification.is_read row = false) (notifications w)))).

Definition delete_notification (notification_id : string) : M unit :=
  result ← execute (select_notification_by_id notification_id);
  notification ← scalar_one_or_none result;
  match notification with
  | None => raise HTTP_404_NOT_FOUND
  | Some notification => delete_notification_row notification
  end.

(* ===================================================================== *)
(** ** The server as a transition system *)
(* ===================================================================== *)

(** The requests that write one of the three tables, and one standing for
    the endpoints of the other tables. *)
Inductive Request : Type :=
| POST_tasks (task_data : TaskCardCreate.t)
| PUT_task (task_id : string) (task_data : TaskCardUpdate.t)
| DELETE_task (task_id : string) (hard_delete : bool)
| POST_task_checkin (task_id : string) (checkin_data : option CheckinRequest.t)
| POST_notifications (notification : NotificationCreate.t)
| PATCH_notification_read (notification_id : string)
| POST_notifications_read_all
| DELETE_notification (notification_id : string)
| POST_notifications_generate_reminders
| POST_notifications_generate_at_risk
| POST_elsewhere.   (* lists, life entries: a uuid is drawn, other tables are written *)

(** The committed world a request leaves behind, whatever it answers. *)
Definition handle (clk : Clock) (req : Request) (w : World) : World :=
  match req with
  | POST_tasks task_data => (create_task clk task_data w).1
  | PUT_task task_id task_data => (update_task clk task_id task_data w).1
  | DELETE_task task_id hard_delete => (delete_task clk task_id hard_delete w).1
  | POST_task_checkin task_id checkin_data => (checkin_task clk task_id checkin_data w).1
  | POST_notifications notification => (create_notification clk notification w).1
  | PATCH_notification_read notification_id => (mark_as_read notification_id w).1
  | POST_notifications_read_all => (mark_all_as_read w).1
  | DELETE_notification notification_id => (delete_notification notification_id w).1
  | POST_notifications_generate_reminders => (generate_habit_reminders clk w).1
  | POST_notifications_generate_at_risk => (generate_at_risk_notifications clk w).1
  | POST_elsewhere => (uuid4 w).1
  end.

(** Requests are served one after the other, each at its own instant:
    no handler is suspended while another one runs. *)
Definition run (trace : list (Clock * Request)) (w : World) : World :=
  foldl (λ w step, handle step.1 step.2 w) w trace.

(** The worlds the server can be in when it serves its requests one at a
    time: those a sequence of requests produces from the empty database. *)
Definition Reachable (w : World) : Prop :=
  ∃ trace, run trace init_world = w.


(* ===================================================================== *)
(** ** Reading the tables: ordering, paging and aggregates *)
(* ===================================================================== *)

(** [ORDER BY key DESC]. SQL leaves the relative order of rows with equal
    keys open; the model fixes one order, and what is proved about a sorted
    result is that it is a rearrangement of the rows with the keys
    descending. *)
Definition desc_by {A} (key : A → Z) : relation A :=
  λ a b, key b <= key a.

#[global] Instance desc_by_dec {A} (key : A → Z) a b : Decision (desc_by key a b).
Proof. unfold desc_by. apply _. Defined.

Definition order_by_desc {A} (key : A → Z) (rows : list A) : list A :=
  merge_sort (desc_by key) rows.

(** [LIMIT :limit] as SQLite evaluates it: a negative limit is no limit. *)
Definition sql_limit {A} (limit : Z) (rows : list A) : list A :=
  if bool_decide (limit < 0) then rows else take (Z.to_nat limit) rows.

(** [OFFSET :offset] as SQLite evaluates it: a negative offset is 0. *)
Definition sql_offset {A} (offset : Z) (rows : list A) : list A :=
  drop (Z.to_nat offset) rows.

(** A Python [int] sent as a parameter of a statement must fit SQLite's
    64-bit INTEGER: the driver raises OverflowError for one that does
    not. *)
Definition sqlite_integer (v : Z) : bool :=
  bool_decide (- 2 ^ 63 <= v < 2 ^ 63).

(** [await db.execute(query)] followed by [.scalars().all()], for a query
    that carries integers of the request as parameters. *)
Definition execute_with {A} (parameters : list Z) (query : World → list A)
  : M (list A) :=
  if forallb sqlite_integer parameters then execute query
  else raise OverflowError.

(** [await db.execute(select(func...))] followed by [.scalar()]: one value,
    SQL NULL being [None]. *)
Definition execute_scalar {A} (query : World → option A) : M (option A) :=
  λ w, (w, Ok (query w)).

(** [func.count(...)] over the selected rows; a count is never NULL. *)
Definition sql_count {A} (rows : list A) : option Z :=
  Some (Z.of_nat (length rows)).

(** [func.max(...)] over the selected values: NULL when no row is selected. *)
Definition sql_max (values : list Z) : option Z :=
  match values with
  | [] => None
  | v :: values => Some (foldr Z.max v values)
  end.

(** [value or 0] on the result of [.scalar()]. *)
Definition or_0 (value : option Z) : Z :=
  match value with
  | None => 0
  | Some v => if bool_decide (v = 0) then 0 else v
  end.

(* ===================================================================== *)
(** ** Task endpoints that read ([app/api/tasks.py]) *)
(* ===================================================================== *)

Definition get_tasks (list_id : option string) (include_deleted : bool)
  : M (list TaskCard.t) :=
  let query := task_cards in
  let query :=
    if negb include_deleted
    then λ w, filter (λ t, TaskCard.is_deleted t = false) (query w)
    else query in
  let query :=
    match list_id with
    | Some list_id => λ w, filter (λ t, TaskCard.list_id t = Some list_id) (query w)
    | None => query
    end in
  let query := λ w, order_by_desc TaskCard.created_at (query w) in
  tasks ← execute query;
  mret tasks.

Definition get_task (task_id : string) : M TaskCard.t :=
  result ← execute (select_task_by_id task_id);
  task ← scalar_one_or_none result;
  match task with
  | None => raise HTTP_404_NOT_FOUND
  | Some task => mret task
  end.

(** [select(CheckinRecord).where(task_id == ...)
      .order_by(checkin_date.desc()).limit(limit)] *)
Definition select_task_checkins (task_id : string) (limit : Z) (w : World)
  : list CheckinRecord.t :=
  sql_limit limit
    (order_by_desc CheckinRecord.checkin_date
       (filter (λ r, CheckinRecord.task_id r = task_id) (checkin_records w))).

(** The route declares [1 <= limit <= 365]; a request outside that range is
    refused before the handler runs. *)
Definition get_task_checkins (task_id : string) (limit : Z)
  : M (list CheckinRecord.t) :=
  result ← execute (select_task_by_id task_id);
  task ← scalar_one_or_none result;
  match task with
  | None => raise HTTP_404_NOT_FOUND
  | Some task =>
      records ← execute (select_task_checkins task_id limit);
      mret records
  end.

(* ===================================================================== *)
(** ** Notification endpoints that read ([app/api/notifications.py]) *)
(* ===================================================================== *)

Module NotificationListResponse.
Record t : Type := mk {
  notifications : list Notification.t;
  total : Z;
  unread_count : Z
}.
End NotificationListResponse.

(** [select(...).where(Notification.is_read == False)] *)
Definition select_unread (w : World) : list Notification.t :=
  filter (λ n, Notification.is_read n = false) (notifications w).

(** The page query of [get_notifications]; [limit] and [offset] are its
    parameters. *)
Definition select_notifications_page (limit offset : Z) (unread_only : bool) (w : World)
  : list Notification.t :=
  let rows := if unread_only then select_unread w else notifications w in
  sql_limit limit (sql_offset offset (order_by_desc Notification.created_at rows)).

(** The route puts no bound on [limit] and [offset]. *)
Definition get_notifications (limit offset : Z) (unread_only : bool)
  : M NotificationListResponse.t :=
  page ← execute_with [limit; offset]
           (select_notifications_page limit offset unread_only);
  total_result ← execute_scalar (λ w, sql_count (notifications w));
  let total := or_0 total_result in
  unread_result ← execute_scalar (λ w, sql_count (select_unread w));
  let unread_count := or_0 unread_result in
  mret (NotificationListResponse.mk page total unread_count).

(** The [count] of the [UnreadCountResponse]. *)
Definition get_unread_count : M Z :=
  result ← execute_scalar (λ w, sql_count (select_unread w));
  let count := or_0 result in
  mret count.

(* ===================================================================== *)
(** ** Statistics ([app/api/stats.py]) *)
(* ===================================================================== *)

(** [stats.py] carries its own copy of [get_local_date], line for line the
    one of [tasks.py]; both are [get_local_date] above. The responses hold a
    floating-point percentage next to the counts; the model keeps the
    counts. *)
Module DailyRingData.
Record t : Type := mk {
  date : Z;
  total_habits : Z;
  completed_habits : Z
}.
End DailyRingData.

Module StatsOverview.
Record t : Type := mk {
  total_tasks : Z;
  completed_tasks : Z;
  pending_tasks : Z;
  longest_streak : Z;
  today_checkins : Z
}.
End StatsOverview.

(** [CheckinRecord JOIN TaskCard ON CheckinRecord.task_id == TaskCard.id]
    (an inner join: a record whose task is gone pairs with nothing). *)
Definition checkins_join_tasks (w : World) : list (CheckinRecord.t * TaskCard.t) :=
  r ← checkin_records w;
  t ← task_cards w;
  if bool_decide (CheckinRecord.task_id r = TaskCard.id t) then [(r, t)] else [].

(** [count(distinct(CheckinRecord.task_id))] over the join, for the records
    of [target_date] whose task is an active habit. *)
Definition completed_habits_query (target_date : date) (w : World) : option Z :=
  sql_count
    (remove_dups
       ((λ rt, CheckinRecord.task_id rt.1) <$>
          filter (λ rt, CheckinRecord.checkin_date rt.1 = target_date
                        ∧ TaskCard.is_habit rt.2 = true
                        ∧ TaskCard.is_deleted rt.2 = false)
                 (checkins_join_tasks w))).

Definition calculate_daily_ring (target_date : date) : M DailyRingData.t :=
  total_result ← execute_scalar (λ w, sql_count (select_active_habits w));
  let total_habits := or_0 total_result in
  completed_result ← execute_scalar (completed_habits_query target_date);
  let completed_habits := or_0 completed_result in
  mret (DailyRingData.mk target_date total_habits completed_habits).

(** [count(distinct(TaskCard.id))] over the join, for the tasks that are
    not deleted. *)
Definition completed_tasks_query (w : World) : option Z :=
  sql_count
    (remove_dups
       ((λ rt, TaskCard.id rt.2) <$>
          filter (λ rt, TaskCard.is_deleted rt.2 = false) (checkins_join_tasks w))).

(** [max(max(current_streak, longest_streak))] over the active habits. *)
Definition longest_streak_query (w : World) : option Z :=
  sql_max ((λ t, Z.max (TaskCard.current_streak t) (TaskCard.longest_streak t))
             <$> select_active_habits w).

Definition calculate_stats_overview (target_date : date) : M StatsOverview.t :=
  total_result ← execute_scalar
    (λ w, sql_count (filter (λ t, TaskCard.is_deleted t = false) (task_cards w)));
  let total_tasks := or_0 total_result in
  completed_result ← execute_scalar completed_tasks_query;
  let completed_tasks := or_0 completed_result in
  let pending_tasks := total_tasks - completed_tasks in
  longest_streak_result ← execute_scalar longest_streak_query;
  let longest_streak := or_0 longest_streak_result in
  today_checkins_result ← execute_scalar
    (λ w, sql_count (filter (λ r, CheckinRecord.checkin_date r = target_date)
                            (checkin_records w)));
  let today_checkins := or_0 today_checkins_result in
  mret (StatsOverview.mk total_tasks completed_tasks pending_tasks longest_streak
                         today_checkins).

(** The [timezone_offset] of the two routes is an [int] with default 0. *)
Definition get_stats_overview (clk : Clock) (timezone_offset : Z) : M StatsOverview.t :=
  target_date ← lift (get_local_date clk (Some timezone_offset));
  calculate_stats_overview target_date.

Definition get_daily_ring (clk : Clock) (timezone_offset : Z) (target_date : option date)
  : M DailyRingData.t :=
  target_date ← match target_date with
                | None => lift (get_local_date clk (Some timezone_offset))
                | Some target_date => mret target_date
                end;
  calculate_daily_ring target_date.

(* ===================================================================== *)
(** ** Life entries that are read ([app/api/life_entries.py]) *)
(* ===================================================================== *)

Module LifeEntry.
Record t : Type := mk {
  id : string;
  content : string;
  created_at : datetime;
  updated_at : datetime;
  is_deleted : bool
}.

#[global] Instance eq_dec : EqDecision t.
Proof. solve_decision. Defined.
End LifeEntry.

Module LifeEntryPaginatedResponse.
Record t : Type := mk {
  items : list LifeEntry.t;
  total : Z;
  page : Z;
  page_size : Z;
  total_pages : Z
}.
End LifeEntryPaginatedResponse.

Module DateGroupedEntries.
Record t : Type := mk {
  date : Z;
  entries : list LifeEntry.t
}.
End DateGroupedEntries.

Module LifeEntryGroupedResponse.
Record t : Type := mk {
  groups : list DateGroupedEntries.t;
  total : Z;
  page : Z;
  page_size : Z;
  total_pages : Z
}.
End LifeEntryGroupedResponse.

(** The [life_entries] table stands beside the three tables of [World]; the
    two listing endpoints read it and nothing else, so they are functions
    of its rows, with the exception they may raise. The routes declare
    [page >= 1], with no upper bound, and [1 <= page_size <= 100]; a request
    outside that range is refused before the handler runs. [//] is floor
    division, as [`div`] is. [offset] and [page_size] are the parameters of
    the page query, which the driver refuses when they do not fit SQLite's
    INTEGER. *)
Definition get_life_entries (page page_size : Z) (include_deleted : bool)
           (life_entries : list LifeEntry.t) : result LifeEntryPaginatedResponse.t :=
  let base_query := life_entries in
  let base_query :=
    if negb include_deleted
    then filter (λ e, LifeEntry.is_deleted e = false) base_query
    else base_query in
  let total := or_0 (sql_count base_query) in
  let total_pages :=
    if bool_decide (total > 0) then (total + page_size - 1) `div` page_size else 1 in
  let offset := (page - 1) * page_size in
  if forallb sqlite_integer [offset; page_size]
  then
    let entries :=
      sql_limit page_size
        (sql_offset offset (order_by_desc LifeEntry.created_at base_query)) in
    Ok (LifeEntryPaginatedResponse.mk entries total page page_size total_pages)
  else Raise OverflowError.

(** [date_groups[key].append(entry)] on a [defaultdict(list)], whose keys
    stay in the order of their first insertion. *)
Fixpoint defaultdict_append (date_groups : list (Z * list LifeEntry.t)) (key : Z)
         (entry : LifeEntry.t) : list (Z * list LifeEntry.t) :=
  match date_groups with
  | [] => [(key, [entry])]
  | (k, entries_list) :: rest =>
      if bool_decide (k = key) then (k, entries_list ++ [entry]) :: rest
      else (k, entries_list) :: defaultdict_append rest key entry
  end.

(** [sorted(date_groups.items(), reverse=True)]: the keys of a dict are
    distinct, so the comparison of two items is decided by their dates. *)
Definition get_life_entries_grouped (page page_size : Z) (include_deleted : bool)
           (life_entries : list LifeEntry.t) : result LifeEntryGroupedResponse.t :=
  let base_query := life_entries in
  let base_query :=
    if negb include_deleted
    then filter (λ e, LifeEntry.is_deleted e = false) base_query
    else base_query in
  let total := or_0 (sql_count base_query) in
  let total_pages :=
    if bool_decide (total > 0) then (total + page_size - 1) `div` page_size else 1 in
  let offset := (page - 1) * page_size in
  if forallb sqlite_integer [offset; page_size]
  then
    let entries :=
      sql_limit page_size
        (sql_offset offset (order_by_desc LifeEntry.created_at base_query)) in
    let date_groups :=
      foldl (λ date_groups entry,
               let entry_date := date_of (LifeEntry.created_at entry) in
               defaultdict_append date_groups entry_date entry)
            [] entries in
    let groups :=
      (λ item, DateGroupedEntries.mk item.1 item.2) <$> order_by_desc fst date_groups in
    Ok (LifeEntryGroupedResponse.mk groups total page page_size total_pages)
  else Raise OverflowError.


(* ===================================================================== *)
(** ** Vocabulary of the statements *)
(* ===================================================================== *)

(** Every identifier of the list was drawn from the uuid supply. *)
Definition ids_below (n : N) (ids : list string) : Prop :=
  Forall (λ s, ∃ k : N, (k < n)%N ∧ s = pretty k) ids.

(** What the uniqueness of check-ins is about: the task and the date. *)
Definition checkin_key (r : CheckinRecord.t) : string * Z :=
  (CheckinRecord.task_id r, CheckinRecord.checkin_date r).

Definition checkins_unique (w : World) : Prop :=
  NoDup (checkin_key <$> checkin_records w).

Definition task_consistent (t : TaskCard.t) : Prop :=
  0 <= TaskCard.current_streak t <= TaskCard.longest_streak t
  ∧ (0 < TaskCard.current_streak t → is_Some (TaskCard.last_checkin_date t)).

Record Inv (w : World) : Prop := {
  inv_task_pk : NoDup (TaskCard.id <$> task_cards w);
  inv_task_consistent : Forall task_consistent (task_cards w);
  inv_checkins_unique : checkins_unique w;
  inv_checkin_ids : ids_below (uuids_drawn w) (CheckinRecord.id <$> checkin_records w);
  inv_notification_ids : ids_below (uuids_drawn w) (Notification.id <$> notifications w)
}.

(** A step that leaves tasks and check-ins alone. *)
Record notification_step (w w' : World) : Prop := {
  ns_tasks : task_cards w' = task_cards w;
  ns_checkins : checkin_records w' = checkin_records w;
  ns_drawn : (uuids_drawn w <= uuids_drawn w')%N;
  ns_ids : ids_below (uuids_drawn w) (Notification.id <$> notifications w) →
           ids_below (uuids_drawn w') (Notification.id <$> notifications w')
}.

Definition notification_only {A} (m : M A) : Prop :=
  ∀ w, notification_step w (m w).1.

(** The row a [_create_notification] call builds in world [w]. *)
Definition new_notification (clk : Clock) (w : World)
           (notification_type title message : string) (data : option payload)
  : Notification.t :=
  Notification.mk (pretty (uuids_drawn w)) notification_type title message data
                  false (utc_now clk) "default".

(** The world after a successful [_create_notification]. *)
Definition with_notification (w : World) (n : Notification.t) : World :=
  mkWorld (task_cards w) (checkin_records w) (notifications w ++ [n])
          (N.succ (uuids_drawn w)).

(** The offset [checkin_task] hands to [get_local_date]. *)
Definition requested_offset (checkin_data : option CheckinRequest.t) : option Z :=
  match checkin_data with
  | Some d => CheckinRequest.timezone_offset d
  | None => Some 0
  end.

(** The attribute assignments of a check-in on [today]. *)
Definition streak_update (today : date) (task : TaskCard.t) : TaskCard.t :=
  let new_streak :=
    calculate_streak (TaskCard.last_checkin_date task) (TaskCard.current_streak task)
                     today in
  let task2 :=
    TaskCard.set_last_checkin_date (Some today)
      (TaskCard.set_current_streak new_streak task) in
  if bool_decide (new_streak > TaskCard.longest_streak task2)
  then TaskCard.set_longest_streak new_streak task2 else task2.

(** The task row as stored by the commit of a check-in. *)
Definition checked_in (clk : Clock) (today : date) (task : TaskCard.t) : TaskCard.t :=
  flushed_task clk task (streak_update today task).

(** The record a check-in inserts in world [w]. *)
Definition new_checkin_record (clk : Clock) (task_id : string) (today : date) (w : World)
  : CheckinRecord.t :=
  CheckinRecord.mk (pretty (uuids_drawn w)) task_id today (utc_now clk).

(** The world right after the commit of a check-in. *)
Definition committed_checkin (clk : Clock) (task_id : string) (today : date)
           (task : TaskCard.t) (w : World) : World :=
  mkWorld ((λ row, if bool_decide (TaskCard.id row = TaskCard.id task)
                   then checked_in clk today task else row) <$> task_cards w)
          (checkin_records w ++ [new_checkin_record clk task_id today w])
          (notifications w)
          (N.succ (uuids_drawn w)).

(** The two notification checks that follow the commit. *)
Definition after_commit (clk : Clock) (task_id : string) (today : date)
           (task : TaskCard.t) : M TaskCard.t :=
  _ ← check_streak_achievement clk task_id
        (calculate_streak (TaskCard.last_checkin_date task)
                          (TaskCard.current_streak task) today)
        (TaskCard.title (checked_in clk today task));
  _ ← check_daily_complete clk;
  mret (checked_in clk today task).

(** The day after the UTC day of the clock is still a [datetime]: the
    clock is on a day before 9999-12-31. *)
Definition before_last_day (clk : Clock) : Prop :=
  datetime_in_range (start_of_day (utc_now clk) + us_per_day) = true.

#[global] Instance before_last_day_dec clk : Decision (before_last_day clk).
Proof. unfold before_last_day. apply _. Defined.

(** An instant of the UTC calendar day of the clock, from midnight to the
    next midnight. *)
Definition within_utc_day (clk : Clock) (created_at : datetime) : Prop :=
  start_of_day (utc_now clk) <= created_at
  ∧ created_at < start_of_day (utc_now clk) + us_per_day.

#[global] Instance within_utc_day_dec clk t : Decision (within_utc_day clk t).
Proof. unfold within_utc_day. apply _. Defined.

(** The notifications of a type created within the UTC day of the clock. *)
Definition notifications_of_utc_day (clk : Clock) (type : string) (w : World)
  : list Notification.t :=
  filter (λ n, Notification.type n = type
               ∧ within_utc_day clk (Notification.created_at n))
         (notifications w).

(** An at-risk notification for the habit was created within the UTC day
    of the clock. *)
Definition at_risk_exists (clk : Clock) (habit_id : string) (w : World) : bool :=
  existsb (λ n, data_truthy (Notification.data n)
                && py_eq_str (data_get (Notification.data n) "habit_id") habit_id
                && truthy (data_get (Notification.data n) "at_risk"))
          (notifications_of_utc_day clk "habit_reminder" w).

(** A plain reminder for the habit was created within the UTC day of the
    clock. *)
Definition reminder_exists (clk : Clock) (habit_id : string) (w : World) : bool :=
  existsb (λ n, data_truthy (Notification.data n)
                && py_eq_str (data_get (Notification.data n) "habit_id") habit_id
                && negb (truthy (data_get (Notification.data n) "at_risk")))
          (notifications_of_utc_day clk "habit_reminder" w).

Definition achievement_notification (clk : Clock) (w : World)
           (habit_id : string) (streak : Z) (habit_title : string) : Notification.t :=
  new_notification clk w "achievement" "🎉 成就解锁！"
    ("恭喜！「" +:+ habit_title +:+ "」已连续打卡 " +:+ pretty streak +:+ " 天！")
    (Some (achievement_data habit_id habit_title streak)).

Definition daily_complete_notification (clk : Clock) (w : World) : Notification.t :=
  let completed_count := Z.of_nat (length (select_active_habits w)) in
  new_notification clk w "daily_complete" "🌟 今日习惯全部完成！"
    ("太棒了！你已完成今天的所有 " +:+ pretty completed_count +:+ " 个习惯！")
    (Some (daily_complete_data completed_count (date_today clk))).

(** A task the notification service treats as a habit to track. *)
Definition active_habit (t : TaskCard.t) : Prop :=
  TaskCard.is_habit t = true ∧ TaskCard.is_deleted t = false.

(** A notification created within the UTC calendar day of [clk]. *)
Definition created_today_utc (clk : Clock) (n : Notification.t) : Prop :=
  date_of (Notification.created_at n) = date_of (utc_now clk).

(** An achievement notification whose payload names the habit and the
    milestone. *)
Definition achievement_for (habit_id : string) (milestone : Z) (n : Notification.t)
  : Prop :=
  Notification.type n = "achievement"
  ∧ data_get (Notification.data n) "habit_id" = Some (JStr habit_id)
  ∧ data_get (Notification.data n) "milestone" = Some (JInt milestone).

(** A notification whose payload names the habit. *)
Definition for_habit (habit_id : string) (n : Notification.t) : Prop :=
  data_get (Notification.data n) "habit_id" = Some (JStr habit_id).

#[global] Instance achievement_for_dec habit_id milestone n :
  Decision (achievement_for habit_id milestone n).
Proof. unfold achievement_for. apply _. Defined.

#[global] Instance for_habit_dec habit_id n : Decision (for_habit habit_id n).
Proof. unfold for_habit. apply _. Defined.

#[global] Instance active_habit_dec t : Decision (active_habit t).
Proof. unfold active_habit. apply _. Defined.

(** A sequence of [check_streak_achievement] invocations, each with its
    clock, habit id, streak and habit title; the answer collects the
    notifications created. *)
Fixpoint achievement_calls (calls : list (Clock * string * Z * string))
  : M (list Notification.t) :=
  match calls with
  | [] => mret []
  | (clk, habit_id, streak, habit_title) :: rest =>
      created ← check_streak_achievement clk habit_id streak habit_title;
      more ← achievement_calls rest;
      mret (from_option (λ n, [n]) [] created ++ more)
  end.

(** At most one check-in record per task and calendar date. *)
Definition at_most_one_checkin (w : World) : Prop :=
  ∀ task_id d, (length (select_checkin task_id d w) <= 1)%nat.

(* ===================================================================== *)
(** ** Scenarios *)
(* ===================================================================== *)

(** 2024-03-01, and noon UTC of a day on a server running in UTC. *)
Definition day1 : date := 738946.

Definition noon (d : date) : Clock :=
  {| utc_now := (d - 1) * us_per_day + 12 * 60 * us_per_minute; date_today := d |}.

Definition habit_body : TaskCardCreate.t :=
  TaskCardCreate.mk "Daily Exercise" "" None true None.

Definition plain_body : TaskCardCreate.t :=
  TaskCardCreate.mk "Buy milk" "" None false None.

Definition daily_complete_body : NotificationCreate.t :=
  NotificationCreate.mk "daily_complete" "All done" "" None.

(** One habit, never checked in. *)
Definition trace_created : list (Clock * Request) :=
  [ (noon day1, POST_tasks habit_body) ].

Definition world_created : World :=
  Eval vm_compute in run trace_created init_world.

(** A habit is created and checked in on [day1]. *)
Definition trace_checked_in : list (Clock * Request) :=
  [ (noon day1, POST_tasks habit_body);
    (noon day1, POST_task_checkin "0" None) ].

Definition world_checked_in : World :=
  Eval vm_compute in run trace_checked_in init_world.

(** A habit is created, and two [daily_complete] notifications are posted
    through the API on [day1]. *)
Definition trace_two_daily : list (Clock * Request) :=
  [ (noon day1, POST_tasks habit_body);
    (noon day1, POST_notifications daily_complete_body);
    (noon day1, POST_notifications daily_complete_body) ].

Definition world_two_daily : World :=
  Eval vm_compute in run trace_two_daily init_world.

(** A habit and a plain task are created; the habit is checked in, which
    records the day as complete; one more [daily_complete] notification is
    posted through the API. *)
Definition trace_plain_task : list (Clock * Request) :=
  [ (noon day1, POST_tasks habit_body);
    (noon day1, POST_tasks plain_body);
    (noon day1, POST_task_checkin "0" None);
    (noon day1, POST_notifications daily_complete_body) ].

Definition world_plain_task : World :=
  Eval vm_compute in run trace_plain_task init_world.

(** Two habits are created, the first is checked in on [day1], and the
    second is then soft-deleted: every active habit is done for the day
    and no [daily_complete] notification exists yet. *)
Definition trace_day_done : list (Clock * Request) :=
  [ (noon day1, POST_tasks habit_body);
    (noon day1, POST_tasks habit_body);
    (noon day1, POST_task_checkin "0" None);
    (noon day1, DELETE_task "1" false) ].

Definition world_day_done : World :=
  Eval vm_compute in run trace_day_done init_world.

(** Two habits are created; the first is checked in on three consecutive
    days, the second never. *)
Definition trace_streak3 : list (Clock * Request) :=
  [ (noon day1, POST_tasks habit_body);
    (noon day1, POST_tasks habit_body);
    (noon day1, POST_task_checkin "0" None);
    (noon (day1 + 1), POST_task_checkin "0" None);
    (noon (day1 + 2), POST_task_checkin "0" None) ].

Definition world_streak3 : World :=
  Eval vm_compute in run trace_streak3 init_world.

(** A habit is created on [day1] and reminded of at 23:50 UTC. *)
Definition late_evening (d : date) : Clock :=
  {| utc_now := (d - 1) * us_per_day + (23 * 60 + 50) * us_per_minute; date_today := d |}.

(** Five minutes past midnight UTC of the day. *)
Definition after_midnight : Clock :=
  {| utc_now := day1 * us_per_day + 5 * us_per_minute; date_today := day1 + 1 |}.

Definition trace_evening_reminder : list (Clock * Request) :=
  [ (noon day1, POST_tasks habit_body);
    (late_evening day1, POST_notifications_generate_reminders) ].

Definition world_evening_reminder : World :=
  Eval vm_compute in run trace_evening_reminder init_world.

(** A habit row written directly into the table, as the tests of the
    repository do it: with a streak and a last check-in date of their
    choosing. *)
Definition streak_habit (id : string) (current_streak : Z)
           (last_checkin_date : option date) : TaskCard.t :=
  TaskCard.mk id "Test Habit" "" None true None current_streak current_streak
              last_checkin_date (utc_now (noon day1)) (utc_now (noon day1)) false.

(** Three such habits: a streak of 3 and a streak of 0, both last checked
    in on [day1], and a streak of 2 checked in on the day after. *)
Definition world_streaks_set : World :=
  mkWorld [ streak_habit "a" 3 (Some day1);
            streak_habit "b" 0 (Some day1);
            streak_habit "c" 2 (Some (day1 + 1)) ] [] [] 0.

(** A plain task is created and then soft-deleted. *)
Definition trace_deleted_plain : list (Clock * Request) :=
  [ (noon day1, POST_tasks plain_body);
    (noon day1, DELETE_task "0" false) ].

Definition world_deleted_plain : World :=
  Eval vm_compute in run trace_deleted_plain init_world.

(** The first scenario of the specification: a habit is created and
    checked in, checked in once more on the same day, and again on the
    next day. *)
Definition trace_daily_exercise : list (Clock * Request) :=
  [ (noon day1, POST_tasks habit_body);
    (noon day1, POST_task_checkin "0" None);
    (noon day1, POST_task_checkin "0" None);
    (noon (day1 + 1), POST_task_checkin "0" None) ].

(** What a trace leaves in the streak columns: for each task its current
    streak, its longest streak and its last check-in date. *)
Definition streaks (w : World) : list (Z * Z * option Z) :=
  (λ t, (TaskCard.current_streak t, TaskCard.longest_streak t,
         TaskCard.last_checkin_date t)) <$> task_cards w.


(* ===================================================================== *)
(** ** Streak columns and check-in history *)
(* ===================================================================== *)

(** The check-in records of a task. *)
Definition checkins_of (task_id : string) (w : World) : list CheckinRecord.t :=
  filter (λ r, CheckinRecord.task_id r = task_id) (checkin_records w).

(** What the streak columns and the check-in table say about each other. *)
Record Inv_history (w : World) : Prop := {
  hist_task_ids : ids_below (uuids_drawn w) (TaskCard.id <$> task_cards w);
  hist_checkin_task_ids :
    ids_below (uuids_drawn w) (CheckinRecord.task_id <$> checkin_records w);
  hist_last_recorded : ∀ t d,
    t ∈ task_cards w → TaskCard.last_checkin_date t = Some d →
    ∃ r, r ∈ checkin_records w ∧ CheckinRecord.task_id r = TaskCard.id t
         ∧ CheckinRecord.checkin_date r = d;
  hist_recorded_last : ∀ r t,
    r ∈ checkin_records w → t ∈ task_cards w →
    CheckinRecord.task_id r = TaskCard.id t → is_Some (TaskCard.last_checkin_date t);
  hist_streak_positive : ∀ t,
    t ∈ task_cards w → is_Some (TaskCard.last_checkin_date t) →
    1 <= TaskCard.current_streak t;
  hist_longest_le_records : ∀ t,
    t ∈ task_cards w →
    TaskCard.longest_streak t <= Z.of_nat (length (checkins_of (TaskCard.id t) w))
}.

(* ===================================================================== *)
(** ** Task rows as the endpoints write them *)
(* ===================================================================== *)

(** The row [create_task] builds in world [w]. *)
Definition new_task (clk : Clock) (task_data : TaskCardCreate.t) (w : World) : TaskCard.t :=
  TaskCard.mk (pretty (uuids_drawn w)) (TaskCardCreate.title task_data)
              (TaskCardCreate.content task_data) (TaskCardCreate.list_id task_data)
              (TaskCardCreate.is_habit task_data) (TaskCardCreate.reminder_time task_data)
              0 0 None (utc_now clk) (utc_now clk) false.

(** The attribute assignments of [update_task]. *)
Definition assigned (task_data : TaskCardUpdate.t) (task : TaskCard.t) : TaskCard.t :=
  let t1 := from_option (λ v, TaskCard.set_title v task) task
                        (TaskCardUpdate.title task_data) in
  let t2 := from_option (λ v, TaskCard.set_content v t1) t1
                        (TaskCardUpdate.content task_data) in
  let t3 := from_option (λ v, TaskCard.set_list_id (Some v) t2) t2
                        (TaskCardUpdate.list_id task_data) in
  let t4 := from_option (λ v, TaskCard.set_is_habit v t3) t3
                        (TaskCardUpdate.is_habit task_data) in
  if TaskCardUpdate.clear_reminder task_data
  then TaskCard.set_reminder_time None t4
  else from_option (λ v, TaskCard.set_reminder_time (Some v) t4) t4
                   (TaskCardUpdate.reminder_time task_data).

(** The task table with the row of [task_id] replaced. *)
Definition replace_task (task_id : string) (task' : TaskCard.t) (rows : list TaskCard.t)
  : list TaskCard.t :=
  (λ row, if bool_decide (TaskCard.id row = task_id) then task' else row) <$> rows.

(** What [get_tasks] is asked to list. *)
Definition listed (list_id : option string) (include_deleted : bool) (t : TaskCard.t)
  : Prop :=
  (include_deleted = true ∨ TaskCard.is_deleted t = false)
  ∧ (∀ l, list_id = Some l → TaskCard.list_id t = Some l).

#[global] Instance listed_dec list_id include_deleted t :
  Decision (listed list_id include_deleted t).
Proof.
  unfold listed. destruct list_id as [l|].
  - destruct (decide (TaskCard.list_id t = Some l)) as [Heq|Hne].
    + destruct (decide (include_deleted = true ∨ TaskCard.is_deleted t = false)).
      * left. split; [done|]. by intros ? [= <-].
      * right. tauto.
    + right. intros [_ H]. by apply Hne, H.
  - destruct (decide (include_deleted = true ∨ TaskCard.is_deleted t = false)).
    + left. split; [done|]. by intros ? [=].
    + right. tauto.
Defined.

(** A body of [PUT /api/tasks/{id}] that provides nothing. *)
Definition empty_update : TaskCardUpdate.t :=
  TaskCardUpdate.mk None None None None None false.

(* ===================================================================== *)
(** ** More scenarios *)
(* ===================================================================== *)

Definition system_body : NotificationCreate.t :=
  NotificationCreate.mk "system" "Welcome" "" None.

(** A habit is created and checked in on [day1] (which records the day as
    complete); a system notification is posted and the first notification
    is marked as read. *)
Definition trace_inbox : list (Clock * Request) :=
  [ (noon day1, POST_tasks habit_body);
    (noon day1, POST_task_checkin "0" None);
    (noon day1, POST_notifications system_body);
    (noon day1, PATCH_notification_read "2") ].

Definition world_inbox : World :=
  Eval vm_compute in run trace_inbox init_world.

(** A habit is created and checked in on [day1]; a second habit and a plain
    task are created and never checked in. *)
Definition trace_mixed : list (Clock * Request) :=
  [ (noon day1, POST_tasks habit_body);
    (noon day1, POST_task_checkin "0" None);
    (noon day1, POST_tasks habit_body);
    (noon day1, POST_tasks plain_body) ].

Definition world_mixed : World :=
  Eval vm_compute in run trace_mixed init_world.

(* ===================================================================== *)
(** ** Runs of check-ins *)
(* ===================================================================== *)

(** One check-in request on [task_id] per element, served in order. *)
Definition checkins_trace (task_id : string)
           (days : list (Clock * option CheckinRequest.t)) : list (Clock * Request) :=
  (λ step, (step.1, POST_task_checkin task_id step.2)) <$> days.

(** The requests fall on the local days [d], [d + 1], [d + 2], ... *)
Definition consecutive_from (d : Z) (days : list (Clock * option CheckinRequest.t))
  : Prop :=
  ∀ i step, days !! i = Some step →
            get_local_date step.1 (requested_offset step.2) = Ok (d + Z.of_nat i).

(** The streak a run of consecutive days builds on: the current one when
    the last check-in was the day before the run, nothing otherwise. *)
Definition streak_base (task : TaskCard.t) (d : Z) : Z :=
  if bool_decide (TaskCard.last_checkin_date task = Some (d - 1))
  then TaskCard.current_streak task else 0.

(* ===================================================================== *)
(** ** Steps that append notifications *)
(* ===================================================================== *)

(** A step that leaves tasks, check-ins and the stored notifications alone
    and appends at most [k] notifications, under ids drawn during the
    step. *)
Record appends (k : nat) (w w' : World) : Prop := {
  ap_tasks : task_cards w' = task_cards w;
  ap_checkins : checkin_records w' = checkin_records w;
  ap_drawn : (uuids_drawn w <= uuids_drawn w')%N;
  ap_news : ∃ news,
    notifications w' = notifications w ++ news
    ∧ (length news <= k)%nat
    ∧ NoDup (Notification.id <$> news)
    ∧ Forall (λ n, ∃ i : N, (uuids_drawn w <= i < uuids_drawn w')%N
                            ∧ Notification.id n = pretty i) news
}.

Definition appends_only {A} (k : nat) (m : M A) : Prop :=
  ∀ w, appends k w (m w).1.

(** The primary key of the notification table holds. *)
Definition notifications_unique (w : World) : Prop :=
  NoDup (Notification.id <$> notifications w).

(** The notification table with the row of [notification_id] replaced. *)
Definition replace_notification (notification_id : string) (n' : Notification.t)
           (rows : list Notification.t) : list Notification.t :=
  (λ row, if bool_decide (Notification.id row = notification_id) then n' else row)
    <$> rows.

(** A habit [generate_habit_reminders] does not skip before it looks for an
    existing reminder: not checked in today and without a streak. *)
Definition reminder_due (today : date) (habit : TaskCard.t) : Prop :=
  TaskCard.last_checkin_date habit ≠ Some today ∧ ¬ TaskCard.current_streak habit > 0.

#[global] Instance reminder_due_dec today habit : Decision (reminder_due today habit).
Proof. unfold reminder_due. apply _. Defined.

(** Noon UTC of 9999-12-31, the last day a [datetime] can show. *)
Definition last_day : Clock := noon max_ordinal.

(* ===================================================================== *)
(** ** Statistics *)
(* ===================================================================== *)

(** The task has a check-in record on the day. *)
Definition done_on (target_date : date) (w : World) (t : TaskCard.t) : Prop :=
  select_checkin (TaskCard.id t) target_date w ≠ [].

#[global] Instance done_on_dec target_date w t : Decision (done_on target_date w t).
Proof. unfold done_on. apply _. Defined.

(** The active habits that have a check-in record on the day. *)
Definition habits_done_on (target_date : date) (w : World) : list TaskCard.t :=
  filter (λ t, active_habit t ∧ done_on target_date w t) (task_cards w).

(** The tasks that are not deleted and have a check-in record. *)
Definition tasks_checked_in (w : World) : list TaskCard.t :=
  filter (λ t, TaskCard.is_deleted t = false ∧ checkins_of (TaskCard.id t) w ≠ [])
         (task_cards w).

(* ===================================================================== *)
(** ** Life entries *)
(* ===================================================================== *)

(** The entries a listing is about: all of them, or the ones not deleted. *)
Definition entry_listed (include_deleted : bool) (e : LifeEntry.t) : Prop :=
  include_deleted = true ∨ LifeEntry.is_deleted e = false.

#[global] Instance entry_listed_dec include_deleted e :
  Decision (entry_listed include_deleted e).
Proof. unfold entry_listed. apply _. Defined.

(** The calendar day an entry was created on. *)
Definition entry_date (e : LifeEntry.t) : date := date_of (LifeEntry.created_at e).

(** Five entries on three days, the fourth one deleted. *)
Definition journal : list LifeEntry.t :=
  let at_noon d := utc_now (noon d) in
  [ LifeEntry.mk "a" "woke early" (at_noon day1) (at_noon day1) false;
    LifeEntry.mk "b" "long walk" (at_noon day1 + 1) (at_noon day1 + 1) false;
    LifeEntry.mk "c" "rain" (at_noon (day1 + 1)) (at_noon (day1 + 1)) false;
    LifeEntry.mk "d" "typo" (at_noon (day1 + 1) + 1) (at_noon (day1 + 2)) true;
    LifeEntry.mk "e" "sun" (at_noon (day1 + 2)) (at_noon (day1 + 2)) false ].

(* ===================================================================== *)
(** ** The request monad *)
(* ===================================================================== *)

Lemma bind_Ok {A B} (m : M A) (k : A → M B) w w' a :
  m w = (w', Ok a) → (m ≫= k) w = k a w'.
Proof. intros H. unfold mbind, M_bind. by rewrite H. Qed.

Lemma bind_Raise {A B} (m : M A) (k : A → M B) w w' e :
  m w = (w', Raise e) → (m ≫= k) w = (w', Raise e).
Proof. intros H. unfold mbind, M_bind. by rewrite H. Qed.

Lemma bind_ret {A B} (a : A) (k : A → M B) w : (mret a ≫= k) w = k a w.
Proof. reflexivity. Qed.

Lemma bind_raise {A B} e (k : A → M B) w : (raise e ≫= k) w = (w, Raise e).
Proof. reflexivity. Qed.

Lemma bind_execute {A B} (q : World → list A) (k : list A → M B) w :
  (execute q ≫= k) w = k (q w) w.
Proof. reflexivity. Qed.

Lemma bind_lift {A B} (r : result A) (k : A → M B) w :
  (lift r ≫= k) w = match r with Ok a => k a w | Raise e => (w, Raise e) end.
Proof. by destruct r. Qed.

Lemma bind_scalar_one_or_none {A B} (rows : list A) (k : option A → M B) w :
  (scalar_one_or_none rows ≫= k) w
  = match rows with
    | [] => k None w
    | [row] => k (Some row) w
    | _ :: _ :: _ => (w, Raise MultipleResultsFound)
    end.
Proof. by destruct rows as [|? [|? ?]]. Qed.

Lemma bind_uuid4 {B} (k : string → M B) w :
  (uuid4 ≫= k) w
  = k (pretty (uuids_drawn w))
      (mkWorld (task_cards w) (checkin_records w) (notifications w)
               (N.succ (uuids_drawn w))).
Proof. reflexivity. Qed.

(* ===================================================================== *)
(** ** Lists and keyed tables *)
(* ===================================================================== *)

Lemma filter_none {A} (P : A → Prop) `{∀ x, Decision (P x)} (l : list A) :
  (∀ x, x ∈ l → ¬ P x) → filter P l = [].
Proof.
  induction l as [|a l IH]; intros Hn; [done|].
  rewrite filter_cons_False by (apply Hn; left).
  apply IH. intros x Hx. apply Hn. by right.
Qed.

Lemma filter_key_unique {A K} (f : A → K) `{EqDecision K} (l : list A) (x : A) :
  NoDup (f <$> l) → x ∈ l → filter (λ y, f y = f x) l = [x].
Proof.
  induction l as [|a l IH]; intros Hnd Hin.
  - by apply elem_of_nil in Hin.
  - rewrite fmap_cons in Hnd. apply NoDup_cons in Hnd as [Hna Hnd].
    apply elem_of_cons in Hin as [->|Hin].
    + rewrite filter_cons_True by done. f_equal.
      apply filter_none. intros y Hy Heq. apply Hna. rewrite <- Heq.
      by apply list_elem_of_fmap_2.
    + rewrite filter_cons_False; [by apply IH|].
      intros Heq. apply Hna. rewrite Heq. by apply list_elem_of_fmap_2.
Qed.

Lemma fmap_key_preserved {A K} (f : A → K) (g : A → A) (l : list A) :
  (∀ x, f (g x) = f x) → f <$> (g <$> l) = f <$> l.
Proof.
  intros Hg. rewrite <- list_fmap_compose. apply list_fmap_ext. intros i x _. apply Hg.
Qed.

Lemma NoDup_fmap_filter {A K} (f : A → K) (P : A → Prop) `{∀ x, Decision (P x)}
      (l : list A) :
  NoDup (f <$> l) → NoDup (f <$> filter P l).
Proof.
  induction l as [|a l IH]; intros Hnd; [constructor|].
  rewrite fmap_cons in Hnd. apply NoDup_cons in Hnd as [Hna Hnd].
  rewrite filter_cons. case_decide; [|auto].
  rewrite fmap_cons. apply NoDup_cons. split; [|auto].
  intros Hin. apply Hna. apply list_elem_of_fmap in Hin as (y & -> & Hy).
  apply list_elem_of_filter in Hy as [_ Hy]. by apply list_elem_of_fmap_2.
Qed.

Lemma NoDup_fmap_eq {A K} (f : A → K) (l : list A) x y :
  NoDup (f <$> l) → x ∈ l → y ∈ l → f x = f y → x = y.
Proof.
  induction l as [|a l IH]; intros Hnd Hx Hy Heq; [by apply elem_of_nil in Hx|].
  rewrite fmap_cons in Hnd. apply NoDup_cons in Hnd as [Hna Hnd].
  apply elem_of_cons in Hx as [->|Hx]; apply elem_of_cons in Hy as [->|Hy]; auto.
  - exfalso. apply Hna. rewrite Heq. by apply list_elem_of_fmap_2.
  - exfalso. apply Hna. rewrite <- Heq. by apply list_elem_of_fmap_2.
Qed.

Lemma existsb_elem_of {A} (f : A → bool) (l : list A) :
  existsb f l = true ↔ ∃ x, x ∈ l ∧ f x = true.
Proof.
  rewrite existsb_exists. split; intros (x & Hx & Hf); exists x; split; try done;
    by apply list_elem_of_In.
Qed.

Lemma String_eqb_eq (a b : string) : String.eqb a b = true ↔ a = b.
Proof. apply String.eqb_eq. Qed.

(* ===================================================================== *)
(** ** The uuid supply *)
(* ===================================================================== *)

Lemma ids_below_mono n n' ids : (n <= n')%N → ids_below n ids → ids_below n' ids.
Proof.
  intros Hle Hb. eapply Forall_impl; [exact Hb|].
  intros s (k & Hk & ->). exists k. split; [lia | done].
Qed.

Lemma ids_below_fresh n ids : ids_below n ids → pretty n ∉ ids.
Proof.
  intros Hb Hin. unfold ids_below in Hb. rewrite Forall_forall in Hb.
  destruct (Hb _ Hin) as (k & Hk & Heq).
  apply (inj pretty) in Heq. lia.
Qed.

Lemma ids_below_snoc n ids : ids_below n ids → ids_below (N.succ n) (ids ++ [pretty n]).
Proof.
  intros Hb. apply Forall_app. split.
  - eapply ids_below_mono; [|done]. lia.
  - apply Forall_singleton. exists n. split; [lia|done].
Qed.

Lemma ids_below_filter {A} n (f : A → string) (P : A → Prop) `{∀ x, Decision (P x)}
      (l : list A) :
  ids_below n (f <$> l) → ids_below n (f <$> filter P l).
Proof.
  unfold ids_below. rewrite !Forall_fmap. intros Hb.
  apply Forall_forall. intros x Hx. apply list_elem_of_filter in Hx as [_ Hx].
  rewrite Forall_forall in Hb. by apply Hb.
Qed.

(* ===================================================================== *)
(** ** The UTC day window *)
(* ===================================================================== *)

Lemma start_of_day_bounds t :
  start_of_day t <= t < start_of_day t + us_per_day.
Proof.
  unfold start_of_day.
  assert (0 < us_per_day) as Hpos by (unfold us_per_day; lia).
  pose proof (Z.mul_div_le t us_per_day Hpos).
  pose proof (Z.mul_succ_div_gt t us_per_day Hpos). lia.
Qed.

Lemma within_utc_day_now clk : within_utc_day clk (utc_now clk).
Proof. unfold within_utc_day. apply start_of_day_bounds. Qed.

Lemma within_utc_day_iff clk t : within_utc_day clk t ↔ date_of t = date_of (utc_now clk).
Proof.
  unfold within_utc_day, start_of_day, date_of.
  assert (0 < us_per_day) as Hpos by (unfold us_per_day; lia).
  split.
  - intros [Hlo Hhi].
    assert (t / us_per_day = utc_now clk / us_per_day); [|lia].
    symmetry. apply (Z.div_unique_pos t us_per_day _ (t - utc_now clk / us_per_day * us_per_day));
      lia.
  - intros Heq. assert (utc_now clk / us_per_day = t / us_per_day) as -> by lia.
    pose proof (Z.mul_div_le t us_per_day Hpos).
    pose proof (Z.mul_succ_div_gt t us_per_day Hpos). lia.
Qed.

Lemma end_of_day_ok clk :
  before_last_day clk →
  end_of_day (start_of_day (utc_now clk)) = Ok (start_of_day (utc_now clk) + us_per_day).
Proof. unfold before_last_day, end_of_day. cbv zeta. by intros ->. Qed.

Lemma end_of_day_last clk :
  ¬ before_last_day clk →
  end_of_day (start_of_day (utc_now clk)) = Raise OverflowError.
Proof.
  unfold before_last_day, end_of_day. cbv zeta.
  by destruct (datetime_in_range _).
Qed.

(** For a clock that shows a [datetime], the day before which the window
    can be formed is any day but the last one of the calendar. *)
Lemma before_last_day_iff clk :
  0 <= utc_now clk →
  before_last_day clk ↔ date_of (utc_now clk) < max_ordinal.
Proof.
  intros Hpos. unfold before_last_day, datetime_in_range, start_of_day, date_of.
  assert (0 < us_per_day) as Hday by (unfold us_per_day; lia).
  pose proof (Z.div_pos (utc_now clk) us_per_day Hpos Hday) as Hq.
  rewrite bool_decide_eq_true. split.
  - intros [_ Hlt]. nia.
  - intros Hlt. split; nia.
Qed.

Lemma select_notifications_between_day clk type w :
  select_notifications_between type (start_of_day (utc_now clk))
    (start_of_day (utc_now clk) + us_per_day) w
  = notifications_of_utc_day clk type w.
Proof. reflexivity. Qed.

Lemma notifications_of_utc_day_elem clk type w n :
  n ∈ notifications_of_utc_day clk type w
  ↔ n ∈ notifications w ∧ Notification.type n = type ∧ created_today_utc clk n.
Proof.
  unfold notifications_of_utc_day, created_today_utc.
  rewrite list_elem_of_filter, within_utc_day_iff. tauto.
Qed.

(* ===================================================================== *)
(** ** Payload lookups *)
(* ===================================================================== *)

Lemma at_risk_data_get habit :
  data_get (Some (at_risk_data habit)) "habit_id" = Some (JStr (TaskCard.id habit))
  ∧ data_get (Some (at_risk_data habit)) "at_risk" = Some (JBool true)
  ∧ data_truthy (Some (at_risk_data habit)) = true.
Proof. split_and!; reflexivity. Qed.

Lemma achievement_data_get habit_id habit_title streak :
  data_get (Some (achievement_data habit_id habit_title streak)) "habit_id"
  = Some (JStr habit_id)
  ∧ data_get (Some (achievement_data habit_id habit_title streak)) "milestone"
    = Some (JInt streak).
Proof. split; reflexivity. Qed.

(* ===================================================================== *)
(** ** Steps that write notifications only *)
(* ===================================================================== *)

Lemma notification_step_refl w : notification_step w w.
Proof. by split. Qed.

Lemma notification_step_trans w1 w2 w3 :
  notification_step w1 w2 → notification_step w2 w3 → notification_step w1 w3.
Proof.
  intros [T1 C1 D1 I1] [T2 C2 D2 I2]. split.
  - by rewrite T2. 
  - by rewrite C2.
  - lia.
  - auto.
Qed.

Lemma notification_only_bind {A B} (m : M A) (k : A → M B) :
  notification_only m → (∀ a, notification_only (k a)) → notification_only (m ≫= k).
Proof.
  intros Hm Hk w. specialize (Hm w). unfold mbind, M_bind.
  destruct (m w) as [w' [a|e]]; simpl in *; [|done].
  eapply notification_step_trans; [exact Hm | apply Hk].
Qed.

Lemma notification_only_ret {A} (a : A) : notification_only (mret a).
Proof. intros w. apply notification_step_refl. Qed.

Lemma notification_only_raise {A} e : notification_only (@raise A e).
Proof. intros w. apply notification_step_refl. Qed.

Lemma notification_only_execute {A} (q : World → list A) : notification_only (execute q).
Proof. intros w. apply notification_step_refl. Qed.

Lemma notification_only_scalar {A} (rows : list A) : notification_only (scalar_one_or_none rows).
Proof.
  destruct rows as [|? [|? ?]]; simpl;
    auto using notification_only_ret, notification_only_raise.
Qed.

Lemma notification_only_uuid4 : notification_only uuid4.
Proof.
  intros w. split; simpl; try done; [lia|].
  apply ids_below_mono. lia.
Qed.

Create HintDb notif discriminated.

#[local] Hint Resolve notification_only_ret notification_only_raise
  notification_only_execute notification_only_scalar notification_only_uuid4 : notif.

Lemma _create_notification_eq clk ty ti msg data w :
  ids_below (uuids_drawn w) (Notification.id <$> notifications w) →
  _create_notification clk ty ti msg data w
  = (with_notification w (new_notification clk w ty ti msg data),
     Ok (new_notification clk w ty ti msg data)).
Proof.
  intros Hb. unfold _create_notification, mbind, M_bind, uuid4, add_notification. simpl.
  rewrite bool_decide_eq_false_2; [done|].
  by apply ids_below_fresh.
Qed.

Lemma notification_only_create clk ty ti msg data :
  notification_only (_create_notification clk ty ti msg data).
Proof.
  intros w. unfold _create_notification, mbind, M_bind, uuid4, add_notification. simpl.
  case_bool_decide; simpl.
  - split; simpl; try done; [lia|]. apply ids_below_mono. lia.
  - split; simpl; try done; [lia|]. intros Hb. rewrite fmap_app. simpl.
    by apply ids_below_snoc.
Qed.

#[local] Hint Resolve notification_only_create : notif.

Lemma notification_only_lift {A} (r : result A) : notification_only (lift r).
Proof. intros w. apply notification_step_refl. Qed.

#[local] Hint Resolve notification_only_lift : notif.

Lemma notification_only_check_existing_reminder clk hid today :
  notification_only (_check_existing_reminder clk hid today).
Proof.
  unfold _check_existing_reminder.
  apply notification_only_bind; [auto with notif|]. intros end_of_day_utc.
  apply notification_only_bind; auto with notif.
Qed.

Lemma notification_only_check_existing_at_risk clk hid today :
  notification_only (_check_existing_at_risk clk hid today).
Proof.
  unfold _check_existing_at_risk.
  apply notification_only_bind; [auto with notif|]. intros end_of_day_utc.
  apply notification_only_bind; auto with notif.
Qed.

Lemma notification_only_check_existing_achievement hid m :
  notification_only (_check_existing_achievement hid m).
Proof.
  unfold _check_existing_achievement.
  apply notification_only_bind; [auto with notif|]. intros rows.
  apply notification_only_bind; auto with notif.
Qed.

Lemma notification_only_check_existing_daily_complete clk today :
  notification_only (_check_existing_daily_complete clk today).
Proof.
  unfold _check_existing_daily_complete.
  apply notification_only_bind; [auto with notif|]. intros end_of_day_utc.
  apply notification_only_bind; [auto with notif|]. intros rows.
  apply notification_only_bind; auto with notif.
Qed.

#[local] Hint Resolve notification_only_check_existing_reminder
  notification_only_check_existing_at_risk
  notification_only_check_existing_achievement
  notification_only_check_existing_daily_complete : notif.

Lemma notification_only_habit_reminders_loop clk today habits acc :
  notification_only (habit_reminders_loop clk today habits acc).
Proof.
  revert acc. induction habits as [|habit rest IH]; intros acc; simpl.
  - auto with notif.
  - repeat case_bool_decide; try apply IH.
    apply notification_only_bind; [auto with notif|]. intros [|]; [apply IH|].
    apply notification_only_bind; [auto with notif|]. intros n. apply IH.
Qed.

Lemma notification_only_at_risk_loop clk today habits acc :
  notification_only (at_risk_loop clk today habits acc).
Proof.
  revert acc. induction habits as [|habit rest IH]; intros acc; simpl.
  - auto with notif.
  - apply notification_only_bind; [auto with notif|]. intros [|]; [apply IH|].
    apply notification_only_bind; [auto with notif|]. intros n. apply IH.
Qed.

Lemma notification_only_generate_habit_reminders clk :
  notification_only (generate_habit_reminders clk).
Proof.
  unfold generate_habit_reminders.
  apply notification_only_bind; [auto with notif|]. intros habits.
  apply notification_only_habit_reminders_loop.
Qed.

Lemma notification_only_generate_at_risk clk :
  notification_only (generate_at_risk_notifications clk).
Proof.
  unfold generate_at_risk_notifications.
  apply notification_only_bind; [auto with notif|]. intros habits.
  apply notification_only_at_risk_loop.
Qed.

Lemma notification_only_check_streak_achievement clk hid streak title :
  notification_only (check_streak_achievement clk hid streak title).
Proof.
  unfold check_streak_achievement. destruct (negb _); [auto with notif|].
  apply notification_only_bind; [auto with notif|]. intros [|]; [auto with notif|].
  apply notification_only_bind; auto with notif.
Qed.

Lemma notification_only_check_daily_complete clk :
  notification_only (check_daily_complete clk).
Proof.
  unfold check_daily_complete.
  apply notification_only_bind; [auto with notif|]. intros habits.
  case_bool_decide; [auto with notif|].
  destruct (negb _); [auto with notif|].
  apply notification_only_bind; [auto with notif|]. intros [|]; [auto with notif|].
  apply notification_only_bind; auto with notif.
Qed.

#[local] Hint Resolve notification_only_check_streak_achievement
  notification_only_check_daily_complete : notif.

Lemma notification_only_create_notification clk body :
  notification_only (create_notification clk body).
Proof.
  intros w. unfold create_notification, mbind, M_bind, uuid4, add_notification. simpl.
  case_bool_decide; simpl.
  - split; simpl; try done; [lia|]. apply ids_below_mono. lia.
  - split; simpl; try done; [lia|]. intros Hb. rewrite fmap_app. simpl.
    by apply ids_below_snoc.
Qed.

Lemma notification_only_mark_as_read nid : notification_only (mark_as_read nid).
Proof.
  unfold mark_as_read.
  apply notification_only_bind; [auto with notif|]. intros rows.
  apply notification_only_bind; [auto with notif|]. intros [n|]; [|auto with notif].
  apply notification_only_bind; [|auto with notif].
  intros w. split; simpl; try done.
  rewrite fmap_key_preserved; [done|].
  intros row. case_bool_decide; simpl; congruence.
Qed.

Lemma notification_only_mark_all_as_read : notification_only mark_all_as_read.
Proof.
  intros w. split; simpl; try done.
  rewrite fmap_key_preserved; [done|].
  intros row. by destruct (Notification.is_read row).
Qed.

Lemma notification_only_delete_notification nid :
  notification_only (delete_notification nid).
Proof.
  unfold delete_notification.
  apply notification_only_bind; [auto with notif|]. intros rows.
  apply notification_only_bind; [auto with notif|]. intros [n|]; [|auto with notif].
  intros w. split; simpl; try done. apply ids_below_filter.
Qed.

Lemma notification_only_after_commit clk task_id today task :
  notification_only (after_commit clk task_id today task).
Proof.
  unfold after_commit.
  apply notification_only_bind; [auto with notif|]. intros _.
  apply notification_only_bind; auto with notif.
Qed.

(* ===================================================================== *)
(** ** Queries by key *)
(* ===================================================================== *)

Lemma select_task_by_id_unique w task :
  NoDup (TaskCard.id <$> task_cards w) → task ∈ task_cards w →
  select_task_by_id (TaskCard.id task) w = [task].
Proof. intros. unfold select_task_by_id. by apply filter_key_unique. Qed.

Lemma select_checkin_unique w r :
  checkins_unique w → r ∈ checkin_records w →
  select_checkin (CheckinRecord.task_id r) (CheckinRecord.checkin_date r) w = [r].
Proof.
  intros Hu Hin. unfold select_checkin.
  rewrite <- (filter_key_unique checkin_key (checkin_records w) r Hu Hin).
  apply list_filter_iff. intros r'. unfold checkin_key. split; [intros [-> ->]; done|intros [= -> ->]; done].
Qed.

Lemma select_task_by_id_elem w task_id task :
  task ∈ select_task_by_id task_id w ↔ TaskCard.id task = task_id ∧ task ∈ task_cards w.
Proof. unfold select_task_by_id. by rewrite list_elem_of_filter. Qed.

Lemma select_task_by_id_none w task_id :
  (∀ task, task ∈ task_cards w → TaskCard.id task ≠ task_id) →
  select_task_by_id task_id w = [].
Proof. intros Hno. unfold select_task_by_id. apply filter_none. exact Hno. Qed.

Lemma select_checkin_nil_key w task_id today :
  select_checkin task_id today w = [] →
  (task_id, today) ∉ (checkin_key <$> checkin_records w).
Proof.
  intros Hsel Hin. apply list_elem_of_fmap in Hin as (r & Hk & Hr).
  unfold checkin_key in Hk. injection Hk as -> ->.
  unfold select_checkin in Hsel.
  by eapply (filter_nil_not_elem_of _ _ r) in Hsel.
Qed.

(* ===================================================================== *)
(** ** The shape of a check-in *)
(* ===================================================================== *)

(** The first statements of [checkin_task], up to and including the query
    the hypotheses speak about. *)
Ltac checkin_lookup Ht :=
  unfold checkin_task; rewrite bind_execute, Ht, bind_scalar_one_or_none.

Ltac checkin_resolve Ht Hd :=
  checkin_lookup Ht;
  lazymatch type of Hd with
  | get_local_date _ (requested_offset ?d) = _ => fold (requested_offset d)
  end;
  rewrite bind_lift, Hd.

Ltac checkin_query Ht Hd Hr :=
  checkin_resolve Ht Hd; rewrite bind_execute, Hr, bind_scalar_one_or_none.

Lemma checkin_task_not_found clk task_id checkin_data w :
  select_task_by_id task_id w = [] →
  checkin_task clk task_id checkin_data w = (w, Raise HTTP_404_NOT_FOUND).
Proof. intros Ht. by checkin_lookup Ht. Qed.

Lemma checkin_task_ambiguous clk task_id checkin_data w t1 t2 rest :
  select_task_by_id task_id w = t1 :: t2 :: rest →
  checkin_task clk task_id checkin_data w = (w, Raise MultipleResultsFound).
Proof. intros Ht. by checkin_lookup Ht. Qed.

Section CheckinShape.

Context (clk : Clock) (task_id : string) (checkin_data : option CheckinRequest.t).
Context (w : World) (task : TaskCard.t).

(** The task id resolves to exactly one row. *)
Hypothesis Htask : select_task_by_id task_id w = [task].

Lemma checkin_task_no_date e :
  get_local_date clk (requested_offset checkin_data) = Raise e →
  checkin_task clk task_id checkin_data w = (w, Raise e).
Proof. intros Hd. by checkin_resolve Htask Hd. Qed.

Context (today : Z).

(** The local day of the request is resolved. *)
Hypothesis Hday : get_local_date clk (requested_offset checkin_data) = Ok today.

Lemma checkin_task_already r :
  select_checkin task_id today w = [r] →
  checkin_task clk task_id checkin_data w = (w, Ok task).
Proof. intros Hr. by checkin_query Htask Hday Hr. Qed.

Lemma checkin_task_duplicates r1 r2 rest :
  select_checkin task_id today w = r1 :: r2 :: rest →
  checkin_task clk task_id checkin_data w = (w, Raise MultipleResultsFound).
Proof. intros Hr. by checkin_query Htask Hday Hr. Qed.

Lemma checkin_task_commits :
  select_checkin task_id today w = [] →
  pretty (uuids_drawn w) ∉ (CheckinRecord.id <$> checkin_records w) →
  checkin_task clk task_id checkin_data w
  = after_commit clk task_id today task (committed_checkin clk task_id today task w).
Proof.
  intros Hr Hfresh. checkin_query Htask Hday Hr. rewrite bind_uuid4.
  unfold mbind at 1, M_bind at 1. unfold add_checkin_record at 1. simpl.
  by rewrite bool_decide_eq_false_2.
Qed.

Lemma checkin_task_pk_clash :
  select_checkin task_id today w = [] →
  pretty (uuids_drawn w) ∈ (CheckinRecord.id <$> checkin_records w) →
  checkin_task clk task_id checkin_data w
  = (mkWorld (task_cards w) (checkin_records w) (notifications w)
             (N.succ (uuids_drawn w)), Raise IntegrityError).
Proof.
  intros Hr Hclash. checkin_query Htask Hday Hr. rewrite bind_uuid4.
  unfold mbind at 1, M_bind at 1. unfold add_checkin_record at 1. simpl.
  by rewrite bool_decide_eq_true_2.
Qed.

End CheckinShape.

(* ===================================================================== *)
(** ** What a commit stores *)
(* ===================================================================== *)

Lemma flushed_task_fields clk loaded modified :
  let stored := flushed_task clk loaded modified in
  TaskCard.id stored = TaskCard.id modified
  ∧ TaskCard.title stored = TaskCard.title modified
  ∧ TaskCard.content stored = TaskCard.content modified
  ∧ TaskCard.list_id stored = TaskCard.list_id modified
  ∧ TaskCard.is_habit stored = TaskCard.is_habit modified
  ∧ TaskCard.reminder_time stored = TaskCard.reminder_time modified
  ∧ TaskCard.current_streak stored = TaskCard.current_streak modified
  ∧ TaskCard.longest_streak stored = TaskCard.longest_streak modified
  ∧ TaskCard.last_checkin_date stored = TaskCard.last_checkin_date modified
  ∧ TaskCard.created_at stored = TaskCard.created_at modified
  ∧ TaskCard.is_deleted stored = TaskCard.is_deleted modified.
Proof.
  unfold flushed_task. case_bool_decide as Heq; [rewrite Heq|]; simpl; repeat split.
Qed.

Lemma streak_update_fields today task :
  let new_streak := calculate_streak (TaskCard.last_checkin_date task)
                                     (TaskCard.current_streak task) today in
  let task' := streak_update today task in
  TaskCard.id task' = TaskCard.id task
  ∧ TaskCard.title task' = TaskCard.title task
  ∧ TaskCard.content task' = TaskCard.content task
  ∧ TaskCard.list_id task' = TaskCard.list_id task
  ∧ TaskCard.is_habit task' = TaskCard.is_habit task
  ∧ TaskCard.reminder_time task' = TaskCard.reminder_time task
  ∧ TaskCard.current_streak task' = new_streak
  ∧ TaskCard.longest_streak task' = Z.max (TaskCard.longest_streak task) new_streak
  ∧ TaskCard.last_checkin_date task' = Some today
  ∧ TaskCard.created_at task' = TaskCard.created_at task
  ∧ TaskCard.is_deleted task' = TaskCard.is_deleted task.
Proof.
  unfold streak_update. simpl. case_bool_decide; simpl; repeat split; lia.
Qed.

Lemma checked_in_fields clk today task :
  let new_streak := calculate_streak (TaskCard.last_checkin_date task)
                                     (TaskCard.current_streak task) today in
  let task' := checked_in clk today task in
  TaskCard.id task' = TaskCard.id task
  ∧ TaskCard.title task' = TaskCard.title task
  ∧ TaskCard.content task' = TaskCard.content task
  ∧ TaskCard.list_id task' = TaskCard.list_id task
  ∧ TaskCard.is_habit task' = TaskCard.is_habit task
  ∧ TaskCard.reminder_time task' = TaskCard.reminder_time task
  ∧ TaskCard.current_streak task' = new_streak
  ∧ TaskCard.longest_streak task' = Z.max (TaskCard.longest_streak task) new_streak
  ∧ TaskCard.last_checkin_date task' = Some today
  ∧ TaskCard.created_at task' = TaskCard.created_at task
  ∧ TaskCard.is_deleted task' = TaskCard.is_deleted task.
Proof.
  intros new_streak task'. subst task'. unfold checked_in.
  pose proof (flushed_task_fields clk task (streak_update today task)) as F.
  pose proof (streak_update_fields today task) as S.
  cbv zeta in F, S. subst new_streak. destruct_and!. repeat split; congruence.
Qed.

Lemma calculate_streak_bounds last streak today :
  0 <= streak → 1 <= calculate_streak last streak today ∨
               calculate_streak last streak today = streak.
Proof.
  intros. unfold calculate_streak. destruct last; repeat case_bool_decide; lia.
Qed.

Lemma checked_in_consistent clk today task :
  task_consistent task → task_consistent (checked_in clk today task).
Proof.
  intros [Hb _]. pose proof (checked_in_fields clk today task) as F. cbv zeta in F.
  destruct_and!. unfold task_consistent.
  repeat match goal with H : _ = _ |- _ => rewrite H end.
  split; [|by eauto].
  destruct (calculate_streak_bounds (TaskCard.last_checkin_date task)
              (TaskCard.current_streak task) today); lia.
Qed.

Lemma checked_in_stored clk task_id today task w :
  task ∈ task_cards w →
  checked_in clk today task ∈ task_cards (committed_checkin clk task_id today task w).
Proof.
  intros Hin. simpl. apply list_elem_of_fmap. exists task. split; [|done].
  by rewrite bool_decide_eq_true_2.
Qed.

Lemma new_checkin_record_stored clk task_id today task w :
  new_checkin_record clk task_id today w
  ∈ checkin_records (committed_checkin clk task_id today task w).
Proof. simpl. apply elem_of_app. right. left. Qed.

(* ===================================================================== *)
(** ** The invariant of the reachable worlds *)
(* ===================================================================== *)

Lemma notification_step_Inv w w' : Inv w → notification_step w w' → Inv w'.
Proof.
  intros [PK TC CU CI NI] [T C D I]. split.
  - by rewrite T.
  - by rewrite T.
  - unfold checkins_unique. by rewrite C.
  - rewrite C. by eapply ids_below_mono.
  - auto.
Qed.

Lemma Inv_init : Inv init_world.
Proof. split; simpl; try constructor. Qed.

Lemma Inv_drawn w :
  Inv w →
  Inv (mkWorld (task_cards w) (checkin_records w) (notifications w)
               (N.succ (uuids_drawn w))).
Proof.
  intros H. apply (notification_step_Inv w); [done|].
  split; simpl; try done; [lia|]. apply ids_below_mono. lia.
Qed.

Lemma Inv_update_task_row clk loaded modified w :
  Inv w → TaskCard.id modified = TaskCard.id loaded → task_consistent modified →
  Inv (update_task_row clk loaded modified w).1.
Proof.
  intros [PK TC CU CI NI] Hid Hc.
  pose proof (flushed_task_fields clk loaded modified) as F. cbv zeta in F.
  destruct_and!.
  split; simpl; try done.
  - rewrite fmap_key_preserved; [done|].
    intros row. case_bool_decide; congruence.
  - apply Forall_fmap. eapply Forall_impl; [exact TC|].
    intros row Hrow. simpl. case_bool_decide; [|done].
    destruct Hc as [Hc1 Hc2]. unfold task_consistent.
    repeat match goal with H : _ = _ |- _ => rewrite H end. done.
Qed.

Lemma Inv_create_task clk task_data w : Inv w → Inv (create_task clk task_data w).1.
Proof.
  intros H. unfold create_task. rewrite bind_uuid4.
  unfold mbind, M_bind, add_task. simpl.
  apply Inv_drawn in H. case_bool_decide as Hin; simpl; [done|].
  destruct H as [PK TC CU CI NI]. simpl in *. split; simpl; try done.
  - rewrite fmap_app. simpl. apply NoDup_app. split_and!; [done| |apply NoDup_singleton].
    intros x Hx Hx'. apply list_elem_of_singleton in Hx'. by subst.
  - apply Forall_app. split; [done|]. apply Forall_singleton.
    split; simpl; [lia|]. lia.
Qed.

Lemma Inv_update_task clk task_id task_data w :
  Inv w → Inv (update_task clk task_id task_data w).1.
Proof.
  intros H. unfold update_task.
  rewrite bind_execute, bind_scalar_one_or_none.
  destruct (select_task_by_id task_id w) as [|task [|? ?]] eqn:Ht; try done.
  assert (task ∈ task_cards w) as Hin.
  { apply (select_task_by_id_elem w task_id). rewrite Ht. left. }
  match goal with |- Inv ((update_task_row _ _ ?m ≫= _) _).1 =>
    assert (Inv (update_task_row clk task m w).1) as H';
      [|unfold mbind, M_bind; simpl in *; exact H'] end.
  apply Inv_update_task_row; [done| |].
  - destruct task_data as [[?|] [?|] [?|] [?|] [?|] [|]]; reflexivity.
  - pose proof (inv_task_consistent _ H) as TC. rewrite Forall_forall in TC.
    specialize (TC _ Hin).
    destruct task_data as [[?|] [?|] [?|] [?|] [?|] [|]]; exact TC.
Qed.

Lemma Inv_delete_task clk task_id hard_delete w :
  Inv w → Inv (delete_task clk task_id hard_delete w).1.
Proof.
  intros H. unfold delete_task.
  rewrite bind_execute, bind_scalar_one_or_none.
  destruct (select_task_by_id task_id w) as [|task [|? ?]] eqn:Ht; try done.
  assert (task ∈ task_cards w) as Hin.
  { apply (select_task_by_id_elem w task_id). rewrite Ht. left. }
  destruct hard_delete.
  - destruct H as [PK TC CU CI NI]. split; simpl; try done.
    + by apply NoDup_fmap_filter.
    + apply Forall_forall. intros x Hx. apply list_elem_of_filter in Hx as [_ Hx].
      rewrite Forall_forall in TC. by apply TC.
  - apply Inv_update_task_row; [done|done|].
    pose proof (inv_task_consistent _ H) as TC. rewrite Forall_forall in TC.
    exact (TC _ Hin).
Qed.

Lemma Inv_committed_checkin clk task_id today task w :
  Inv w → task ∈ task_cards w → select_checkin task_id today w = [] →
  Inv (committed_checkin clk task_id today task w).
Proof.
  intros H Hin Hsel.
  pose proof (checked_in_fields clk today task) as F. cbv zeta in F. destruct_and!.
  pose proof (inv_task_consistent _ H) as TC.
  assert (task_consistent task) as Htc. { rewrite Forall_forall in TC. by apply TC. }
  destruct H as [PK _ CU CI NI]. split; simpl.
  - rewrite fmap_key_preserved; [done|]. intros row. case_bool_decide; congruence.
  - apply Forall_fmap. eapply Forall_impl; [exact TC|].
    intros row Hrow. simpl. case_bool_decide; [|done].
    by apply checked_in_consistent.
  - unfold checkins_unique. simpl. rewrite fmap_app. apply NoDup_app.
    split_and!; [done| |apply NoDup_singleton].
    intros k Hk Hk'. apply list_elem_of_singleton in Hk'. subst k.
    by apply (select_checkin_nil_key w task_id today).
  - rewrite fmap_app. by apply ids_below_snoc.
  - eapply ids_below_mono; [|done]. lia.
Qed.

Lemma Inv_checkin_task clk task_id checkin_data w :
  Inv w → Inv (checkin_task clk task_id checkin_data w).1.
Proof.
  intros H.
  destruct (select_task_by_id task_id w) as [|task [|? ?]] eqn:Ht;
    [by rewrite checkin_task_not_found| |by erewrite checkin_task_ambiguous].
  destruct (get_local_date clk (requested_offset checkin_data)) as [today|e] eqn:Hd;
    [|by erewrite checkin_task_no_date].
  destruct (select_checkin task_id today w) as [|r [|? ?]] eqn:Hr;
    [|by erewrite checkin_task_already|by erewrite checkin_task_duplicates].
  rewrite (checkin_task_commits _ _ _ _ task Ht today Hd Hr).
  - eapply notification_step_Inv; [|apply notification_only_after_commit].
    apply Inv_committed_checkin; try done.
    apply (select_task_by_id_elem w task_id). rewrite Ht. left.
  - apply ids_below_fresh, H.
Qed.

Lemma Inv_handle clk req w : Inv w → Inv (handle clk req w).
Proof.
  intros H. destruct req; simpl.
  - by apply Inv_create_task.
  - by apply Inv_update_task.
  - by apply Inv_delete_task.
  - by apply Inv_checkin_task.
  - eapply notification_step_Inv; [done|apply notification_only_create_notification].
  - eapply notification_step_Inv; [done|apply notification_only_mark_as_read].
  - eapply notification_step_Inv; [done|apply notification_only_mark_all_as_read].
  - eapply notification_step_Inv; [done|apply notification_only_delete_notification].
  - eapply notification_step_Inv; [done|apply notification_only_generate_habit_reminders].
  - eapply notification_step_Inv; [done|apply notification_only_generate_at_risk].
  - eapply notification_step_Inv; [done|apply notification_only_uuid4].
Qed.

Lemma Inv_run trace w : Inv w → Inv (run trace w).
Proof.
  revert w. induction trace as [|[clk req] trace IH]; intros w H; [done|].
  simpl. apply IH. by apply Inv_handle.
Qed.

Lemma Reachable_Inv w : Reachable w → Inv w.
Proof. intros [trace <-]. apply Inv_run, Inv_init. Qed.

Lemma Reachable_handle clk req w : Reachable w → Reachable (handle clk req w).
Proof.
  intros [trace <-]. exists (trace ++ [(clk, req)]). unfold run.
  by rewrite foldl_app.
Qed.

(* ===================================================================== *)
(** ** Check-ins in a consistent world *)
(* ===================================================================== *)

Lemma checkin_task_first clk task_id checkin_data w task today :
  Inv w → task ∈ task_cards w → TaskCard.id task = task_id →
  get_local_date clk (requested_offset checkin_data) = Ok today →
  select_checkin task_id today w = [] →
  checkin_task clk task_id checkin_data w
  = after_commit clk task_id today task (committed_checkin clk task_id today task w).
Proof.
  intros HI Hin <- Hd Hsel. apply checkin_task_commits; try done.
  - apply select_task_by_id_unique; [apply HI|done].
  - apply ids_below_fresh, HI.
Qed.

Lemma checkin_task_repeat clk task_id checkin_data w task today r :
  Inv w → task ∈ task_cards w → TaskCard.id task = task_id →
  get_local_date clk (requested_offset checkin_data) = Ok today →
  r ∈ checkin_records w →
  CheckinRecord.task_id r = task_id → CheckinRecord.checkin_date r = today →
  checkin_task clk task_id checkin_data w = (w, Ok task).
Proof.
  intros HI Hin <- Hd Hr Hrt <-. eapply checkin_task_already; [|exact Hd|].
  - apply select_task_by_id_unique; [apply HI|done].
  - rewrite <- Hrt. apply select_checkin_unique; [apply HI|done].
Qed.

Lemma after_commit_result clk task_id today task w t :
  (after_commit clk task_id today task w).2 = Ok t → t = checked_in clk today task.
Proof.
  unfold after_commit, mbind, M_bind.
  destruct (check_streak_achievement _ _ _ _ w) as [w1 [a|e]]; [|done].
  destruct (check_daily_complete clk w1) as [w2 [b|e]]; [|done].
  simpl. by intros [= <-].
Qed.

(** Every path of [checkin_task]: either the check-in records are left as
    they are, or exactly one is appended, for a task and a day that had
    none. *)
Lemma checkin_task_records clk task_id checkin_data w :
  let w' := (checkin_task clk task_id checkin_data w).1 in
  checkin_records w' = checkin_records w
  ∨ ∃ today rid t,
      select_checkin task_id today w = []
      ∧ checkin_records w' = checkin_records w ++ [CheckinRecord.mk rid task_id today t].
Proof.
  simpl.
  destruct (select_task_by_id task_id w) as [|task [|? ?]] eqn:Ht;
    [left; by rewrite checkin_task_not_found| |left; by erewrite checkin_task_ambiguous].
  destruct (get_local_date clk (requested_offset checkin_data)) as [today|e] eqn:Hd;
    [|left; by erewrite checkin_task_no_date].
  destruct (select_checkin task_id today w) as [|r [|? ?]] eqn:Hr;
    [|left; by erewrite checkin_task_already|left; by erewrite checkin_task_duplicates].
  destruct (decide (pretty (uuids_drawn w) ∈ (CheckinRecord.id <$> checkin_records w)))
    as [Hclash|Hfresh].
  - left. by rewrite (checkin_task_pk_clash _ _ _ _ task Ht today Hd Hr Hclash).
  - right. exists today, (pretty (uuids_drawn w)), (utc_now clk). split; [done|].
    rewrite (checkin_task_commits _ _ _ _ task Ht today Hd Hr Hfresh).
    by rewrite (ns_checkins _ _ (notification_only_after_commit clk task_id today task _)).
Qed.

Lemma checkins_unique_at_most_one w : checkins_unique w ↔ at_most_one_checkin w.
Proof.
  unfold checkins_unique, at_most_one_checkin, select_checkin. split.
  - intros Hu task_id d.
    destruct (filter _ (checkin_records w)) as [|r rest] eqn:Hsel; [simpl; lia|].
    assert (r ∈ filter (λ r, CheckinRecord.task_id r = task_id
                             ∧ CheckinRecord.checkin_date r = d) (checkin_records w))
      as Hr by (rewrite Hsel; left).
    apply list_elem_of_filter in Hr as [[<- <-] Hr].
    pose proof (select_checkin_unique w r Hu Hr) as Hone.
    unfold select_checkin in Hone. rewrite Hone in Hsel. by injection Hsel as <-.
  - induction (checkin_records w) as [|a l IH]; intros Hone; [constructor|].
    rewrite fmap_cons. apply NoDup_cons. split.
    + intros Hin. apply list_elem_of_fmap in Hin as (b & Hk & Hb).
      specialize (Hone (CheckinRecord.task_id a) (CheckinRecord.checkin_date a)).
      rewrite filter_cons_True in Hone by done. simpl in Hone.
      assert (b ∈ filter (λ r, CheckinRecord.task_id r = CheckinRecord.task_id a
                               ∧ CheckinRecord.checkin_date r = CheckinRecord.checkin_date a) l)
        as Hb'.
      { apply list_elem_of_filter. split; [|done]. unfold checkin_key in Hk.
        by injection Hk as -> ->. }
      destruct (filter _ l); [by apply elem_of_nil in Hb'|simpl in Hone; lia].
    + apply IH. intros task_id d. specialize (Hone task_id d).
      rewrite filter_cons in Hone. case_decide; simpl in Hone; lia.
Qed.

(* ===================================================================== *)
(** ** The existence checks as functions of the world *)
(* ===================================================================== *)

Lemma _check_existing_at_risk_eq clk habit_id today w :
  before_last_day clk →
  _check_existing_at_risk clk habit_id today w = (w, Ok (at_risk_exists clk habit_id w)).
Proof.
  intros Hday. unfold _check_existing_at_risk. cbv zeta.
  by rewrite bind_lift, end_of_day_ok.
Qed.

Lemma _check_existing_reminder_eq clk habit_id today w :
  before_last_day clk →
  _check_existing_reminder clk habit_id today w = (w, Ok (reminder_exists clk habit_id w)).
Proof.
  intros Hday. unfold _check_existing_reminder. cbv zeta.
  by rewrite bind_lift, end_of_day_ok.
Qed.

(** On the last day of the calendar the bounds of the window cannot be
    computed: the three checks raise before they query. *)
Lemma _check_existing_at_risk_last clk habit_id today w :
  ¬ before_last_day clk →
  _check_existing_at_risk clk habit_id today w = (w, Raise OverflowError).
Proof.
  intros Hday. unfold _check_existing_at_risk. cbv zeta.
  by rewrite bind_lift, end_of_day_last.
Qed.

Lemma _check_existing_reminder_last clk habit_id today w :
  ¬ before_last_day clk →
  _check_existing_reminder clk habit_id today w = (w, Raise OverflowError).
Proof.
  intros Hday. unfold _check_existing_reminder. cbv zeta.
  by rewrite bind_lift, end_of_day_last.
Qed.

Lemma _check_existing_daily_complete_last clk today w :
  ¬ before_last_day clk →
  _check_existing_daily_complete clk today w = (w, Raise OverflowError).
Proof.
  intros Hday. unfold _check_existing_daily_complete. cbv zeta.
  by rewrite bind_lift, end_of_day_last.
Qed.

Lemma _check_existing_daily_complete_eq clk today w :
  before_last_day clk →
  _check_existing_daily_complete clk today w
  = match notifications_of_utc_day clk "daily_complete" w with
    | [] => (w, Ok false)
    | [_] => (w, Ok true)
    | _ :: _ :: _ => (w, Raise MultipleResultsFound)
    end.
Proof.
  intros Hday. unfold _check_existing_daily_complete. cbv zeta.
  rewrite bind_lift, end_of_day_ok by done.
  rewrite bind_execute, bind_scalar_one_or_none, select_notifications_between_day.
  by destruct (notifications_of_utc_day clk "daily_complete" w) as [|? [|? ?]].
Qed.

Lemma at_risk_exists_iff clk habit_id w :
  at_risk_exists clk habit_id w = true ↔
  ∃ n d, n ∈ notifications w
         ∧ Notification.type n = "habit_reminder"
         ∧ within_utc_day clk (Notification.created_at n)
         ∧ Notification.data n = Some d
         ∧ d !! "habit_id" = Some (JStr habit_id)
         ∧ truthy (d !! "at_risk") = true.
Proof.
  unfold at_risk_exists. simpl. rewrite existsb_elem_of. split.
  - intros (n & Hn & Hf). unfold notifications_of_utc_day in Hn.
    apply list_elem_of_filter in Hn as [[Hty Hday] Hn].
    apply andb_true_iff in Hf as [Hf Hrisk]. apply andb_true_iff in Hf as [_ Hid].
    destruct (Notification.data n) as [d|] eqn:Hdata; [|done]. simpl in *.
    exists n, d. split_and!; try done.
    destruct (d !! "habit_id") as [[| | |s]|]; try done. simpl in Hid.
    apply String_eqb_eq in Hid. by subst.
  - intros (n & d & Hn & Hty & Hday & Hdata & Hid & Hrisk). exists n. split.
    + unfold notifications_of_utc_day. apply list_elem_of_filter. done.
    + rewrite Hdata. simpl. rewrite Hid, Hrisk. simpl.
      rewrite String.eqb_refl. rewrite !andb_true_r.
      rewrite bool_decide_eq_false_2; [done|]. intros ->. by rewrite lookup_empty in Hid.
Qed.

Lemma reminder_exists_iff clk habit_id w :
  reminder_exists clk habit_id w = true ↔
  ∃ n d, n ∈ notifications w
         ∧ Notification.type n = "habit_reminder"
         ∧ within_utc_day clk (Notification.created_at n)
         ∧ Notification.data n = Some d
         ∧ d !! "habit_id" = Some (JStr habit_id)
         ∧ truthy (d !! "at_risk") = false.
Proof.
  unfold reminder_exists. simpl. rewrite existsb_elem_of. split.
  - intros (n & Hn & Hf). unfold notifications_of_utc_day in Hn.
    apply list_elem_of_filter in Hn as [[Hty Hday] Hn].
    apply andb_true_iff in Hf as [Hf Hrisk]. apply andb_true_iff in Hf as [_ Hid].
    destruct (Notification.data n) as [d|] eqn:Hdata; [|done]. simpl in *.
    exists n, d. split_and!; try done.
    + destruct (d !! "habit_id") as [[| | |s]|]; try done. simpl in Hid.
      apply String_eqb_eq in Hid. by subst.
    + by apply negb_true_iff.
  - intros (n & d & Hn & Hty & Hday & Hdata & Hid & Hrisk). exists n. split.
    + unfold notifications_of_utc_day. apply list_elem_of_filter. done.
    + rewrite Hdata. simpl. rewrite Hid, Hrisk. simpl.
      rewrite String.eqb_refl. rewrite !andb_true_r.
      rewrite bool_decide_eq_false_2; [done|]. intros ->. by rewrite lookup_empty in Hid.
Qed.

Lemma _check_existing_achievement_eq habit_id milestone w :
  _check_existing_achievement habit_id milestone w
  = (w, Ok (bool_decide (select_achievements habit_id milestone w ≠ []))).
Proof.
  unfold _check_existing_achievement. rewrite bind_execute, bind_scalar_one_or_none.
  by destruct (select_achievements habit_id milestone w) as [|n rest].
Qed.

Lemma achievement_for_selected habit_id milestone w n :
  n ∈ notifications w → achievement_for habit_id milestone n →
  n ∈ select_achievements habit_id milestone w.
Proof.
  intros Hn (Hty & Hh & Hm). unfold select_achievements.
  apply list_elem_of_filter. split; [|done]. unfold json_extract.
  rewrite Hh, Hm. simpl. rewrite String.eqb_refl, Z.eqb_refl. done.
Qed.

Lemma selected_achievement_for habit_id milestone w n :
  milestone ∈ ACHIEVEMENT_MILESTONES →
  n ∈ select_achievements habit_id milestone w →
  n ∈ notifications w ∧ achievement_for habit_id milestone n.
Proof.
  intros Hm Hn. unfold select_achievements in Hn.
  apply list_elem_of_filter in Hn as [(Hty & Hh & Hms) Hn]. split; [done|].
  unfold achievement_for. split; [done|]. unfold json_extract in *.
  split.
  - destruct (data_get (Notification.data n) "habit_id") as [[|b|z|s]|]; try done.
    simpl in Hh. apply String_eqb_eq in Hh. by subst.
  - destruct (data_get (Notification.data n) "milestone") as [[|b|z|s]|]; try done.
    + simpl in Hms. apply Z.eqb_eq in Hms. subst milestone.
      unfold ACHIEVEMENT_MILESTONES in Hm.
      repeat (apply elem_of_cons in Hm as [Hm|Hm]; [by destruct b|]).
      by apply elem_of_nil in Hm.
    + simpl in Hms. apply Z.eqb_eq in Hms. by subst.
Qed.

(* ===================================================================== *)
(** ** [check_streak_achievement] and [check_daily_complete], case by case *)
(* ===================================================================== *)

Lemma check_streak_achievement_skip clk habit_id streak habit_title w :
  streak ∉ ACHIEVEMENT_MILESTONES ∨ select_achievements habit_id streak w ≠ [] →
  check_streak_achievement clk habit_id streak habit_title w = (w, Ok None).
Proof.
  intros H. unfold check_streak_achievement.
  case_bool_decide as Hm; simpl; [|done].
  destruct H as [H|H]; [done|].
  unfold mbind, M_bind. rewrite _check_existing_achievement_eq.
  by rewrite bool_decide_eq_true_2.
Qed.

Lemma check_streak_achievement_create clk habit_id streak habit_title w :
  ids_below (uuids_drawn w) (Notification.id <$> notifications w) →
  streak ∈ ACHIEVEMENT_MILESTONES → select_achievements habit_id streak w = [] →
  check_streak_achievement clk habit_id streak habit_title w
  = (with_notification w (achievement_notification clk w habit_id streak habit_title),
     Ok (Some (achievement_notification clk w habit_id streak habit_title))).
Proof.
  intros Hb Hm Hsel. unfold check_streak_achievement.
  rewrite bool_decide_eq_true_2 by done. simpl.
  unfold mbind at 1, M_bind at 1. rewrite _check_existing_achievement_eq.
  rewrite bool_decide_eq_false_2 by (rewrite Hsel; intros Hne; by apply Hne).
  unfold mbind, M_bind. by rewrite _create_notification_eq.
Qed.

Lemma check_daily_complete_eq clk w :
  ids_below (uuids_drawn w) (Notification.id <$> notifications w) →
  check_daily_complete clk w
  = if bool_decide (select_active_habits w ≠ []
                    ∧ Forall (λ habit, TaskCard.last_checkin_date habit = Some (date_today clk))
                             (select_active_habits w))
    then if bool_decide (before_last_day clk)
         then match notifications_of_utc_day clk "daily_complete" w with
              | [] => (with_notification w (daily_complete_notification clk w),
                       Ok (Some (daily_complete_notification clk w)))
              | [_] => (w, Ok None)
              | _ :: _ :: _ => (w, Raise MultipleResultsFound)
              end
         else (w, Raise OverflowError)
    else (w, Ok None).
Proof.
  intros Hb. unfold check_daily_complete. rewrite bind_execute.
  case_bool_decide as Hnil.
  { rewrite bool_decide_eq_false_2; [done|]. intros [? _]. done. }
  destruct (forallb _ (select_active_habits w)) eqn:Hall; simpl.
  - rewrite bool_decide_eq_true_2.
    2:{ split; [done|]. apply Forall_forall. intros h Hh.
        rewrite forallb_forall in Hall. apply list_elem_of_In in Hh.
        specialize (Hall _ Hh). by apply bool_decide_eq_true in Hall. }
    unfold mbind at 1, M_bind at 1.
    case_bool_decide as Hday;
      [|by rewrite _check_existing_daily_complete_last by done].
    rewrite _check_existing_daily_complete_eq by done.
    destruct (notifications_of_utc_day clk "daily_complete" w) as [|n [|? ?]]; simpl;
      try done.
    unfold mbind, M_bind. by rewrite _create_notification_eq.
  - rewrite bool_decide_eq_false_2; [done|]. intros [_ HF].
    assert (forallb (λ habit, bool_decide (TaskCard.last_checkin_date habit = Some (date_today clk)))
                    (select_active_habits w) = true) as Habs; [|congruence].
    apply forallb_forall. intros h Hh. apply list_elem_of_In in Hh.
    rewrite Forall_forall in HF. apply bool_decide_eq_true. by apply HF.
Qed.

Lemma check_streak_achievement_total clk habit_id streak habit_title w :
  ids_below (uuids_drawn w) (Notification.id <$> notifications w) →
  ∃ created,
    (check_streak_achievement clk habit_id streak habit_title w).2 = Ok created
    ∧ ids_below (uuids_drawn (check_streak_achievement clk habit_id streak habit_title w).1)
        (Notification.id <$>
           notifications (check_streak_achievement clk habit_id streak habit_title w).1).
Proof.
  intros Hb.
  destruct (decide (streak ∈ ACHIEVEMENT_MILESTONES
                    ∧ select_achievements habit_id streak w = [])) as [[Hm Hsel]|Hskip].
  - rewrite check_streak_achievement_create by done. eexists. split; [done|].
    simpl. rewrite fmap_app. by apply ids_below_snoc.
  - rewrite check_streak_achievement_skip; [by eexists|].
    destruct (decide (streak ∈ ACHIEVEMENT_MILESTONES)); [|by left].
    right. intros Hsel. by apply Hskip.
Qed.

Lemma check_daily_complete_outcome clk w :
  ids_below (uuids_drawn w) (Notification.id <$> notifications w) →
  (∃ created, (check_daily_complete clk w).2 = Ok created)
  ∨ (check_daily_complete clk w).2 = Raise MultipleResultsFound
  ∨ ((check_daily_complete clk w).2 = Raise OverflowError ∧ ¬ before_last_day clk).
Proof.
  intros Hb. rewrite check_daily_complete_eq by done.
  case_bool_decide; [|left; by eexists].
  case_bool_decide; [|by right; right].
  destruct (notifications_of_utc_day clk "daily_complete" w) as [|n [|n' rest]];
    [left; by eexists..|by right; left].
Qed.

Lemma after_commit_outcome clk task_id today task w :
  ids_below (uuids_drawn w) (Notification.id <$> notifications w) →
  (after_commit clk task_id today task w).2 = Ok (checked_in clk today task)
  ∨ (after_commit clk task_id today task w).2 = Raise MultipleResultsFound
  ∨ ((after_commit clk task_id today task w).2 = Raise OverflowError
     ∧ ¬ before_last_day clk).
Proof.
  intros Hb. unfold after_commit.
  destruct (check_streak_achievement_total clk task_id
              (calculate_streak (TaskCard.last_checkin_date task)
                                (TaskCard.current_streak task) today)
              (TaskCard.title (checked_in clk today task)) w Hb) as (created & Hres & Hb1).
  unfold mbind, M_bind.
  destruct (check_streak_achievement _ _ _ _ w) as [w1 [a|e]]; simpl in *; [|done].
  destruct (check_daily_complete_outcome clk w1 Hb1) as [(c & Hc)|[Hc|[Hc Hday]]];
    destruct (check_daily_complete clk w1) as [w2 [b|e]]; simpl in *; try done;
    [by left|right; left; congruence|right; right; split; [congruence|done]].
Qed.

(* ===================================================================== *)
(** ** Repeated achievement checks *)
(* ===================================================================== *)

Lemma achievement_for_new clk w habit_id streak habit_title h m :
  achievement_for h m (achievement_notification clk w habit_id streak habit_title)
  ↔ h = habit_id ∧ m = streak.
Proof.
  unfold achievement_for.
  destruct (achievement_data_get habit_id habit_title streak) as [Hh Hm].
  cbn [achievement_notification new_notification Notification.data Notification.type].
  rewrite Hh, Hm. split.
  - intros (_ & Heq1 & Heq2). by simplify_eq.
  - by intros [-> ->].
Qed.

Lemma achievement_calls_spec calls : ∀ w,
  ids_below (uuids_drawn w) (Notification.id <$> notifications w) →
  ∃ created,
    (achievement_calls calls w).2 = Ok created
    ∧ notifications (achievement_calls calls w).1 = notifications w ++ created
    ∧ ∀ h m,
        (length (filter (achievement_for h m) created) <= 1)%nat
        ∧ ((∃ n, n ∈ notifications w ∧ achievement_for h m n) →
           filter (achievement_for h m) created = []).
Proof.
  induction calls as [|[[[clk h0] s0] t0] rest IH]; intros w Hb.
  - exists []. simpl. split_and!; [done|by rewrite app_nil_r|].
    intros h m. split; [simpl; lia|done].
  - simpl.
    destruct (decide (s0 ∈ ACHIEVEMENT_MILESTONES ∧ select_achievements h0 s0 w = []))
      as [[Hm Hsel]|Hskip].
    + (* this call creates a notification *)
      rewrite (bind_Ok _ _ _ _ _ (check_streak_achievement_create clk h0 s0 t0 w Hb Hm Hsel)).
      set (n0 := achievement_notification clk w h0 s0 t0).
      assert (ids_below (uuids_drawn (with_notification w n0))
                        (Notification.id <$> notifications (with_notification w n0))) as Hb1.
      { simpl. rewrite fmap_app. by apply ids_below_snoc. }
      destruct (IH _ Hb1) as (more & Hres & Hnot & Hcount).
      unfold mbind, M_bind.
      destruct (achievement_calls rest (with_notification w n0)) as [w' [r|e]];
        simpl in *; [|done].
      injection Hres as ->. exists (n0 :: more). split_and!; [done| |].
      * rewrite Hnot. by rewrite <- app_assoc.
      * intros h m. destruct (Hcount h m) as [Hle Hnone].
        rewrite filter_cons. case_decide as Hfor.
        -- rewrite Hnone.
           2:{ exists n0. split; [apply elem_of_app; right; left|done]. }
           split; [simpl; lia|].
           intros (n & Hn & Hn'). exfalso.
           apply achievement_for_new in Hfor as [-> ->].
           pose proof (achievement_for_selected _ _ _ _ Hn Hn') as Hin.
           rewrite Hsel in Hin. by apply elem_of_nil in Hin.
        -- split; [done|]. intros (n & Hn & Hn'). apply Hnone.
           exists n. split; [apply elem_of_app; by left|done].
    + (* this call creates nothing *)
      rewrite (bind_Ok _ _ w w None).
      2:{ apply check_streak_achievement_skip.
          destruct (decide (s0 ∈ ACHIEVEMENT_MILESTONES)); [|by left].
          right. intros Hsel. by apply Hskip. }
      destruct (IH _ Hb) as (more & Hres & Hnot & Hcount).
      unfold mbind, M_bind.
      destruct (achievement_calls rest w) as [w' [r|e]]; simpl in *; [|done].
      injection Hres as ->. by exists more.
Qed.

(* ===================================================================== *)
(** ** The at-risk loop *)
(* ===================================================================== *)

Lemma at_risk_exists_with clk w habit_id habit title message :
  at_risk_exists clk habit_id
    (with_notification w (new_notification clk w "habit_reminder" title message
                                           (Some (at_risk_data habit))))
  = at_risk_exists clk habit_id w || String.eqb (TaskCard.id habit) habit_id.
Proof.
  unfold at_risk_exists. simpl. unfold notifications_of_utc_day. simpl.
  rewrite filter_app, existsb_app. f_equal.
  rewrite filter_cons_True.
  2:{ split; [done|apply within_utc_day_now]. }
  simpl. by rewrite orb_false_r, andb_true_r.
Qed.

Lemma for_habit_at_risk clk w habit title message habit_id :
  for_habit habit_id (new_notification clk w "habit_reminder" title message
                                       (Some (at_risk_data habit)))
  ↔ habit_id = TaskCard.id habit.
Proof.
  unfold for_habit. cbn [new_notification Notification.data].
  destruct (at_risk_data_get habit) as (-> & _ & _).
  split; [by intros [= ->]|by intros ->].
Qed.

Lemma at_risk_loop_spec clk today habits :
  before_last_day clk → ∀ w acc,
  ids_below (uuids_drawn w) (Notification.id <$> notifications w) →
  NoDup (TaskCard.id <$> habits) →
  ∃ news,
    (at_risk_loop clk today habits acc w).2 = Ok (acc ++ news)
    ∧ notifications (at_risk_loop clk today habits acc w).1 = notifications w ++ news
    ∧ Forall (λ n, Notification.type n = "habit_reminder"
                   ∧ Notification.created_at n = utc_now clk
                   ∧ ∃ habit, habit ∈ habits
                              ∧ Notification.data n = Some (at_risk_data habit)) news
    ∧ ∀ habit_id,
        length (filter (for_habit habit_id) news)
        = if bool_decide (habit_id ∈ (TaskCard.id <$> habits))
             && negb (at_risk_exists clk habit_id w)
          then 1%nat else 0%nat.
Proof.
  intros Hday. induction habits as [|habit rest IH]; intros w acc Hb Hnd.
  - exists []. simpl. rewrite !app_nil_r. split_and!; try done.
  - rewrite fmap_cons in Hnd. apply NoDup_cons in Hnd as [Hna Hnd].
    cbn [at_risk_loop].
    rewrite (bind_Ok _ _ _ _ _
               (_check_existing_at_risk_eq clk (TaskCard.id habit) today w Hday)).
    destruct (at_risk_exists clk (TaskCard.id habit) w) eqn:Hex.
    + destruct (IH w acc Hb Hnd) as (news & Hres & Hnot & Hall & Hcount).
      exists news. split_and!; try done.
      * eapply Forall_impl; [exact Hall|]. intros n (? & ? & h & Hh & ?).
        split_and!; try done. exists h. split; [by right|done].
      * intros habit_id. rewrite Hcount. rewrite fmap_cons.
        destruct (decide (habit_id = TaskCard.id habit)) as [->|Hne].
        -- rewrite (bool_decide_eq_false_2 _ Hna).
           rewrite bool_decide_eq_true_2 by left. by rewrite Hex.
        -- by rewrite (bool_decide_ext (habit_id ∈ TaskCard.id habit :: (TaskCard.id <$> rest))
                                        (habit_id ∈ (TaskCard.id <$> rest)))
             by (rewrite elem_of_cons; tauto).
    + match goal with
      | |- context [_create_notification clk ?ty ?ti ?msg ?data] =>
          rewrite (bind_Ok _ _ _ _ _ (_create_notification_eq clk ty ti msg data w Hb));
          set (n0 := new_notification clk w ty ti msg data)
      end.
      assert (ids_below (uuids_drawn (with_notification w n0))
                        (Notification.id <$> notifications (with_notification w n0))) as Hb1.
      { simpl. rewrite fmap_app. by apply ids_below_snoc. }
      destruct (IH (with_notification w n0) (acc ++ [n0]) Hb1 Hnd)
        as (news & Hres & Hnot & Hall & Hcount).
      exists (n0 :: news). split_and!.
      * rewrite Hres. by rewrite <- app_assoc.
      * rewrite Hnot. simpl. by rewrite <- app_assoc.
      * constructor.
        -- split_and!; try done. exists habit. split; [left|done].
        -- eapply Forall_impl; [exact Hall|]. intros n (? & ? & h & Hh & ?).
           split_and!; try done. exists h. split; [by right|done].
      * intros habit_id. rewrite filter_cons. specialize (Hcount habit_id).
        subst n0. rewrite at_risk_exists_with in Hcount. rewrite fmap_cons.
        destruct (decide (habit_id = TaskCard.id habit)) as [->|Hne].
        -- rewrite decide_True by by apply for_habit_at_risk.
           simpl. rewrite Hcount. rewrite (bool_decide_eq_false_2 _ Hna).
           rewrite bool_decide_eq_true_2 by left. by rewrite Hex.
        -- rewrite decide_False by (by rewrite for_habit_at_risk).
           rewrite Hcount.
           assert (String.eqb (TaskCard.id habit) habit_id = false) as ->.
           { apply String.eqb_neq. congruence. }
           rewrite orb_false_r.
           by rewrite (bool_decide_ext (habit_id ∈ TaskCard.id habit :: (TaskCard.id <$> rest))
                                       (habit_id ∈ (TaskCard.id <$> rest)))
             by (rewrite elem_of_cons; tauto).
Qed.

(** On the last day of the calendar the loop stops at its first habit,
    before anything is created. *)
Lemma at_risk_loop_last clk today habits acc w :
  ¬ before_last_day clk →
  at_risk_loop clk today habits acc w
  = (w, match habits with [] => Ok acc | _ :: _ => Raise OverflowError end).
Proof.
  intros Hday. destruct habits as [|habit rest]; [done|].
  cbn [at_risk_loop].
  by rewrite (bind_Raise _ _ _ _ _
                (_check_existing_at_risk_last clk (TaskCard.id habit) today w Hday)).
Qed.

(* ===================================================================== *)
(** ** The two halves of a check-in *)
(* ===================================================================== *)

(** Run without interruption, the two halves are [checkin_task]. *)
Lemma checkin_task_halves clk task_id checkin_data w :
  checkin_task clk task_id checkin_data w
  = (checkin_task_begin clk task_id checkin_data
       ≫= checkin_task_finish clk task_id) w.
Proof.
  unfold checkin_task, checkin_task_begin, mbind, M_bind, execute, lift.
  destruct (select_task_by_id task_id w) as [|task [|? ?]];
    cbn [scalar_one_or_none mret M_ret raise]; [done| |done].
  destruct (get_local_date clk _) as [today|e]; [|done].
  by destruct (select_checkin task_id today w) as [|r [|? ?]].
Qed.

(** Once past its query the handler inserts, whatever the table holds by
    then. *)
Lemma checkin_task_resume_records clk task_id task today w :
  ids_below (uuids_drawn w) (CheckinRecord.id <$> checkin_records w) →
  checkin_records (checkin_task_resume clk task_id task today w).1
  = checkin_records w ++ [new_checkin_record clk task_id today w].
Proof.
  intros Hb. unfold checkin_task_resume. rewrite bind_uuid4. cbv zeta.
  unfold mbind at 1, M_bind at 1, add_checkin_record. cbn [CheckinRecord.id checkin_records].
  rewrite bool_decide_eq_false_2 by by apply ids_below_fresh.
  unfold mbind at 1, M_bind at 1, update_task_row.
  unfold mbind at 1, M_bind at 1, refresh_task, mret, M_ret.
  match goal with
  | |- checkin_records ((?m ≫= ?k) ?w0).1 = _ =>
      assert (notification_only (m ≫= k)) as Hno
  end.
  { apply notification_only_bind; [apply notification_only_check_streak_achievement|].
    intros _. apply notification_only_bind; [apply notification_only_check_daily_complete|].
    intros _. apply notification_only_ret. }
  by rewrite (ns_checkins _ _ (Hno _)).
Qed.


(* ===================================================================== *)
(** ** The history invariant of the reachable worlds *)
(* ===================================================================== *)

Lemma Inv_history_init : Inv_history init_world.
Proof.
  split; simpl; try constructor; intros; by match goal with
    H : _ ∈ [] |- _ => apply elem_of_nil in H end.
Qed.

(** Tasks and records untouched, more uuids drawn. *)
Lemma Inv_history_same w w' :
  task_cards w' = task_cards w → checkin_records w' = checkin_records w →
  (uuids_drawn w <= uuids_drawn w')%N →
  Inv_history w → Inv_history w'.
Proof.
  intros T C D [H1 H2 H3 H4 H5 H6]. unfold checkins_of in *.
  split; unfold checkins_of; rewrite ?T, ?C; try done; by eapply ids_below_mono.
Qed.

Lemma notification_step_Inv_history w w' :
  Inv_history w → notification_step w w' → Inv_history w'.
Proof. intros H [T C D _]. by eapply Inv_history_same. Qed.

(** Rows rewritten in place, the key and the streak columns kept. *)
Lemma Inv_history_rewrite (g : TaskCard.t → TaskCard.t) w w' :
  task_cards w' = g <$> task_cards w → checkin_records w' = checkin_records w →
  (uuids_drawn w <= uuids_drawn w')%N →
  (∀ row, row ∈ task_cards w →
          TaskCard.id (g row) = TaskCard.id row
          ∧ TaskCard.last_checkin_date (g row) = TaskCard.last_checkin_date row
          ∧ TaskCard.current_streak (g row) = TaskCard.current_streak row
          ∧ TaskCard.longest_streak (g row) = TaskCard.longest_streak row) →
  Inv_history w → Inv_history w'.
Proof.
  intros T C D Hg [H1 H2 H3 H4 H5 H6].
  split; unfold checkins_of in *; rewrite ?T, ?C.
  - eapply ids_below_mono; [done|]. unfold ids_below in *.
    rewrite Forall_fmap in *. apply Forall_fmap.
    apply Forall_forall. intros row Hrow. simpl.
    destruct (Hg row Hrow) as (-> & _). rewrite Forall_forall in H1. by apply H1.
  - by eapply ids_below_mono.
  - intros t d (row & -> & Hrow)%list_elem_of_fmap Hlast.
    destruct (Hg row Hrow) as (Hid & Hl & _). rewrite Hid. rewrite Hl in Hlast. eauto.
  - intros r t Hr (row & -> & Hrow)%list_elem_of_fmap Hid.
    destruct (Hg row Hrow) as (Hid' & Hl & _). rewrite Hl. rewrite Hid' in Hid. eauto.
  - intros t (row & -> & Hrow)%list_elem_of_fmap Hlast.
    destruct (Hg row Hrow) as (_ & Hl & Hc & _). rewrite Hc. rewrite Hl in Hlast. eauto.
  - intros t (row & -> & Hrow)%list_elem_of_fmap.
    destruct (Hg row Hrow) as (Hid & _ & _ & Hlong). rewrite Hlong, Hid. eauto.
Qed.

Lemma Inv_history_update_task_row clk loaded modified w :
  Inv w → loaded ∈ task_cards w →
  TaskCard.id modified = TaskCard.id loaded →
  TaskCard.last_checkin_date modified = TaskCard.last_checkin_date loaded →
  TaskCard.current_streak modified = TaskCard.current_streak loaded →
  TaskCard.longest_streak modified = TaskCard.longest_streak loaded →
  Inv_history w → Inv_history (update_task_row clk loaded modified w).1.
Proof.
  intros HI Hin Hid Hl Hc Hlong. apply Inv_history_rewrite
    with (g := λ row, if bool_decide (TaskCard.id row = TaskCard.id loaded)
                      then flushed_task clk loaded modified else row); try done.
  intros row Hrow. case_bool_decide as Heq; [|done].
  assert (row = loaded) as ->.
  { by apply (NoDup_fmap_eq TaskCard.id (task_cards w) row loaded (inv_task_pk _ HI)). }
  pose proof (flushed_task_fields clk loaded modified) as F. cbv zeta in F.
  destruct_and!. split_and!; congruence.
Qed.

Lemma Inv_history_filter (P : TaskCard.t → Prop) `{∀ x, Decision (P x)} w w' :
  task_cards w' = filter P (task_cards w) → checkin_records w' = checkin_records w →
  (uuids_drawn w <= uuids_drawn w')%N →
  Inv_history w → Inv_history w'.
Proof.
  intros T C D [H1 H2 H3 H4 H5 H6].
  split; unfold checkins_of in *; rewrite ?T, ?C.
  - eapply ids_below_mono; [done|]. by apply ids_below_filter.
  - by eapply ids_below_mono.
  - intros t d [_ Ht]%list_elem_of_filter. eauto.
  - intros r t Hr [_ Ht]%list_elem_of_filter. eauto.
  - intros t [_ Ht]%list_elem_of_filter. eauto.
  - intros t [_ Ht]%list_elem_of_filter. eauto.
Qed.

Lemma Inv_history_create_task clk task_data w :
  Inv_history w → Inv_history (create_task clk task_data w).1.
Proof.
  intros H. unfold create_task. rewrite bind_uuid4.
  unfold mbind, M_bind, add_task. simpl.
  case_bool_decide as Hin; simpl.
  { eapply Inv_history_same; [..|exact H]; simpl; try done. lia. }
  destruct H as [H1 H2 H3 H4 H5 H6].
  split; unfold checkins_of in *; simpl.
  - rewrite fmap_app. by apply ids_below_snoc.
  - eapply ids_below_mono; [|done]. lia.
  - intros t d [Ht|Ht]%elem_of_app; [eauto|].
    apply list_elem_of_singleton in Ht. by subst.
  - intros r t Hr [Ht|Ht]%elem_of_app; [eauto|].
    apply list_elem_of_singleton in Ht. subst t. simpl. intros Hid. exfalso.
    apply (ids_below_fresh _ _ H2). rewrite <- Hid. by apply list_elem_of_fmap_2.
  - intros t [Ht|Ht]%elem_of_app; [eauto|].
    apply list_elem_of_singleton in Ht. subst t. simpl. by intros [? ?].
  - intros t [Ht|Ht]%elem_of_app; [eauto|].
    apply list_elem_of_singleton in Ht. subst t. simpl. lia.
Qed.

Lemma Inv_history_update_task clk task_id task_data w :
  Inv w → Inv_history w → Inv_history (update_task clk task_id task_data w).1.
Proof.
  intros HI H. unfold update_task.
  rewrite bind_execute, bind_scalar_one_or_none.
  destruct (select_task_by_id task_id w) as [|task [|? ?]] eqn:Ht; try done.
  assert (task ∈ task_cards w) as Hin.
  { apply (select_task_by_id_elem w task_id). rewrite Ht. left. }
  match goal with |- Inv_history ((update_task_row _ _ ?m ≫= _) _).1 =>
    assert (Inv_history (update_task_row clk task m w).1) as H';
      [|unfold mbind, M_bind; simpl in *; exact H'] end.
  apply Inv_history_update_task_row; try done;
    destruct task_data as [[?|] [?|] [?|] [?|] [?|] [|]]; reflexivity.
Qed.

Lemma Inv_history_delete_task clk task_id hard_delete w :
  Inv w → Inv_history w → Inv_history (delete_task clk task_id hard_delete w).1.
Proof.
  intros HI H. unfold delete_task.
  rewrite bind_execute, bind_scalar_one_or_none.
  destruct (select_task_by_id task_id w) as [|task [|? ?]] eqn:Ht; try done.
  assert (task ∈ task_cards w) as Hin.
  { apply (select_task_by_id_elem w task_id). rewrite Ht. left. }
  destruct hard_delete.
  - eapply Inv_history_filter; [..|exact H]; simpl; done.
  - by apply Inv_history_update_task_row.
Qed.

Lemma calculate_streak_le last streak today :
  0 <= streak → calculate_streak last streak today <= streak + 1.
Proof. intros. unfold calculate_streak. destruct last; repeat case_bool_decide; lia. Qed.

Lemma calculate_streak_ge_1 last streak today :
  (is_Some last → 1 <= streak) → 1 <= calculate_streak last streak today.
Proof.
  intros Hs. unfold calculate_streak. destruct last as [l|]; [|lia].
  specialize (Hs (mk_is_Some _ _ eq_refl)). repeat case_bool_decide; lia.
Qed.

Lemma checkins_of_snoc task_id w r rest :
  checkin_records w = rest ++ [r] →
  checkins_of task_id w
  = filter (λ r, CheckinRecord.task_id r = task_id) rest
    ++ (if decide (CheckinRecord.task_id r = task_id) then [r] else []).
Proof.
  intros Heq. unfold checkins_of. rewrite Heq, filter_app. by f_equal.
Qed.

Lemma Inv_history_committed_checkin clk task_id today task w :
  Inv w → Inv_history w → task ∈ task_cards w → TaskCard.id task = task_id →
  Inv_history (committed_checkin clk task_id today task w).
Proof.
  intros HI [H1 H2 H3 H4 H5 H6] Hin Hid.
  pose proof (checked_in_fields clk today task) as F. cbv zeta in F.
  destruct F as (Fid & _ & _ & _ & _ & _ & Fcur & Flong & Flast & _).
  pose proof (inv_task_consistent _ HI) as TC. rewrite Forall_forall in TC.
  destruct (TC _ Hin) as [Hb _].
  set (w' := committed_checkin clk task_id today task w).
  assert (∀ t', t' ∈ task_cards w' →
                (t' = checked_in clk today task)
                ∨ (t' ∈ task_cards w ∧ TaskCard.id t' ≠ TaskCard.id task)) as Hrows.
  { intros t' (row & -> & Hrow)%list_elem_of_fmap.
    case_bool_decide; [by left|by right]. }
  assert (∀ id', checkins_of id' w'
                 = checkins_of id' w
                   ++ (if decide (task_id = id') then [new_checkin_record clk task_id today w]
                       else [])) as Hrec.
  { intros id'.
    by rewrite (checkins_of_snoc id' w' (new_checkin_record clk task_id today w)
                  (checkin_records w)). }
  split.
  - simpl. rewrite fmap_key_preserved.
    + eapply ids_below_mono; [|done]. lia.
    + intros row. case_bool_decide; congruence.
  - simpl. rewrite fmap_app. simpl. apply Forall_app. split.
    + eapply ids_below_mono; [|done]. lia.
    + apply Forall_singleton. unfold ids_below in H1. rewrite Forall_forall in H1.
      destruct (H1 task_id) as (k & Hk & ->).
      { rewrite <- Hid. by apply list_elem_of_fmap_2. }
      exists k. split; [lia|done].
  - intros t' d Ht' Hlast. destruct (Hrows _ Ht') as [->|[Ht Hne]].
    + rewrite Flast in Hlast. injection Hlast as <-.
      exists (new_checkin_record clk task_id today w). split_and!.
      * apply new_checkin_record_stored.
      * simpl. by rewrite Fid.
      * done.
    + destruct (H3 _ _ Ht Hlast) as (r & Hr & ? & ?). exists r. split_and!; try done.
      simpl. apply elem_of_app. by left.
  - intros r t' Hr Ht' Hrid. destruct (Hrows _ Ht') as [->|[Ht Hne]].
    + rewrite Flast. by eexists.
    + simpl in Hr. apply elem_of_app in Hr as [Hr|Hr]; [eauto|].
      apply list_elem_of_singleton in Hr. subst r. simpl in Hrid. congruence.
  - intros t' Ht' Hlast. destruct (Hrows _ Ht') as [->|[Ht Hne]]; [|eauto].
    rewrite Fcur. apply calculate_streak_ge_1. by apply H5.
  - intros t' Ht'. rewrite Hrec, length_app. destruct (Hrows _ Ht') as [->|[Ht Hne]].
    + rewrite Flong, Fid, Hid. rewrite decide_True by done. simpl.
      specialize (H6 _ Hin). rewrite Hid in H6.
      pose proof (calculate_streak_le (TaskCard.last_checkin_date task)
                    (TaskCard.current_streak task) today). lia.
    + specialize (H6 _ Ht). lia.
Qed.

Lemma Inv_history_checkin_task clk task_id checkin_data w :
  Inv w → Inv_history w → Inv_history (checkin_task clk task_id checkin_data w).1.
Proof.
  intros HI H.
  destruct (select_task_by_id task_id w) as [|task [|? ?]] eqn:Ht;
    [by rewrite checkin_task_not_found| |by erewrite checkin_task_ambiguous].
  destruct (get_local_date clk (requested_offset checkin_data)) as [today|e] eqn:Hd;
    [|by erewrite checkin_task_no_date].
  destruct (select_checkin task_id today w) as [|r [|? ?]] eqn:Hr;
    [|by erewrite checkin_task_already|by erewrite checkin_task_duplicates].
  assert (TaskCard.id task = task_id ∧ task ∈ task_cards w) as [Hid Hin].
  { apply (select_task_by_id_elem w task_id). rewrite Ht. left. }
  rewrite (checkin_task_commits _ _ _ _ task Ht today Hd Hr).
  - eapply notification_step_Inv_history; [|apply notification_only_after_commit].
    by apply Inv_history_committed_checkin.
  - apply ids_below_fresh, HI.
Qed.

Lemma Inv_history_handle clk req w :
  Inv w → Inv_history w → Inv_history (handle clk req w).
Proof.
  intros HI H. destruct req; simpl.
  - by apply Inv_history_create_task.
  - by apply Inv_history_update_task.
  - by apply Inv_history_delete_task.
  - by apply Inv_history_checkin_task.
  - eapply notification_step_Inv_history; [done|apply notification_only_create_notification].
  - eapply notification_step_Inv_history; [done|apply notification_only_mark_as_read].
  - eapply notification_step_Inv_history; [done|apply notification_only_mark_all_as_read].
  - eapply notification_step_Inv_history; [done|apply notification_only_delete_notification].
  - eapply notification_step_Inv_history; [done|apply notification_only_generate_habit_reminders].
  - eapply notification_step_Inv_history; [done|apply notification_only_generate_at_risk].
  - eapply notification_step_Inv_history; [done|apply notification_only_uuid4].
Qed.

Lemma Inv_history_run trace w :
  Inv w → Inv_history w → Inv_history (run trace w).
Proof.
  revert w. induction trace as [|[clk req] trace IH]; intros w HI H; [done|].
  simpl. apply IH; [by apply Inv_handle|by apply Inv_history_handle].
Qed.

Lemma Reachable_Inv_history w : Reachable w → Inv_history w.
Proof. intros [trace <-]. apply Inv_history_run; [apply Inv_init|apply Inv_history_init]. Qed.

(* ===================================================================== *)
(** ** Lookups by key *)
(* ===================================================================== *)

Lemma get_task_found w task :
  NoDup (TaskCard.id <$> task_cards w) → task ∈ task_cards w →
  get_task (TaskCard.id task) w = (w, Ok task).
Proof.
  intros Hnd Hin. unfold get_task.
  rewrite bind_execute, select_task_by_id_unique by done. done.
Qed.

Lemma get_task_missing w task_id :
  (∀ task, task ∈ task_cards w → TaskCard.id task ≠ task_id) →
  get_task task_id w = (w, Raise HTTP_404_NOT_FOUND).
Proof.
  intros Hno. unfold get_task.
  rewrite bind_execute, select_task_by_id_none by done. done.
Qed.

Lemma create_task_eq clk task_data w :
  ids_below (uuids_drawn w) (TaskCard.id <$> task_cards w) →
  create_task clk task_data w
  = (mkWorld (task_cards w ++ [new_task clk task_data w]) (checkin_records w)
             (notifications w) (N.succ (uuids_drawn w)),
     Ok (new_task clk task_data w)).
Proof.
  intros Hb. unfold create_task. rewrite bind_uuid4.
  unfold mbind, M_bind, add_task. simpl.
  rewrite bool_decide_eq_false_2; [done|]. by apply ids_below_fresh.
Qed.

Lemma update_task_eq clk task_id task_data w task :
  select_task_by_id task_id w = [task] →
  update_task clk task_id task_data w
  = (mkWorld (replace_task (TaskCard.id task)
                (flushed_task clk task (assigned task_data task)) (task_cards w))
             (checkin_records w) (notifications w) (uuids_drawn w),
     Ok (flushed_task clk task (assigned task_data task))).
Proof.
  intros Ht. unfold update_task. rewrite bind_execute, Ht. reflexivity.
Qed.

Lemma replace_task_elem task_id task' rows :
  NoDup (TaskCard.id <$> rows) → TaskCard.id task' = task_id →
  (∃ task, task ∈ rows ∧ TaskCard.id task = task_id) →
  task' ∈ replace_task task_id task' rows
  ∧ NoDup (TaskCard.id <$> replace_task task_id task' rows).
Proof.
  intros Hnd Hid (task & Hin & Htid). unfold replace_task. split.
  - apply list_elem_of_fmap. exists task. by rewrite bool_decide_eq_true_2.
  - rewrite fmap_key_preserved; [done|]. intros row. case_bool_decide; congruence.
Qed.

Lemma replace_task_same task rows :
  NoDup (TaskCard.id <$> rows) → task ∈ rows →
  replace_task (TaskCard.id task) task rows = rows.
Proof.
  intros Hnd Hin. unfold replace_task.
  rewrite <- (list_fmap_id rows) at 2. apply list_fmap_ext. intros i row Hrow. simpl.
  case_bool_decide as Heq; [|done].
  apply list_elem_of_lookup_2 in Hrow.
  symmetry. by apply (NoDup_fmap_eq TaskCard.id rows).
Qed.

Lemma assigned_fields task_data task :
  let task' := assigned task_data task in
  TaskCard.id task' = TaskCard.id task
  ∧ TaskCard.title task' = default (TaskCard.title task) (TaskCardUpdate.title task_data)
  ∧ TaskCard.content task'
    = default (TaskCard.content task) (TaskCardUpdate.content task_data)
  ∧ TaskCard.list_id task'
    = match TaskCardUpdate.list_id task_data with
      | Some l => Some l
      | None => TaskCard.list_id task
      end
  ∧ TaskCard.is_habit task'
    = default (TaskCard.is_habit task) (TaskCardUpdate.is_habit task_data)
  ∧ TaskCard.reminder_time task'
    = (if TaskCardUpdate.clear_reminder task_data then None
       else match TaskCardUpdate.reminder_time task_data with
            | Some v => Some v
            | None => TaskCard.reminder_time task
            end)
  ∧ TaskCard.current_streak task' = TaskCard.current_streak task
  ∧ TaskCard.longest_streak task' = TaskCard.longest_streak task
  ∧ TaskCard.last_checkin_date task' = TaskCard.last_checkin_date task
  ∧ TaskCard.created_at task' = TaskCard.created_at task
  ∧ TaskCard.updated_at task' = TaskCard.updated_at task
  ∧ TaskCard.is_deleted task' = TaskCard.is_deleted task.
Proof.
  destruct task_data as [[?|] [?|] [?|] [?|] [?|] [|]]; simpl; repeat split.
Qed.

Lemma task_ext (a b : TaskCard.t) :
  TaskCard.id a = TaskCard.id b → TaskCard.title a = TaskCard.title b →
  TaskCard.content a = TaskCard.content b → TaskCard.list_id a = TaskCard.list_id b →
  TaskCard.is_habit a = TaskCard.is_habit b →
  TaskCard.reminder_time a = TaskCard.reminder_time b →
  TaskCard.current_streak a = TaskCard.current_streak b →
  TaskCard.longest_streak a = TaskCard.longest_streak b →
  TaskCard.last_checkin_date a = TaskCard.last_checkin_date b →
  TaskCard.created_at a = TaskCard.created_at b →
  TaskCard.updated_at a = TaskCard.updated_at b →
  TaskCard.is_deleted a = TaskCard.is_deleted b → a = b.
Proof. destruct a, b. simpl. by intros -> -> -> -> -> -> -> -> -> -> -> ->. Qed.

(* ===================================================================== *)
(** ** Sorted results *)
(* ===================================================================== *)

#[global] Instance desc_by_total {A} (key : A → Z) : Total (desc_by key).
Proof. intros a b. unfold desc_by. lia. Qed.

#[global] Instance desc_by_trans {A} (key : A → Z) : Transitive (desc_by key).
Proof. intros a b c. unfold desc_by. lia. Qed.

Lemma order_by_desc_Permutation {A} (key : A → Z) (rows : list A) :
  order_by_desc key rows ≡ₚ rows.
Proof. apply merge_sort_Permutation. Qed.

Lemma order_by_desc_sorted {A} (key : A → Z) (rows : list A) :
  StronglySorted (λ a b, key b <= key a) (order_by_desc key rows).
Proof. apply (StronglySorted_merge_sort (desc_by key)). Qed.

Lemma order_by_desc_elem {A} (key : A → Z) (rows : list A) x :
  x ∈ order_by_desc key rows ↔ x ∈ rows.
Proof. by rewrite order_by_desc_Permutation. Qed.

Lemma order_by_desc_length {A} (key : A → Z) (rows : list A) :
  length (order_by_desc key rows) = length rows.
Proof. by rewrite order_by_desc_Permutation. Qed.

Lemma filter_all {A} (P : A → Prop) `{∀ x, Decision (P x)} (l : list A) :
  (∀ x, x ∈ l → P x) → filter P l = l.
Proof.
  induction l as [|a l IH]; intros Hall; [done|].
  rewrite filter_cons_True by (apply Hall; left). f_equal.
  apply IH. intros x Hx. apply Hall. by right.
Qed.

Lemma get_tasks_eq list_id include_deleted w :
  get_tasks list_id include_deleted w
  = (w, Ok (order_by_desc TaskCard.created_at
              (filter (listed list_id include_deleted) (task_cards w)))).
Proof.
  unfold get_tasks. rewrite bind_execute. unfold mret, M_ret. do 3 f_equal.
  destruct include_deleted, list_id as [l|]; simpl.
  - apply list_filter_iff. intros t. unfold listed. split.
    + intros Hl. split; [by left|]. by intros ? [= <-].
    + intros [_ Hl]. by apply Hl.
  - symmetry. apply filter_all. intros t _. split; [by left|]. by intros ? [=].
  - rewrite list_filter_filter. apply list_filter_iff. intros t. unfold listed. split.
    + intros [Hl Hd]. split; [by right|]. by intros ? [= <-].
    + intros [[Hd|Hd] Hl]; [done|]. split; [by apply Hl|done].
  - apply list_filter_iff. intros t. unfold listed. split.
    + intros Hd. split; [by right|]. by intros ? [=].
    + by intros [[Hd|Hd] _].
Qed.

(* ===================================================================== *)
(** ** Deleting a task *)
(* ===================================================================== *)

Lemma delete_task_soft_eq clk task_id w task :
  select_task_by_id task_id w = [task] →
  delete_task clk task_id false w
  = (mkWorld (replace_task (TaskCard.id task)
                (flushed_task clk task (TaskCard.set_is_deleted true task)) (task_cards w))
             (checkin_records w) (notifications w) (uuids_drawn w), Ok ()).
Proof. intros Ht. unfold delete_task. rewrite bind_execute, Ht. reflexivity. Qed.

Lemma delete_task_hard_eq clk task_id w task :
  select_task_by_id task_id w = [task] →
  delete_task clk task_id true w
  = (mkWorld (filter (λ row, TaskCard.id row ≠ TaskCard.id task) (task_cards w))
             (checkin_records w) (notifications w) (uuids_drawn w), Ok ()).
Proof. intros Ht. unfold delete_task. rewrite bind_execute, Ht. reflexivity. Qed.

Lemma delete_task_missing clk task_id hard_delete w :
  select_task_by_id task_id w = [] →
  delete_task clk task_id hard_delete w = (w, Raise HTTP_404_NOT_FOUND).
Proof. intros Ht. unfold delete_task. rewrite bind_execute, Ht. reflexivity. Qed.

Lemma get_task_checkins_missing task_id limit w :
  select_task_by_id task_id w = [] →
  get_task_checkins task_id limit w = (w, Raise HTTP_404_NOT_FOUND).
Proof. intros Ht. unfold get_task_checkins. rewrite bind_execute, Ht. reflexivity. Qed.

Lemma update_task_missing clk task_id task_data w :
  select_task_by_id task_id w = [] →
  update_task clk task_id task_data w = (w, Raise HTTP_404_NOT_FOUND).
Proof. intros Ht. unfold update_task. rewrite bind_execute, Ht. reflexivity. Qed.

(* ===================================================================== *)
(** ** The check-in history of a task *)
(* ===================================================================== *)

Lemma NoDup_fmap_finer {A K L} (f : A → K) (g : A → L) (l : list A) :
  NoDup (f <$> l) → (∀ x y, x ∈ l → y ∈ l → g x = g y → f x = f y) →
  NoDup (g <$> l).
Proof.
  induction l as [|a l IH]; intros Hnd Hfg; [constructor|].
  rewrite fmap_cons in Hnd. apply NoDup_cons in Hnd as [Hna Hnd].
  rewrite fmap_cons. apply NoDup_cons. split.
  - intros (b & Hb & Hin)%list_elem_of_fmap. apply Hna.
    rewrite (Hfg a b); [by apply list_elem_of_fmap_2|left|by right|done].
  - apply IH; [done|]. intros x y Hx Hy. apply Hfg; by right.
Qed.

Lemma checkins_of_dates_NoDup task_id w :
  checkins_unique w → NoDup (CheckinRecord.checkin_date <$> checkins_of task_id w).
Proof.
  intros Hu. apply (NoDup_fmap_finer checkin_key).
  - unfold checkins_of. by apply NoDup_fmap_filter.
  - intros x y [Hx _]%list_elem_of_filter [Hy _]%list_elem_of_filter Hd.
    unfold checkin_key. congruence.
Qed.

Lemma StronglySorted_strict {A} (key : A → Z) (l : list A) :
  StronglySorted (λ a b, key b <= key a) l → NoDup (key <$> l) →
  StronglySorted (λ a b, key b < key a) l.
Proof.
  induction 1 as [|a l Hs IH Hall]; intros Hnd; [constructor|].
  rewrite fmap_cons in Hnd. apply NoDup_cons in Hnd as [Hna Hnd].
  constructor; [by apply IH|].
  apply Forall_forall. intros b Hb. rewrite Forall_forall in Hall.
  specialize (Hall _ Hb). simpl in Hall.
  assert (key b ≠ key a); [|lia].
  intros Heq. apply Hna. rewrite <- Heq. by apply list_elem_of_fmap_2.
Qed.

Lemma checkins_of_elem task_id w r :
  r ∈ checkins_of task_id w ↔ r ∈ checkin_records w ∧ CheckinRecord.task_id r = task_id.
Proof. unfold checkins_of. rewrite list_elem_of_filter. tauto. Qed.

Lemma select_checkin_of task_id today w :
  select_checkin task_id today w
  = filter (λ r, CheckinRecord.checkin_date r = today) (checkins_of task_id w).
Proof.
  unfold select_checkin, checkins_of. rewrite list_filter_filter.
  apply list_filter_iff. intros r. tauto.
Qed.

Lemma get_task_checkins_eq task_id limit w task :
  select_task_by_id task_id w = [task] →
  get_task_checkins task_id limit w = (w, Ok (select_task_checkins task_id limit w)).
Proof. intros Ht. unfold get_task_checkins. rewrite bind_execute, Ht. reflexivity. Qed.

(* ===================================================================== *)
(** ** Runs of check-ins *)
(* ===================================================================== *)

Lemma select_checkin_later task_id d w :
  (∀ r, r ∈ checkins_of task_id w → CheckinRecord.checkin_date r < d) →
  select_checkin task_id d w = [].
Proof.
  intros Hbefore. rewrite select_checkin_of. apply filter_none.
  intros r Hr Hd. specialize (Hbefore _ Hr). lia.
Qed.

Lemma calculate_streak_base task d :
  0 <= TaskCard.current_streak task →
  (∀ l, TaskCard.last_checkin_date task = Some l → l < d) →
  calculate_streak (TaskCard.last_checkin_date task) (TaskCard.current_streak task) d
  = streak_base task d + 1.
Proof.
  intros Hb Hbefore. unfold calculate_streak, streak_base.
  destruct (TaskCard.last_checkin_date task) as [l|].
  - specialize (Hbefore l eq_refl).
    rewrite bool_decide_eq_false_2 by lia.
    destruct (decide (l = d - 1)) as [->|Hgap].
    + rewrite !bool_decide_eq_true_2; [done|done|lia].
    + rewrite !bool_decide_eq_false_2; [done|congruence|lia].
  - by rewrite bool_decide_eq_false_2.
Qed.

(** One check-in on a day later than every recorded one. *)
Lemma checkin_on_later_day clk task_id checkin_data w task d :
  Reachable w → task ∈ task_cards w → TaskCard.id task = task_id →
  get_local_date clk (requested_offset checkin_data) = Ok d →
  (∀ r, r ∈ checkins_of task_id w → CheckinRecord.checkin_date r < d) →
  let w1 := handle clk (POST_task_checkin task_id checkin_data) w in
  let task1 := checked_in clk d task in
  Reachable w1 ∧ task1 ∈ task_cards w1
  ∧ TaskCard.id task1 = task_id
  ∧ TaskCard.last_checkin_date task1 = Some d
  ∧ TaskCard.current_streak task1 = streak_base task d + 1
  ∧ TaskCard.longest_streak task1
    = Z.max (TaskCard.longest_streak task) (streak_base task d + 1)
  ∧ checkins_of task_id w1 = checkins_of task_id w ++ [new_checkin_record clk task_id d w].
Proof.
  intros HR Hin Hid Hd Hbefore w1 task1.
  pose proof (Reachable_Inv _ HR) as HI. pose proof (Reachable_Inv_history _ HR) as HH.
  assert (Reachable w1) as HR1 by by apply Reachable_handle.
  pose proof (select_checkin_later _ _ _ Hbefore) as Hsel.
  subst w1. simpl in *.
  rewrite (checkin_task_first _ _ _ _ task d) in * by done.
  pose proof (notification_only_after_commit clk task_id d task
                (committed_checkin clk task_id d task w)) as Hstep.
  pose proof (checked_in_fields clk d task) as F. cbv zeta in F.
  destruct F as (Fid & _ & _ & _ & _ & _ & Fcur & Flong & Flast & _).
  pose proof (inv_task_consistent _ HI) as TC. rewrite Forall_forall in TC.
  destruct (TC _ Hin) as [Hb _].
  assert (calculate_streak (TaskCard.last_checkin_date task)
                           (TaskCard.current_streak task) d = streak_base task d + 1)
    as Hcalc.
  { apply calculate_streak_base; [lia|]. intros l Hl.
    destruct (hist_last_recorded _ HH _ _ Hin Hl) as (r & Hr & Hrid & <-).
    apply Hbefore. apply checkins_of_elem. split; congruence. }
  split_and!; try done.
  - rewrite (ns_tasks _ _ Hstep). by apply checked_in_stored.
  - subst task1. congruence.
  - subst task1. congruence.
  - subst task1. congruence.
  - erewrite checkins_of_snoc
      by (rewrite (ns_checkins _ _ Hstep); reflexivity).
    simpl. by rewrite decide_True.
Qed.

Lemma consecutive_checkins_run days : ∀ step w task d,
  Reachable w → task ∈ task_cards w →
  (∀ r, r ∈ checkins_of (TaskCard.id task) w → CheckinRecord.checkin_date r < d) →
  consecutive_from d (step :: days) →
  let w' := run (checkins_trace (TaskCard.id task) (step :: days)) w in
  ∃ task',
    task' ∈ task_cards w' ∧ TaskCard.id task' = TaskCard.id task
    ∧ TaskCard.last_checkin_date task' = Some (d + Z.of_nat (length days))
    ∧ TaskCard.current_streak task' = streak_base task d + Z.of_nat (S (length days))
    ∧ TaskCard.longest_streak task'
      = Z.max (TaskCard.longest_streak task) (TaskCard.current_streak task')
    ∧ length (checkins_of (TaskCard.id task) w')
      = (length (checkins_of (TaskCard.id task) w) + S (length days))%nat.
Proof.
  induction days as [|step2 days IH]; intros [clk checkin_data] w task d HR Hin Hbefore Hcons.
  - destruct (checkin_on_later_day clk (TaskCard.id task) checkin_data w task d)
      as (HR1 & Hin1 & Hid1 & Hlast1 & Hcur1 & Hlong1 & Hrec1); try done.
    { specialize (Hcons 0%nat (clk, checkin_data) eq_refl). simpl in Hcons.
      by rewrite Z.add_0_r in Hcons. }
    cbv zeta.
    change (run (checkins_trace (TaskCard.id task) [(clk, checkin_data)]) w)
      with (handle clk (POST_task_checkin (TaskCard.id task) checkin_data) w).
    exists (checked_in clk d task). split_and!.
    + done.
    + done.
    + rewrite Hlast1. f_equal. simpl length. lia.
    + rewrite Hcur1. simpl length. lia.
    + rewrite Hlong1, Hcur1. done.
    + rewrite Hrec1, length_app. simpl. done.
  - destruct (checkin_on_later_day clk (TaskCard.id task) checkin_data w task d)
      as (HR1 & Hin1 & Hid1 & Hlast1 & Hcur1 & Hlong1 & Hrec1); try done.
    { specialize (Hcons 0%nat (clk, checkin_data) eq_refl). simpl in Hcons.
      by rewrite Z.add_0_r in Hcons. }
    set (w1 := handle clk (POST_task_checkin (TaskCard.id task) checkin_data) w) in *.
    set (task1 := checked_in clk d task) in *.
    destruct (IH step2 w1 task1 (d + 1)) as (task' & Hin' & Hid' & Hlast' & Hcur' & Hlong' & Hrec').
    + done.
    + done.
    + rewrite Hid1, Hrec1. intros r [Hr|Hr]%elem_of_app.
      * specialize (Hbefore _ Hr). lia.
      * apply list_elem_of_singleton in Hr. subst r. simpl. lia.
    + intros i step Hi. specialize (Hcons (S i) step Hi).
      rewrite Hcons. f_equal. lia.
    + rewrite Hid1 in *. cbv zeta.
      assert (streak_base task1 (d + 1) = TaskCard.current_streak task1) as Hbase.
      { unfold streak_base. rewrite bool_decide_eq_true_2; [done|].
        rewrite Hlast1. f_equal. lia. }
      change (run (checkins_trace (TaskCard.id task) ((clk, checkin_data) :: step2 :: days)) w)
        with (run (checkins_trace (TaskCard.id task) (step2 :: days)) w1).
      exists task'. split_and!; [done|done|..].
      * rewrite Hlast'. f_equal. simpl length. lia.
      * rewrite Hcur', Hbase, Hcur1. simpl length. lia.
      * rewrite Hlong', Hlong1. rewrite Hcur', Hbase, Hcur1. lia.
      * rewrite Hrec', Hrec1, length_app. simpl. lia.
Qed.

(* ===================================================================== *)
(** ** Steps that append notifications *)
(* ===================================================================== *)

Lemma appends_refl k w : appends k w w.
Proof.
  split; try done. exists []. rewrite app_nil_r. split_and!; try done.
  - simpl. lia.
  - constructor.
Qed.

Lemma appends_mono k k' w w' : (k <= k')%nat → appends k w w' → appends k' w w'.
Proof.
  intros Hle [T C D (news & Hn & Hlen & Hnd & Hids)]. split; try done.
  exists news. split_and!; try done. lia.
Qed.

Lemma appends_trans k1 k2 w1 w2 w3 :
  appends k1 w1 w2 → appends k2 w2 w3 → appends (k1 + k2) w1 w3.
Proof.
  intros [T1 C1 D1 (n1 & Hn1 & Hl1 & Hnd1 & Hi1)] [T2 C2 D2 (n2 & Hn2 & Hl2 & Hnd2 & Hi2)].
  split.
  - by rewrite T2.
  - by rewrite C2.
  - lia.
  - exists (n1 ++ n2). split_and!.
    + by rewrite Hn2, Hn1, app_assoc.
    + rewrite length_app. lia.
    + rewrite fmap_app. apply NoDup_app. split_and!; try done.
      intros x (a & -> & Ha)%list_elem_of_fmap (b & Heq & Hb)%list_elem_of_fmap.
      rewrite Forall_forall in Hi1, Hi2.
      destruct (Hi1 _ Ha) as (i & Hi & Hai). destruct (Hi2 _ Hb) as (j & Hj & Hbj).
      rewrite Hai, Hbj in Heq. apply (inj pretty) in Heq. lia.
    + apply Forall_app. split.
      * eapply Forall_impl; [exact Hi1|]. intros n (i & Hi & ?). exists i. split; [lia|done].
      * eapply Forall_impl; [exact Hi2|]. intros n (i & Hi & ?). exists i. split; [lia|done].
Qed.

Lemma appends_only_mono {A} k k' (m : M A) :
  (k <= k')%nat → appends_only k m → appends_only k' m.
Proof. intros Hle Hm w. by eapply appends_mono. Qed.

Lemma appends_only_bind {A B} k1 k2 (m : M A) (f : A → M B) :
  appends_only k1 m → (∀ a, appends_only k2 (f a)) → appends_only (k1 + k2) (m ≫= f).
Proof.
  intros Hm Hf w. specialize (Hm w). unfold mbind, M_bind.
  destruct (m w) as [w' [a|e]]; simpl in *.
  - eapply appends_trans; [exact Hm|apply Hf].
  - eapply appends_mono; [|exact Hm]. lia.
Qed.

Lemma appends_only_read {A B} (m : M A) (f : A → M B) k :
  (∀ w, (m w).1 = w) → (∀ a, appends_only k (f a)) → appends_only k (m ≫= f).
Proof.
  intros Hm Hf w. specialize (Hm w). unfold mbind, M_bind.
  destruct (m w) as [w' [a|e]]; simpl in *; subst w'; [apply Hf|apply appends_refl].
Qed.

Lemma appends_only_ret {A} (a : A) : appends_only 0 (mret a).
Proof. intros w. apply appends_refl. Qed.

Lemma appends_only_pure {A} k (m : M A) : (∀ w, (m w).1 = w) → appends_only k m.
Proof. intros Hm w. rewrite Hm. apply appends_refl. Qed.

Lemma scalar_one_or_none_reads {A} (rows : list A) w : (scalar_one_or_none rows w).1 = w.
Proof. by destruct rows as [|? [|? ?]]. Qed.

Lemma _check_existing_achievement_reads habit_id milestone w :
  (_check_existing_achievement habit_id milestone w).1 = w.
Proof. by rewrite _check_existing_achievement_eq. Qed.

Lemma _check_existing_daily_complete_reads clk today w :
  (_check_existing_daily_complete clk today w).1 = w.
Proof.
  destruct (decide (before_last_day clk)) as [Hday|Hday].
  - rewrite _check_existing_daily_complete_eq by done.
    by destruct (notifications_of_utc_day clk "daily_complete" w) as [|? [|? ?]].
  - by rewrite _check_existing_daily_complete_last.
Qed.

Lemma _check_existing_reminder_reads clk habit_id today w :
  (_check_existing_reminder clk habit_id today w).1 = w.
Proof.
  destruct (decide (before_last_day clk)) as [Hday|Hday].
  - by rewrite _check_existing_reminder_eq.
  - by rewrite _check_existing_reminder_last.
Qed.

Lemma _check_existing_at_risk_reads clk habit_id today w :
  (_check_existing_at_risk clk habit_id today w).1 = w.
Proof.
  destruct (decide (before_last_day clk)) as [Hday|Hday].
  - by rewrite _check_existing_at_risk_eq.
  - by rewrite _check_existing_at_risk_last.
Qed.

Lemma appends_only_create clk ty ti msg data :
  appends_only 1 (_create_notification clk ty ti msg data).
Proof.
  intros w. unfold _create_notification, mbind, M_bind, uuid4, add_notification. simpl.
  case_bool_decide; simpl.
  - split; simpl; try done; [lia|]. exists []. rewrite app_nil_r.
    split_and!; try done; [simpl; lia|constructor].
  - split; simpl; try done; [lia|]. eexists [_]. split_and!; try done.
    + apply NoDup_singleton.
    + apply Forall_singleton. exists (uuids_drawn w). simpl. split; [lia|done].
Qed.

Lemma appends_only_create_notification clk body :
  appends_only 1 (create_notification clk body).
Proof.
  intros w. unfold create_notification, mbind, M_bind, uuid4, add_notification. simpl.
  case_bool_decide; simpl.
  - split; simpl; try done; [lia|]. exists []. rewrite app_nil_r.
    split_and!; try done; [simpl; lia|constructor].
  - split; simpl; try done; [lia|]. eexists [_]. split_and!; try done.
    + apply NoDup_singleton.
    + apply Forall_singleton. exists (uuids_drawn w). simpl. split; [lia|done].
Qed.

Lemma appends_only_check_streak_achievement clk hid streak title :
  appends_only 1 (check_streak_achievement clk hid streak title).
Proof.
  unfold check_streak_achievement. destruct (negb _).
  { apply appends_only_pure. done. }
  apply appends_only_read; [apply _check_existing_achievement_reads|].
  intros [|]; [by apply appends_only_pure|].
  apply (appends_only_bind 1 0); [apply appends_only_create|].
  intros n. apply appends_only_ret.
Qed.

Lemma appends_only_check_daily_complete clk :
  appends_only 1 (check_daily_complete clk).
Proof.
  unfold check_daily_complete.
  apply appends_only_read; [done|]. intros habits.
  case_bool_decide; [by apply appends_only_pure|].
  destruct (negb _); [by apply appends_only_pure|].
  apply appends_only_read; [apply _check_existing_daily_complete_reads|].
  intros [|]; [by apply appends_only_pure|].
  apply (appends_only_bind 1 0); [apply appends_only_create|].
  intros n. apply appends_only_ret.
Qed.

Lemma appends_only_after_commit clk task_id today task :
  appends_only 2 (after_commit clk task_id today task).
Proof.
  unfold after_commit.
  apply (appends_only_bind 1 1); [apply appends_only_check_streak_achievement|].
  intros _. apply (appends_only_bind 1 0); [apply appends_only_check_daily_complete|].
  intros _. apply appends_only_ret.
Qed.

Lemma appends_only_habit_reminders_loop clk today habits acc :
  appends_only (length habits) (habit_reminders_loop clk today habits acc).
Proof.
  revert acc. induction habits as [|habit rest IH]; intros acc; simpl.
  - apply appends_only_ret.
  - repeat case_bool_decide;
      try (eapply appends_only_mono; [|apply IH]; lia).
    apply appends_only_read; [intros w; apply _check_existing_reminder_reads|]. intros [|].
    + eapply appends_only_mono; [|apply IH]; lia.
    + apply (appends_only_bind 1 (length rest)); [apply appends_only_create|].
      intros n. apply IH.
Qed.

Lemma appends_only_at_risk_loop clk today habits acc :
  appends_only (length habits) (at_risk_loop clk today habits acc).
Proof.
  revert acc. induction habits as [|habit rest IH]; intros acc; simpl.
  - apply appends_only_ret.
  - apply appends_only_read; [intros w; apply _check_existing_at_risk_reads|]. intros [|].
    + eapply appends_only_mono; [|apply IH]; lia.
    + apply (appends_only_bind 1 (length rest)); [apply appends_only_create|].
      intros n. apply IH.
Qed.

Lemma appends_unique k w w' :
  ids_below (uuids_drawn w) (Notification.id <$> notifications w) →
  appends k w w' → notifications_unique w → notifications_unique w'.
Proof.
  intros Hb [_ _ _ (news & Hn & _ & Hnd & Hids)] Hu. unfold notifications_unique in *.
  rewrite Hn, fmap_app. apply NoDup_app. split_and!; try done.
  intros x Hx (b & -> & Hb')%list_elem_of_fmap.
  rewrite Forall_forall in Hids. destruct (Hids _ Hb') as (i & Hi & Heq).
  unfold ids_below in Hb. rewrite Forall_forall in Hb.
  destruct (Hb _ Hx) as (j & Hj & Heq'). rewrite Heq in Heq'.
  apply (inj pretty) in Heq'. lia.
Qed.

Lemma appends_generate_habit_reminders clk w :
  appends (length (select_active_habits w)) w (generate_habit_reminders clk w).1.
Proof.
  unfold generate_habit_reminders. rewrite bind_execute.
  apply appends_only_habit_reminders_loop.
Qed.

Lemma appends_generate_at_risk clk w :
  appends (length (select_at_risk_habits (date_today clk) w)) w
          (generate_at_risk_notifications clk w).1.
Proof.
  unfold generate_at_risk_notifications. rewrite bind_execute.
  apply appends_only_at_risk_loop.
Qed.

(* ===================================================================== *)
(** ** What the task endpoints do to the notifications *)
(* ===================================================================== *)

Lemma create_task_notifications clk task_data w :
  notifications (create_task clk task_data w).1 = notifications w.
Proof.
  unfold create_task. rewrite bind_uuid4. unfold mbind, M_bind, add_task. simpl.
  by case_bool_decide.
Qed.

Lemma update_task_notifications clk task_id task_data w :
  notifications (update_task clk task_id task_data w).1 = notifications w.
Proof.
  unfold update_task. rewrite bind_execute, bind_scalar_one_or_none.
  by destruct (select_task_by_id task_id w) as [|task [|? ?]].
Qed.

Lemma delete_task_notifications clk task_id hard_delete w :
  notifications (delete_task clk task_id hard_delete w).1 = notifications w.
Proof.
  unfold delete_task. rewrite bind_execute, bind_scalar_one_or_none.
  destruct (select_task_by_id task_id w) as [|task [|? ?]]; try done.
  by destruct hard_delete.
Qed.

(** Every path of [checkin_task]: up to the commit the notifications are
    left alone, and the two checks after it append at most two. *)
Lemma checkin_task_notifications clk task_id checkin_data w :
  ∃ w0, notifications w0 = notifications w
        ∧ (uuids_drawn w <= uuids_drawn w0)%N
        ∧ appends 2 w0 (checkin_task clk task_id checkin_data w).1.
Proof.
  destruct (select_task_by_id task_id w) as [|task [|? ?]] eqn:Ht;
    [exists w; rewrite checkin_task_not_found by done; split_and!;
       [done|lia|apply appends_refl]
    | |exists w; erewrite checkin_task_ambiguous by done; split_and!;
       [done|lia|apply appends_refl]].
  destruct (get_local_date clk (requested_offset checkin_data)) as [today|e] eqn:Hd;
    [|exists w; erewrite checkin_task_no_date by done; split_and!;
       [done|lia|apply appends_refl]].
  destruct (select_checkin task_id today w) as [|r [|? ?]] eqn:Hr;
    [|exists w; erewrite checkin_task_already by done; split_and!;
       [done|lia|apply appends_refl]
     |exists w; erewrite checkin_task_duplicates by done; split_and!;
       [done|lia|apply appends_refl]].
  destruct (decide (pretty (uuids_drawn w) ∈ (CheckinRecord.id <$> checkin_records w)))
    as [Hclash|Hfresh].
  - rewrite (checkin_task_pk_clash _ _ _ _ task Ht today Hd Hr Hclash).
    eexists. split_and!; [| |apply appends_refl]; simpl; [done|lia].
  - rewrite (checkin_task_commits _ _ _ _ task Ht today Hd Hr Hfresh).
    exists (committed_checkin clk task_id today task w). split_and!.
    + done.
    + simpl. lia.
    + apply appends_only_after_commit.
Qed.

(* ===================================================================== *)
(** ** The primary key of the notifications *)
(* ===================================================================== *)

Lemma notifications_unique_handle clk req w :
  Inv w → notifications_unique w → notifications_unique (handle clk req w).
Proof.
  intros HI Hu. pose proof (inv_notification_ids _ HI) as Hb.
  unfold notifications_unique in *. destruct req; simpl.
  - by rewrite create_task_notifications.
  - by rewrite update_task_notifications.
  - by rewrite delete_task_notifications.
  - destruct (checkin_task_notifications clk task_id checkin_data w)
      as (w0 & Hn0 & Hd0 & Hap).
    eapply appends_unique; [|exact Hap|].
    + rewrite Hn0. by eapply ids_below_mono.
    + unfold notifications_unique. by rewrite Hn0.
  - eapply appends_unique; [done|apply appends_only_create_notification|done].
  - unfold mark_as_read. rewrite bind_execute, bind_scalar_one_or_none.
    destruct (select_notification_by_id notification_id w) as [|n [|? ?]]; try done.
    simpl. rewrite fmap_key_preserved; [done|].
    intros row. case_bool_decide; simpl; congruence.
  - rewrite fmap_key_preserved; [done|].
    intros row. by destruct (Notification.is_read row).
  - unfold delete_notification. rewrite bind_execute, bind_scalar_one_or_none.
    destruct (select_notification_by_id notification_id w) as [|n [|? ?]]; try done.
    simpl. by apply NoDup_fmap_filter.
  - eapply appends_unique; [done|apply appends_generate_habit_reminders|done].
  - eapply appends_unique; [done|apply appends_generate_at_risk|done].
  - done.
Qed.

Lemma notifications_unique_run trace w :
  Inv w → notifications_unique w → notifications_unique (run trace w).
Proof.
  revert w. induction trace as [|[clk req] trace IH]; intros w HI Hu; [done|].
  simpl. apply IH; [by apply Inv_handle|by apply notifications_unique_handle].
Qed.

Lemma Reachable_notifications_unique w : Reachable w → notifications_unique w.
Proof.
  intros [trace <-]. apply notifications_unique_run; [apply Inv_init|constructor].
Qed.

(* ===================================================================== *)
(** ** Counting and paging notifications *)
(* ===================================================================== *)

Lemma or_0_count {A} (rows : list A) : or_0 (sql_count rows) = Z.of_nat (length rows).
Proof. unfold or_0, sql_count. case_bool_decide; lia. Qed.

Lemma get_unread_count_eq w :
  get_unread_count w = (w, Ok (Z.of_nat (length (select_unread w)))).
Proof.
  unfold get_unread_count, execute_scalar, mbind, M_bind, mret, M_ret.
  by rewrite or_0_count.
Qed.

Lemma get_notifications_eq limit offset unread_only w :
  sqlite_integer limit = true → sqlite_integer offset = true →
  get_notifications limit offset unread_only w
  = (w, Ok (NotificationListResponse.mk
              (select_notifications_page limit offset unread_only w)
              (Z.of_nat (length (notifications w)))
              (Z.of_nat (length (select_unread w))))).
Proof.
  intros Hl Ho. unfold get_notifications, execute_with. cbn [forallb].
  rewrite Hl, Ho. cbn [andb].
  unfold execute_scalar, execute, mbind, M_bind, mret, M_ret.
  by rewrite !or_0_count.
Qed.

Lemma get_notifications_overflow limit offset unread_only w :
  sqlite_integer limit = false ∨ sqlite_integer offset = false →
  get_notifications limit offset unread_only w = (w, Raise OverflowError).
Proof.
  intros Hcase. unfold get_notifications, execute_with. cbn [forallb].
  destruct Hcase as [-> | ->]; [done|]. by rewrite andb_false_r.
Qed.

Lemma sql_limit_sublist {A} (limit : Z) (rows : list A) :
  ∃ rest, rows = sql_limit limit rows ++ rest.
Proof.
  unfold sql_limit. case_bool_decide.
  - exists []. by rewrite app_nil_r.
  - exists (drop (Z.to_nat limit) rows). by rewrite take_drop.
Qed.

Lemma sql_offset_sublist {A} (offset : Z) (rows : list A) :
  ∃ skipped, rows = skipped ++ sql_offset offset rows.
Proof. exists (take (Z.to_nat offset) rows). unfold sql_offset. by rewrite take_drop. Qed.

Lemma set_is_read_read (n : Notification.t) :
  Notification.is_read n = true → Notification.set_is_read true n = n.
Proof. destruct n. simpl. by intros ->. Qed.

Lemma select_notification_by_id_unique w n :
  notifications_unique w → n ∈ notifications w →
  select_notification_by_id (Notification.id n) w = [n].
Proof. intros. unfold select_notification_by_id. by apply filter_key_unique. Qed.

Lemma select_notification_by_id_none w notification_id :
  (∀ n, n ∈ notifications w → Notification.id n ≠ notification_id) →
  select_notification_by_id notification_id w = [].
Proof. intros Hno. unfold select_notification_by_id. by apply filter_none. Qed.

(** Replacing the row of a key by a read one. *)
Lemma unread_after_replace (rows : list Notification.t) n n' :
  NoDup (Notification.id <$> rows) → n ∈ rows →
  Notification.is_read n' = true →
  let rows' := (λ row, if bool_decide (Notification.id row = Notification.id n)
                       then n' else row) <$> rows in
  (length (filter (λ r, Notification.is_read r = false) rows')
   + (if Notification.is_read n then 0 else 1))%nat
  = length (filter (λ r, Notification.is_read r = false) rows).
Proof.
  intros Hnd Hin Hread. simpl.
  induction rows as [|a rows IH]; [by apply elem_of_nil in Hin|].
  rewrite fmap_cons in Hnd. apply NoDup_cons in Hnd as [Hna Hnd].
  rewrite fmap_cons, !filter_cons.
  apply elem_of_cons in Hin as [->|Hin].
  - rewrite bool_decide_eq_true_2 by done.
    rewrite decide_False by (rewrite Hread; done).
    assert (((λ row, if bool_decide (Notification.id row = Notification.id a)
                     then n' else row) <$> rows) = rows) as ->.
    { rewrite <- (list_fmap_id rows) at 2. apply list_fmap_ext. intros i row Hrow. simpl.
      rewrite bool_decide_eq_false_2; [done|]. intros Heq. apply Hna. rewrite <- Heq.
      apply list_elem_of_fmap_2. by eapply list_elem_of_lookup_2. }
    destruct (Notification.is_read a).
    + rewrite decide_False by done. lia.
    + rewrite decide_True by done. simpl. lia.
  - rewrite bool_decide_eq_false_2.
    2:{ intros Heq. apply Hna. rewrite Heq. by apply list_elem_of_fmap_2. }
    specialize (IH Hnd Hin). case_decide; simpl; lia.
Qed.

Lemma mark_as_read_eq notification_id w n :
  select_notification_by_id notification_id w = [n] →
  mark_as_read notification_id w
  = (mkWorld (task_cards w) (checkin_records w)
             (replace_notification (Notification.id n) (Notification.set_is_read true n)
                                   (notifications w))
             (uuids_drawn w),
     Ok (Notification.set_is_read true n)).
Proof. intros Hn. unfold mark_as_read. rewrite bind_execute, Hn. reflexivity. Qed.

Lemma mark_as_read_missing notification_id w :
  select_notification_by_id notification_id w = [] →
  mark_as_read notification_id w = (w, Raise HTTP_404_NOT_FOUND).
Proof. intros Hn. unfold mark_as_read. rewrite bind_execute, Hn. reflexivity. Qed.

Lemma delete_notification_eq notification_id w n :
  select_notification_by_id notification_id w = [n] →
  delete_notification notification_id w
  = (mkWorld (task_cards w) (checkin_records w)
             (filter (λ row, Notification.id row ≠ Notification.id n) (notifications w))
             (uuids_drawn w), Ok ()).
Proof. intros Hn. unfold delete_notification. rewrite bind_execute, Hn. reflexivity. Qed.

Lemma delete_notification_missing notification_id w :
  select_notification_by_id notification_id w = [] →
  delete_notification notification_id w = (w, Raise HTTP_404_NOT_FOUND).
Proof. intros Hn. unfold delete_notification. rewrite bind_execute, Hn. reflexivity. Qed.

Lemma replace_notification_same n rows :
  NoDup (Notification.id <$> rows) → n ∈ rows →
  replace_notification (Notification.id n) n rows = rows.
Proof.
  intros Hnd Hin. unfold replace_notification.
  rewrite <- (list_fmap_id rows) at 2. apply list_fmap_ext. intros i row Hrow. simpl.
  case_bool_decide as Heq; [|done].
  apply list_elem_of_lookup_2 in Hrow.
  symmetry. by apply (NoDup_fmap_eq Notification.id rows).
Qed.

Lemma create_notification_eq clk body w :
  ids_below (uuids_drawn w) (Notification.id <$> notifications w) →
  let n := Notification.mk (pretty (uuids_drawn w)) (NotificationCreate.type body)
             (NotificationCreate.title body) (NotificationCreate.message body)
             (NotificationCreate.data body) false (utc_now clk) "default" in
  create_notification clk body w = (with_notification w n, Ok n).
Proof.
  intros Hb. simpl. unfold create_notification, mbind, M_bind, uuid4, add_notification.
  simpl. rewrite bool_decide_eq_false_2; [done|]. by apply ids_below_fresh.
Qed.

Lemma mark_all_as_read_nothing w :
  select_unread w = [] → mark_all_as_read w = (w, Ok 0%nat).
Proof.
  intros Hnone. unfold mark_all_as_read. fold (select_unread w). rewrite Hnone.
  assert (((λ row, if Notification.is_read row then row
                   else Notification.set_is_read true row) <$> notifications w)
          = notifications w) as ->; [|by destruct w].
  rewrite <- (list_fmap_id (notifications w)) at 2. apply list_fmap_ext.
  intros i row Hrow. simpl. destruct (Notification.is_read row) eqn:Hr; [done|].
  apply list_elem_of_lookup_2 in Hrow. exfalso.
  assert (row ∈ select_unread w) as Habs
    by (unfold select_unread; by apply list_elem_of_filter).
  rewrite Hnone in Habs. by apply elem_of_nil in Habs.
Qed.

(* ===================================================================== *)
(** ** The reminder loop *)
(* ===================================================================== *)

Lemma reminder_data_get habit :
  data_get (Some (reminder_data habit)) "habit_id" = Some (JStr (TaskCard.id habit))
  ∧ data_get (Some (reminder_data habit)) "at_risk" = None
  ∧ data_truthy (Some (reminder_data habit)) = true.
Proof. split_and!; reflexivity. Qed.

Lemma reminder_exists_with clk w habit_id habit title message :
  reminder_exists clk habit_id
    (with_notification w (new_notification clk w "habit_reminder" title message
                                           (Some (reminder_data habit))))
  = reminder_exists clk habit_id w || String.eqb (TaskCard.id habit) habit_id.
Proof.
  unfold reminder_exists. simpl. unfold notifications_of_utc_day. simpl.
  rewrite filter_app, existsb_app. f_equal.
  rewrite filter_cons_True.
  2:{ split; [done|apply within_utc_day_now]. }
  simpl. by rewrite orb_false_r, andb_true_r.
Qed.

Lemma for_habit_reminder clk w habit title message habit_id :
  for_habit habit_id (new_notification clk w "habit_reminder" title message
                                       (Some (reminder_data habit)))
  ↔ habit_id = TaskCard.id habit.
Proof.
  unfold for_habit. cbn [new_notification Notification.data].
  destruct (reminder_data_get habit) as (-> & _ & _).
  split; [by intros [= ->]|by intros ->].
Qed.

Lemma habit_reminders_loop_spec clk today habits :
  before_last_day clk → ∀ w acc,
  ids_below (uuids_drawn w) (Notification.id <$> notifications w) →
  NoDup (TaskCard.id <$> habits) →
  ∃ news,
    habit_reminders_loop clk today habits acc w
    = (mkWorld (task_cards w) (checkin_records w) (notifications w ++ news)
               (uuids_drawn w + N.of_nat (length news))%N, Ok (acc ++ news))
    ∧ Forall (λ n, Notification.type n = "habit_reminder"
                   ∧ Notification.created_at n = utc_now clk
                   ∧ Notification.is_read n = false
                   ∧ ∃ habit, habit ∈ habits
                              ∧ Notification.data n = Some (reminder_data habit)) news
    ∧ ∀ habit_id,
        length (filter (for_habit habit_id) news)
        = if bool_decide (habit_id ∈ (TaskCard.id <$> filter (reminder_due today) habits))
             && negb (reminder_exists clk habit_id w)
          then 1%nat else 0%nat.
Proof.
  intros Hday. induction habits as [|habit rest IH]; intros w acc Hb Hnd.
  - exists []. simpl. rewrite !app_nil_r, N.add_0_r. split_and!; try done. by destruct w.
  - rewrite fmap_cons in Hnd. apply NoDup_cons in Hnd as [Hna Hnd].
    assert (∀ news : list Notification.t,
              Forall (λ n, Notification.type n = "habit_reminder"
                           ∧ Notification.created_at n = utc_now clk
                           ∧ Notification.is_read n = false
                           ∧ ∃ h, h ∈ rest ∧ Notification.data n = Some (reminder_data h))
                     news →
              Forall (λ n, Notification.type n = "habit_reminder"
                           ∧ Notification.created_at n = utc_now clk
                           ∧ Notification.is_read n = false
                           ∧ ∃ h, h ∈ habit :: rest
                                  ∧ Notification.data n = Some (reminder_data h)) news)
      as Hweaken.
    { intros news Hall. eapply Forall_impl; [exact Hall|]. intros n (? & ? & ? & h & Hh & ?).
      split_and!; try done. exists h. split; [by right|done]. }
    assert (∀ habit_id, habit_id ≠ TaskCard.id habit →
              bool_decide (habit_id ∈ (TaskCard.id <$> filter (reminder_due today) (habit :: rest)))
              = bool_decide (habit_id ∈ (TaskCard.id <$> filter (reminder_due today) rest)))
      as Hother.
    { intros habit_id Hne. apply bool_decide_ext. rewrite filter_cons.
      case_decide; [|done]. rewrite fmap_cons, elem_of_cons. tauto. }
    assert (TaskCard.id habit ∉ (TaskCard.id <$> filter (reminder_due today) rest)) as Hna'.
    { intros (h & Heq & Hh)%list_elem_of_fmap. apply Hna. rewrite Heq.
      apply list_elem_of_fmap_2. by apply list_elem_of_filter in Hh as [_ ?]. }
    assert (¬ reminder_due today habit ∨ reminder_exists clk (TaskCard.id habit) w = true →
            habit_reminders_loop clk today (habit :: rest) acc w
            = habit_reminders_loop clk today rest acc w) as Hskip.
    { intros Hcase. cbn [habit_reminders_loop].
      case_bool_decide as Hlast; [done|]. case_bool_decide as Hcur; [done|].
      destruct Hcase as [Hnot|Hex]; [exfalso; by apply Hnot|].
      rewrite (bind_Ok _ _ _ _ _ (_check_existing_reminder_eq clk (TaskCard.id habit) today w Hday)).
      by rewrite Hex. }
    destruct (decide (reminder_due today habit
                      ∧ reminder_exists clk (TaskCard.id habit) w = false))
      as [[Hdue Hex]|Hno].
    + (* a reminder is created *)
      cbn [habit_reminders_loop]. destruct Hdue as [Hlast Hcur].
      rewrite bool_decide_eq_false_2 by done. rewrite bool_decide_eq_false_2 by done.
      rewrite (bind_Ok _ _ _ _ _ (_check_existing_reminder_eq clk (TaskCard.id habit) today w Hday)).
      rewrite Hex.
      match goal with
      | |- context [_create_notification clk ?ty ?ti ?msg ?data] =>
          rewrite (bind_Ok _ _ _ _ _ (_create_notification_eq clk ty ti msg data w Hb));
          set (n0 := new_notification clk w ty ti msg data)
      end.
      assert (ids_below (uuids_drawn (with_notification w n0))
                        (Notification.id <$> notifications (with_notification w n0))) as Hb1.
      { simpl. rewrite fmap_app. by apply ids_below_snoc. }
      destruct (IH (with_notification w n0) (acc ++ [n0]) Hb1 Hnd)
        as (news & Hres & Hall & Hcount).
      exists (n0 :: news). split_and!.
      * rewrite Hres. simpl. rewrite <- !app_assoc. simpl. do 2 f_equal. lia.
      * constructor; [|by apply Hweaken].
        split_and!; try done. exists habit. split; [left|done].
      * intros habit_id. rewrite filter_cons. specialize (Hcount habit_id).
        subst n0. rewrite reminder_exists_with in Hcount.
        destruct (decide (habit_id = TaskCard.id habit)) as [->|Hne].
        -- rewrite decide_True by by apply for_habit_reminder.
           simpl. rewrite Hcount. rewrite (bool_decide_eq_false_2 _ Hna').
           rewrite bool_decide_eq_true_2.
           2:{ rewrite filter_cons_True by done. rewrite fmap_cons. left. }
           by rewrite Hex.
        -- rewrite decide_False by (by rewrite for_habit_reminder).
           rewrite Hcount, (Hother _ Hne).
           assert (String.eqb (TaskCard.id habit) habit_id = false) as ->.
           { apply String.eqb_neq. congruence. }
           by rewrite orb_false_r.
    + (* the habit is skipped *)
      rewrite Hskip.
      2:{ destruct (decide (reminder_due today habit)) as [Hdue|Hnot]; [|by left].
          right. destruct (reminder_exists clk (TaskCard.id habit) w); [done|].
          exfalso. by apply Hno. }
      destruct (IH w acc Hb Hnd) as (news & Hres & Hall & Hcount).
      exists news. split_and!; [done|by apply Hweaken|].
      intros habit_id. rewrite Hcount.
      destruct (decide (habit_id = TaskCard.id habit)) as [->|Hne]; [|by rewrite Hother].
      rewrite (bool_decide_eq_false_2 _ Hna'). simpl.
      destruct (decide (reminder_due today habit)) as [Hdue|Hnot].
      * destruct (reminder_exists clk (TaskCard.id habit) w) eqn:Hex.
        -- by rewrite andb_false_r.
        -- exfalso. by apply Hno.
      * rewrite bool_decide_eq_false_2; [done|].
        rewrite filter_cons_False by done. done.
Qed.

Lemma length_zero_nil {A} (l : list A) : length l = 0%nat → l = [].
Proof. by destruct l. Qed.

(** The answers of the two existence checks depend on the clock through
    its UTC day only. *)
Lemma reminder_exists_same_day clk clk' habit_id w :
  date_of (utc_now clk') = date_of (utc_now clk) →
  reminder_exists clk' habit_id w = reminder_exists clk habit_id w.
Proof.
  intros Hday. apply eq_true_iff_eq. rewrite !reminder_exists_iff.
  split; intros (n & d & Hn & Hty & Hin & Hrest); exists n, d;
    (split_and!; [done|done| |apply Hrest..]);
    apply within_utc_day_iff; apply within_utc_day_iff in Hin; congruence.
Qed.

Lemma at_risk_exists_same_day clk clk' habit_id w :
  date_of (utc_now clk') = date_of (utc_now clk) →
  at_risk_exists clk' habit_id w = at_risk_exists clk habit_id w.
Proof.
  intros Hday. apply eq_true_iff_eq. rewrite !at_risk_exists_iff.
  split; intros (n & d & Hn & Hty & Hin & Hrest); exists n, d;
    (split_and!; [done|done| |apply Hrest..]);
    apply within_utc_day_iff; apply within_utc_day_iff in Hin; congruence.
Qed.

(** Both loops write nothing when every habit they would notify has its
    notification of the day. *)
Lemma habit_reminders_loop_nothing clk today habits :
  before_last_day clk → ∀ w acc,
  (∀ habit, habit ∈ habits → reminder_due today habit →
            reminder_exists clk (TaskCard.id habit) w = true) →
  habit_reminders_loop clk today habits acc w = (w, Ok acc).
Proof.
  intros Hday. induction habits as [|habit rest IH]; intros w acc Hall; [done|].
  cbn [habit_reminders_loop].
  assert (habit_reminders_loop clk today rest acc w = (w, Ok acc)) as Hrest.
  { apply IH. intros h Hh. apply Hall. by right. }
  case_bool_decide as Hlast; [done|]. case_bool_decide as Hcur; [done|].
  rewrite (bind_Ok _ _ _ _ _ (_check_existing_reminder_eq clk (TaskCard.id habit) today w Hday)).
  rewrite (Hall habit); [done|left|done].
Qed.

Lemma at_risk_loop_nothing clk today habits :
  before_last_day clk → ∀ w acc,
  (∀ habit, habit ∈ habits → at_risk_exists clk (TaskCard.id habit) w = true) →
  at_risk_loop clk today habits acc w = (w, Ok acc).
Proof.
  intros Hday. induction habits as [|habit rest IH]; intros w acc Hall; [done|].
  cbn [at_risk_loop].
  rewrite (bind_Ok _ _ _ _ _ (_check_existing_at_risk_eq clk (TaskCard.id habit) today w Hday)).
  rewrite (Hall habit) by left. apply IH. intros h Hh. apply Hall. by right.
Qed.

(** On the last day of the calendar [generate_habit_reminders] stops at
    the first habit that is due, before anything is created. *)
Lemma habit_reminders_loop_last clk today habits acc w :
  ¬ before_last_day clk →
  habit_reminders_loop clk today habits acc w
  = (w, match filter (reminder_due today) habits with
        | [] => Ok acc
        | _ :: _ => Raise OverflowError
        end).
Proof.
  intros Hday. induction habits as [|habit rest IH]; [done|].
  cbn [habit_reminders_loop]. rewrite filter_cons.
  destruct (decide (TaskCard.last_checkin_date habit = Some today)) as [Hlast|Hlast].
  { rewrite bool_decide_eq_true_2 by done.
    rewrite decide_False by (by intros [? _]). exact IH. }
  rewrite bool_decide_eq_false_2 by done.
  destruct (decide (TaskCard.current_streak habit > 0)) as [Hcur|Hcur].
  { rewrite bool_decide_eq_true_2 by done.
    rewrite decide_False by (by intros [_ ?]). exact IH. }
  rewrite bool_decide_eq_false_2 by done.
  rewrite decide_True by done.
  by rewrite (bind_Raise _ _ _ _ _
                (_check_existing_reminder_last clk (TaskCard.id habit) today w Hday)).
Qed.

Lemma filter_for_habit_elem habit_id (news : list Notification.t) :
  length (filter (for_habit habit_id) news) = 1%nat →
  ∃ n, n ∈ news ∧ for_habit habit_id n.
Proof.
  destruct (filter (for_habit habit_id) news) as [|n rest] eqn:Hf; [done|]. intros _.
  assert (n ∈ filter (for_habit habit_id) news) as Hn by (rewrite Hf; left).
  apply list_elem_of_filter in Hn as [? ?]. by exists n.
Qed.

Lemma reminder_exists_mono clk habit_id w w' news :
  notifications w' = notifications w ++ news →
  reminder_exists clk habit_id w = true → reminder_exists clk habit_id w' = true.
Proof.
  intros Hn. rewrite !reminder_exists_iff. intros (n & d & Hin & Hrest).
  exists n, d. split; [|done]. rewrite Hn. apply elem_of_app. by left.
Qed.

Lemma at_risk_exists_mono clk habit_id w w' news :
  notifications w' = notifications w ++ news →
  at_risk_exists clk habit_id w = true → at_risk_exists clk habit_id w' = true.
Proof.
  intros Hn. rewrite !at_risk_exists_iff. intros (n & d & Hin & Hrest).
  exists n, d. split; [|done]. rewrite Hn. apply elem_of_app. by left.
Qed.

(** After [generate_habit_reminders], every habit it looks at has its
    reminder of the day. *)
Lemma generate_habit_reminders_exists clk w habit :
  before_last_day clk →
  Inv w → habit ∈ select_active_habits w → reminder_due (date_today clk) habit →
  reminder_exists clk (TaskCard.id habit) (generate_habit_reminders clk w).1 = true.
Proof.
  intros Hday HI Hh Hdue. unfold generate_habit_reminders. rewrite bind_execute.
  set (habits := select_active_habits w) in *.
  assert (NoDup (TaskCard.id <$> habits)) as Hnd.
  { apply NoDup_fmap_filter, HI. }
  destruct (habit_reminders_loop_spec clk (date_today clk) habits Hday w []
              (inv_notification_ids _ HI) Hnd) as (created & Hres & Hall & Hcount).
  rewrite Hres. simpl.
  destruct (reminder_exists clk (TaskCard.id habit) w) eqn:Hex.
  { eapply reminder_exists_mono; [|exact Hex]. reflexivity. }
  specialize (Hcount (TaskCard.id habit)). rewrite Hex in Hcount.
  rewrite bool_decide_eq_true_2 in Hcount.
  2:{ apply list_elem_of_fmap_2, list_elem_of_filter. done. }
  simpl in Hcount. apply filter_for_habit_elem in Hcount as (n & Hn & Hfor).
  rewrite Forall_forall in Hall. destruct (Hall _ Hn) as (Hty & Hat & _ & h & _ & Hdata).
  apply reminder_exists_iff. exists n, (reminder_data h). split_and!; try done.
  - simpl. apply elem_of_app. by right.
  - rewrite Hat. apply within_utc_day_now.
  - unfold for_habit in Hfor. by rewrite Hdata in Hfor.
Qed.

(** After [generate_at_risk_notifications], every habit it selects has its
    at-risk notification of the day. *)
Lemma generate_at_risk_exists clk w habit :
  before_last_day clk →
  Inv w → habit ∈ select_at_risk_habits (date_today clk) w →
  at_risk_exists clk (TaskCard.id habit) (generate_at_risk_notifications clk w).1 = true.
Proof.
  intros Hday HI Hh. unfold generate_at_risk_notifications. rewrite bind_execute.
  set (habits := select_at_risk_habits (date_today clk) w) in *.
  assert (NoDup (TaskCard.id <$> habits)) as Hnd.
  { apply NoDup_fmap_filter, HI. }
  destruct (at_risk_loop_spec clk (date_today clk) habits Hday w []
              (inv_notification_ids _ HI) Hnd) as (created & Hres & Hnot & Hall & Hcount).
  destruct (at_risk_exists clk (TaskCard.id habit) w) eqn:Hex.
  { eapply at_risk_exists_mono; [exact Hnot|exact Hex]. }
  specialize (Hcount (TaskCard.id habit)). rewrite Hex in Hcount.
  rewrite bool_decide_eq_true_2 in Hcount by by apply list_elem_of_fmap_2.
  simpl in Hcount. apply filter_for_habit_elem in Hcount as (n & Hn & Hfor).
  rewrite Forall_forall in Hall. destruct (Hall _ Hn) as (Hty & Hat & h & _ & Hdata).
  apply at_risk_exists_iff. exists n, (at_risk_data h). split_and!; try done.
  - rewrite Hnot. apply elem_of_app. by right.
  - rewrite Hat. apply within_utc_day_now.
  - unfold for_habit in Hfor. by rewrite Hdata in Hfor.
Qed.

(** On the last day of the calendar each generator leaves the world as it
    is: it answers the empty list when no habit reaches its existence
    check, and fails at the first habit that does. *)
Lemma generate_habit_reminders_last clk w :
  ¬ before_last_day clk →
  generate_habit_reminders clk w
  = (w, match filter (reminder_due (date_today clk)) (select_active_habits w) with
        | [] => Ok []
        | _ :: _ => Raise OverflowError
        end).
Proof.
  intros Hday. unfold generate_habit_reminders. rewrite bind_execute.
  by apply habit_reminders_loop_last.
Qed.

Lemma generate_at_risk_last clk w :
  ¬ before_last_day clk →
  generate_at_risk_notifications clk w
  = (w, match select_at_risk_habits (date_today clk) w with
        | [] => Ok []
        | _ :: _ => Raise OverflowError
        end).
Proof.
  intros Hday. unfold generate_at_risk_notifications. rewrite bind_execute.
  by apply at_risk_loop_last.
Qed.

Lemma before_last_day_same_day clk clk' :
  date_of (utc_now clk') = date_of (utc_now clk) →
  before_last_day clk → before_last_day clk'.
Proof.
  unfold before_last_day, start_of_day, date_of. intros Heq.
  by replace (utc_now clk' `div` us_per_day) with (utc_now clk `div` us_per_day) by lia.
Qed.

(** What [generate_habit_reminders] appends, on any day: plain reminders. *)
Lemma generate_habit_reminders_appends clk w :
  Inv w →
  ∃ created,
    notifications (generate_habit_reminders clk w).1 = notifications w ++ created
    ∧ Forall (λ n, ∃ habit, Notification.data n = Some (reminder_data habit)) created.
Proof.
  intros HI. destruct (decide (before_last_day clk)) as [Hday|Hday].
  - unfold generate_habit_reminders. rewrite bind_execute.
    destruct (habit_reminders_loop_spec clk (date_today clk) (select_active_habits w)
                Hday w [] (inv_notification_ids _ HI))
      as (created & Hres & Hall & _).
    { apply NoDup_fmap_filter, HI. }
    exists created. rewrite Hres. split; [done|].
    eapply Forall_impl; [exact Hall|]. intros n (_ & _ & _ & h & _ & Hdata). by exists h.
  - rewrite generate_habit_reminders_last by done. exists []. simpl.
    by rewrite app_nil_r.
Qed.

(** What [generate_at_risk_notifications] appends, on any day: at-risk
    notifications. *)
Lemma generate_at_risk_appends clk w :
  Inv w →
  ∃ created,
    notifications (generate_at_risk_notifications clk w).1 = notifications w ++ created
    ∧ Forall (λ n, ∃ habit, Notification.data n = Some (at_risk_data habit)) created.
Proof.
  intros HI. destruct (decide (before_last_day clk)) as [Hday|Hday].
  - unfold generate_at_risk_notifications. rewrite bind_execute.
    destruct (at_risk_loop_spec clk (date_today clk)
                (select_at_risk_habits (date_today clk) w)
                Hday w [] (inv_notification_ids _ HI))
      as (created & Hres & Hnot & Hall & _).
    { apply NoDup_fmap_filter, HI. }
    exists created. split; [done|].
    eapply Forall_impl; [exact Hall|]. intros n (_ & _ & h & _ & Hdata). by exists h.
  - rewrite generate_at_risk_last by done. exists []. simpl.
    by rewrite app_nil_r.
Qed.

(* ===================================================================== *)
(** ** The statistics queries *)
(* ===================================================================== *)

Lemma checkins_join_tasks_elem w r t :
  (r, t) ∈ checkins_join_tasks w
  ↔ r ∈ checkin_records w ∧ t ∈ task_cards w ∧ CheckinRecord.task_id r = TaskCard.id t.
Proof.
  unfold checkins_join_tasks. rewrite list_elem_of_bind. split.
  - intros (r' & Hin & Hr'). apply list_elem_of_bind in Hin as (t' & Hin & Ht').
    case_bool_decide; [|by apply elem_of_nil in Hin].
    apply list_elem_of_singleton in Hin. by simplify_eq.
  - intros (Hr & Ht & Hid). exists r. split; [|done].
    apply list_elem_of_bind. exists t. split; [|done].
    rewrite bool_decide_eq_true_2 by done. left.
Qed.

Lemma done_on_elem target_date w t :
  done_on target_date w t
  ↔ ∃ r, r ∈ checkin_records w ∧ CheckinRecord.task_id r = TaskCard.id t
         ∧ CheckinRecord.checkin_date r = target_date.
Proof.
  unfold done_on, select_checkin. split.
  - destruct (filter _ (checkin_records w)) as [|r rest] eqn:Hf; [done|]. intros _.
    assert (r ∈ filter (λ r, CheckinRecord.task_id r = TaskCard.id t
                             ∧ CheckinRecord.checkin_date r = target_date)
                       (checkin_records w)) as Hr by (rewrite Hf; left).
    apply list_elem_of_filter in Hr as [[? ?] ?]. by exists r.
  - intros (r & Hr & Hid & Hd) Hnil.
    assert (r ∈ filter (λ r, CheckinRecord.task_id r = TaskCard.id t
                             ∧ CheckinRecord.checkin_date r = target_date)
                       (checkin_records w)) as Hin by by apply list_elem_of_filter.
    rewrite Hnil in Hin. by apply elem_of_nil in Hin.
Qed.

Lemma distinct_count_eq {A} `{EqDecision K} (f : A → K) (ids : list K) (rows : list A) :
  NoDup (f <$> rows) → (∀ x, x ∈ ids ↔ x ∈ (f <$> rows)) →
  length (remove_dups ids) = length rows.
Proof.
  intros Hnd Hiff. rewrite <- (length_fmap f rows). apply Permutation_length.
  apply NoDup_Permutation; [apply NoDup_remove_dups|done|].
  intros x. by rewrite elem_of_remove_dups.
Qed.

Lemma completed_habits_query_eq target_date w :
  NoDup (TaskCard.id <$> task_cards w) →
  completed_habits_query target_date w = sql_count (habits_done_on target_date w).
Proof.
  intros Hnd. unfold completed_habits_query, sql_count. do 2 f_equal.
  apply (distinct_count_eq TaskCard.id).
  - unfold habits_done_on. by apply NoDup_fmap_filter.
  - intros x. rewrite !list_elem_of_fmap. split.
    + intros ([r t] & -> & Hrt). apply list_elem_of_filter in Hrt as [(Hd & Hh & Hdel) Hrt].
      apply checkins_join_tasks_elem in Hrt as (Hr & Ht & Hid). simpl in *.
      exists t. split; [done|]. unfold habits_done_on. apply list_elem_of_filter.
      split; [|done]. split; [done|]. apply done_on_elem. by exists r.
    + intros (t & -> & Ht). unfold habits_done_on in Ht.
      apply list_elem_of_filter in Ht as [[[Hh Hdel] Hdone] Ht].
      apply done_on_elem in Hdone as (r & Hr & Hid & Hd).
      exists (r, t). split; [done|]. apply list_elem_of_filter. split; [done|].
      by apply checkins_join_tasks_elem.
Qed.

Lemma completed_tasks_query_eq w :
  NoDup (TaskCard.id <$> task_cards w) →
  completed_tasks_query w = sql_count (tasks_checked_in w).
Proof.
  intros Hnd. unfold completed_tasks_query, sql_count. do 2 f_equal.
  apply (distinct_count_eq TaskCard.id).
  - unfold tasks_checked_in. by apply NoDup_fmap_filter.
  - intros x. rewrite !list_elem_of_fmap. split.
    + intros ([r t] & -> & Hrt). apply list_elem_of_filter in Hrt as [Hdel Hrt].
      apply checkins_join_tasks_elem in Hrt as (Hr & Ht & Hid). simpl in *.
      exists t. split; [done|]. unfold tasks_checked_in. apply list_elem_of_filter.
      split; [|done]. split; [done|]. intros Hnil.
      assert (r ∈ checkins_of (TaskCard.id t) w) as Hin by by apply checkins_of_elem.
      rewrite Hnil in Hin. by apply elem_of_nil in Hin.
    + intros (t & -> & Ht). unfold tasks_checked_in in Ht.
      apply list_elem_of_filter in Ht as [[Hdel Hrec] Ht].
      destruct (checkins_of (TaskCard.id t) w) as [|r rest] eqn:Hc; [done|].
      assert (r ∈ checkins_of (TaskCard.id t) w) as Hin by (rewrite Hc; left).
      apply checkins_of_elem in Hin as [Hr Hid].
      exists (r, t). split; [done|]. apply list_elem_of_filter. split; [done|].
      by apply checkins_join_tasks_elem.
Qed.

Lemma calculate_daily_ring_eq target_date w :
  NoDup (TaskCard.id <$> task_cards w) →
  calculate_daily_ring target_date w
  = (w, Ok (DailyRingData.mk target_date
              (Z.of_nat (length (select_active_habits w)))
              (Z.of_nat (length (habits_done_on target_date w))))).
Proof.
  intros Hnd. unfold calculate_daily_ring, execute_scalar, mbind, M_bind, mret, M_ret.
  by rewrite completed_habits_query_eq, !or_0_count.
Qed.

Lemma or_0_max (values : list Z) :
  Forall (λ v, 0 <= v) values → or_0 (sql_max values) = foldr Z.max 0 values.
Proof.
  intros Hall. destruct values as [|v values]; [done|].
  apply Forall_cons in Hall as [Hv Hall]. simpl.
  assert (foldr Z.max v values = Z.max v (foldr Z.max 0 values)) as ->.
  { induction values as [|a values IH]; simpl; [lia|].
    apply Forall_cons in Hall as [Ha Hall]. rewrite IH by done. lia. }
  case_bool_decide as Hz; [|done].
  assert (0 <= foldr Z.max 0 values); [|lia].
  clear. induction values; simpl; lia.
Qed.

Lemma foldr_max_upper (values : list Z) v :
  v ∈ values → v <= foldr Z.max 0 values.
Proof.
  induction values as [|a values IH]; [by intros ?%elem_of_nil|].
  intros [->|Hin]%elem_of_cons; simpl; [lia|]. specialize (IH Hin). lia.
Qed.

Lemma filter_ext_in {A} (P Q : A → Prop) `{∀ x, Decision (P x), ∀ x, Decision (Q x)}
      (l : list A) :
  (∀ x, x ∈ l → (P x ↔ Q x)) → filter P l = filter Q l.
Proof.
  induction l as [|a l IH]; intros Hext; [done|].
  rewrite !filter_cons. rewrite (decide_ext (P a) (Q a)) by (apply Hext; left).
  rewrite IH by (intros x Hx; apply Hext; by right). done.
Qed.

Lemma select_active_habits_filter w :
  select_active_habits w = filter active_habit (task_cards w).
Proof. reflexivity. Qed.

Lemma habits_done_on_le target_date w :
  (length (habits_done_on target_date w) <= length (select_active_habits w))%nat.
Proof.
  unfold habits_done_on. rewrite select_active_habits_filter.
  rewrite <- (list_filter_filter_l (λ t, active_habit t ∧ done_on target_date w t)
                active_habit) by tauto.
  apply length_filter.
Qed.

Lemma count_after_rewrite_same (P P' : TaskCard.t → Prop)
      `{∀ x, Decision (P x), ∀ x, Decision (P' x)}
      (g : TaskCard.t → TaskCard.t) (rows : list TaskCard.t) :
  (∀ row, row ∈ rows → (P' (g row) ↔ P row)) →
  length (filter P' (g <$> rows)) = length (filter P rows).
Proof.
  induction rows as [|a rows IH]; intros Hsame; [done|].
  rewrite fmap_cons, !filter_cons.
  rewrite (decide_ext (P' (g a)) (P a)) by (apply Hsame; left).
  specialize (IH ltac:(intros row Hrow; apply Hsame; by right)).
  case_decide; simpl; by rewrite IH.
Qed.

(** Counting after one row of a keyed table is rewritten: the count of a
    predicate grows by one when the rewritten row is the only one whose
    answer changes, from no to yes. *)
Lemma count_after_rewrite (P P' : TaskCard.t → Prop)
      `{∀ x, Decision (P x), ∀ x, Decision (P' x)}
      (g : TaskCard.t → TaskCard.t) (rows : list TaskCard.t) task :
  NoDup (TaskCard.id <$> rows) → task ∈ rows →
  ¬ P task → P' (g task) →
  (∀ row, row ∈ rows → row ≠ task → (P' (g row) ↔ P row)) →
  length (filter P' (g <$> rows)) = S (length (filter P rows)).
Proof.
  intros Hnd Hin Hno Hyes Hsame.
  induction rows as [|a rows IH]; [by apply elem_of_nil in Hin|].
  rewrite fmap_cons in Hnd. apply NoDup_cons in Hnd as [Hna Hnd].
  rewrite fmap_cons, !filter_cons.
  destruct (decide (a = task)) as [->|Hne].
  - rewrite decide_True by done. rewrite decide_False by done. simpl. f_equal.
    apply count_after_rewrite_same. intros row Hrow. apply Hsame; [by right|].
    intros ->. apply Hna. by apply list_elem_of_fmap_2.
  - apply elem_of_cons in Hin as [->|Hin]; [done|].
    rewrite (decide_ext (P' (g a)) (P a)) by (apply Hsame; [left|done]).
    assert (length (filter P' (g <$> rows)) = S (length (filter P rows))) as Hrest.
    { apply IH; [done|done|]. intros row Hrow. apply Hsame. by right. }
    case_decide; simpl; by rewrite Hrest.
Qed.


(** The tables after a check-in that commits. *)
Lemma checkin_commit_tables clk task_id checkin_data w task today :
  Inv w → task ∈ task_cards w → TaskCard.id task = task_id →
  get_local_date clk (requested_offset checkin_data) = Ok today →
  select_checkin task_id today w = [] →
  let w' := (checkin_task clk task_id checkin_data w).1 in
  task_cards w' = replace_task task_id (checked_in clk today task) (task_cards w)
  ∧ checkin_records w' = checkin_records w ++ [new_checkin_record clk task_id today w].
Proof.
  intros HI Hin Hid Hd Hsel. simpl.
  rewrite (checkin_task_first _ _ _ _ task today) by done.
  pose proof (notification_only_after_commit clk task_id today task
                (committed_checkin clk task_id today task w)) as Hstep.
  rewrite (ns_tasks _ _ Hstep), (ns_checkins _ _ Hstep). simpl.
  unfold replace_task. by rewrite Hid.
Qed.

Lemma calculate_stats_overview_eq target_date w :
  Inv w →
  calculate_stats_overview target_date w
  = (w, Ok (StatsOverview.mk
              (Z.of_nat (length (filter (λ t, TaskCard.is_deleted t = false) (task_cards w))))
              (Z.of_nat (length (tasks_checked_in w)))
              (Z.of_nat (length (filter (λ t, TaskCard.is_deleted t = false) (task_cards w)))
               - Z.of_nat (length (tasks_checked_in w)))
              (foldr Z.max 0 (TaskCard.longest_streak <$> select_active_habits w))
              (Z.of_nat (length (filter (λ r, CheckinRecord.checkin_date r = target_date)
                                        (checkin_records w)))))).
Proof.
  intros HI. unfold calculate_stats_overview, execute_scalar, mbind, M_bind, mret, M_ret.
  rewrite completed_tasks_query_eq by apply HI. rewrite !or_0_count.
  unfold longest_streak_query.
  assert (((λ t, Z.max (TaskCard.current_streak t) (TaskCard.longest_streak t))
             <$> select_active_habits w)
          = TaskCard.longest_streak <$> select_active_habits w) as ->.
  { apply list_fmap_ext. intros i t Ht. simpl.
    apply list_elem_of_lookup_2 in Ht. unfold select_active_habits in Ht.
    apply list_elem_of_filter in Ht as [_ Ht].
    pose proof (inv_task_consistent _ HI) as TC. rewrite Forall_forall in TC.
    destruct (TC _ Ht) as [? _]. lia. }
  rewrite or_0_max; [done|].
  apply Forall_fmap, Forall_forall. intros t Ht. simpl.
  unfold select_active_habits in Ht. apply list_elem_of_filter in Ht as [_ Ht].
  pose proof (inv_task_consistent _ HI) as TC. rewrite Forall_forall in TC.
  destruct (TC _ Ht) as [? _]. lia.
Qed.

(* ===================================================================== *)
(** ** What the task endpoints do to the check-in records *)
(* ===================================================================== *)

Lemma create_task_checkins clk task_data w :
  checkin_records (create_task clk task_data w).1 = checkin_records w.
Proof.
  unfold create_task. rewrite bind_uuid4. unfold mbind, M_bind, add_task. simpl.
  by case_bool_decide.
Qed.

Lemma update_task_checkins clk task_id task_data w :
  checkin_records (update_task clk task_id task_data w).1 = checkin_records w.
Proof.
  unfold update_task. rewrite bind_execute, bind_scalar_one_or_none.
  by destruct (select_task_by_id task_id w) as [|task [|? ?]].
Qed.

Lemma delete_task_checkins clk task_id hard_delete w :
  checkin_records (delete_task clk task_id hard_delete w).1 = checkin_records w.
Proof.
  unfold delete_task. rewrite bind_execute, bind_scalar_one_or_none.
  destruct (select_task_by_id task_id w) as [|task [|? ?]]; try done.
  by destruct hard_delete.
Qed.

Lemma handle_checkin_records clk req w :
  ∃ news,
    checkin_records (handle clk req w) = checkin_records w ++ news
    ∧ (length news <= 1)%nat
    ∧ (news ≠ [] → ∃ task_id checkin_data, req = POST_task_checkin task_id checkin_data).
Proof.
  assert (∀ w', checkin_records w' = checkin_records w →
                ∃ news, checkin_records w' = checkin_records w ++ news
                        ∧ (length news <= 1)%nat
                        ∧ (news ≠ [] → ∃ task_id checkin_data,
                                         req = POST_task_checkin task_id checkin_data))
    as Hsame.
  { intros w' Heq. exists []. rewrite app_nil_r. split_and!; [done|simpl; lia|done]. }
  destruct req; simpl.
  - apply Hsame, create_task_checkins.
  - apply Hsame, update_task_checkins.
  - apply Hsame, delete_task_checkins.
  - destruct (checkin_task_records clk task_id checkin_data w)
      as [Heq|(today & rid & t & _ & Heq)]; [by apply Hsame|].
    eexists [_]. split_and!; [exact Heq|done|]. intros _. by eexists _, _.
  - apply Hsame, (ns_checkins _ _ (notification_only_create_notification clk notification w)).
  - apply Hsame, (ns_checkins _ _ (notification_only_mark_as_read notification_id w)).
  - apply Hsame, (ns_checkins _ _ (notification_only_mark_all_as_read w)).
  - apply Hsame, (ns_checkins _ _ (notification_only_delete_notification notification_id w)).
  - apply Hsame, (ns_checkins _ _ (notification_only_generate_habit_reminders clk w)).
  - apply Hsame, (ns_checkins _ _ (notification_only_generate_at_risk clk w)).
  - by apply Hsame.
Qed.

Lemma run_checkin_records trace : ∀ w,
  checkin_records w `prefix_of` checkin_records (run trace w).
Proof.
  induction trace as [|[clk req] trace IH]; intros w; [done|].
  simpl. etrans; [|apply IH].
  destruct (handle_checkin_records clk req w) as (news & -> & _).
  by apply prefix_app_r.
Qed.

(* ===================================================================== *)
(** ** How the notification checks can fail *)
(* ===================================================================== *)

Lemma check_daily_complete_raises clk w e :
  ids_below (uuids_drawn w) (Notification.id <$> notifications w) →
  (check_daily_complete clk w).2 = Raise e →
  (e = MultipleResultsFound
   ∧ before_last_day clk
   ∧ (2 <= length (notifications_of_utc_day clk "daily_complete" w))%nat)
  ∨ (e = OverflowError
     ∧ ¬ before_last_day clk
     ∧ select_active_habits w ≠ []
     ∧ Forall (λ habit, TaskCard.last_checkin_date habit = Some (date_today clk))
              (select_active_habits w)).
Proof.
  intros Hb. rewrite check_daily_complete_eq by done.
  case_bool_decide as Hall; [|done].
  case_bool_decide as Hday.
  - destruct (notifications_of_utc_day clk "daily_complete" w) as [|? [|? ?]];
      simpl; try done.
    intros [= <-]. left. split_and!; [done|done|lia].
  - simpl. intros [= <-]. right. by destruct Hall.
Qed.

Lemma check_streak_achievement_daily clk habit_id streak habit_title w :
  ids_below (uuids_drawn w) (Notification.id <$> notifications w) →
  let w1 := (check_streak_achievement clk habit_id streak habit_title w).1 in
  (∃ created, (check_streak_achievement clk habit_id streak habit_title w).2 = Ok created)
  ∧ ids_below (uuids_drawn w1) (Notification.id <$> notifications w1)
  ∧ notifications_of_utc_day clk "daily_complete" w1
    = notifications_of_utc_day clk "daily_complete" w.
Proof.
  intros Hb.
  destruct (decide (streak ∈ ACHIEVEMENT_MILESTONES
                    ∧ select_achievements habit_id streak w = [])) as [[Hm Hsel]|Hskip].
  - rewrite check_streak_achievement_create by done. simpl. split_and!.
    + by eexists.
    + rewrite fmap_app. by apply ids_below_snoc.
    + unfold notifications_of_utc_day. simpl. rewrite filter_app.
      rewrite filter_cons_False by (by intros [? _]). by rewrite app_nil_r.
  - rewrite check_streak_achievement_skip; [simpl; split; [by eexists|done]|].
    destruct (decide (streak ∈ ACHIEVEMENT_MILESTONES)); [|by left].
    right. intros Hsel. by apply Hskip.
Qed.

(* ===================================================================== *)
(** ** Life entries: pages and groups *)
(* ===================================================================== *)

Lemma chunks_concat {A} (k n : nat) (l : list A) :
  (length l ≤ n * k)%nat →
  concat ((λ i, take k (drop (i * k) l)) <$> seq 0 n) = l.
Proof.
  revert l. induction n as [|n IH]; intros l Hlen.
  - simpl in *. symmetry. apply length_zero_nil. lia.
  - rewrite <- cons_seq, <- fmap_S_seq. simpl. rewrite <- list_fmap_compose.
    transitivity (take k l ++ drop k l); [|apply take_drop]. f_equal.
    rewrite <- (IH (drop k l)) by (rewrite length_drop; lia).
    f_equal. apply list_fmap_ext. intros _ i _. simpl.
    by rewrite drop_drop.
Qed.

Lemma total_pages_bounds (total page_size : Z) :
  0 < total → 1 ≤ page_size →
  let total_pages := (total + page_size - 1) `div` page_size in
  1 ≤ total_pages ∧ total ≤ total_pages * page_size
  ∧ (total_pages - 1) * page_size < total.
Proof.
  intros Ht Hp. simpl.
  pose proof (Z.div_mod (total + page_size - 1) page_size ltac:(lia)) as Hdm.
  pose proof (Z.mod_pos_bound (total + page_size - 1) page_size ltac:(lia)) as Hmod.
  split_and!; nia.
Qed.

Lemma life_entries_base_eq (include_deleted : bool) (life_entries : list LifeEntry.t) :
  (if negb include_deleted
   then filter (λ e, LifeEntry.is_deleted e = false) life_entries
   else life_entries)
  = filter (entry_listed include_deleted) life_entries.
Proof.
  destruct include_deleted; simpl.
  - symmetry. apply filter_all. intros e _. by left.
  - apply list_filter_iff. intros e. unfold entry_listed.
    split; [by right|by intros [?|?]].
Qed.

Lemma get_life_entries_eq page page_size include_deleted life_entries :
  1 ≤ page_size ≤ 100 → sqlite_integer ((page - 1) * page_size) = true →
  get_life_entries page page_size include_deleted life_entries
  = let listed := filter (entry_listed include_deleted) life_entries in
    let total := Z.of_nat (length listed) in
    Ok (LifeEntryPaginatedResponse.mk
          (take (Z.to_nat page_size)
             (drop (Z.to_nat ((page - 1) * page_size))
                (order_by_desc LifeEntry.created_at listed)))
          total page page_size
          (if bool_decide (total > 0) then (total + page_size - 1) `div` page_size
           else 1)).
Proof.
  intros Hp Ho. unfold get_life_entries. cbv zeta. cbn [forallb]. rewrite Ho.
  assert (sqlite_integer page_size = true) as ->.
  { unfold sqlite_integer. apply bool_decide_eq_true. lia. }
  cbn [andb].
  rewrite life_entries_base_eq, or_0_count. unfold sql_limit, sql_offset.
  by rewrite bool_decide_eq_false_2 by lia.
Qed.

Lemma get_life_entries_overflow page page_size include_deleted life_entries :
  sqlite_integer ((page - 1) * page_size) = false →
  get_life_entries page page_size include_deleted life_entries = Raise OverflowError.
Proof. intros Ho. unfold get_life_entries. cbv zeta. cbn [forallb]. by rewrite Ho. Qed.

Lemma date_of_mono (s t : datetime) : s ≤ t → date_of s ≤ date_of t.
Proof.
  intros Hst. unfold date_of.
  assert (s `div` us_per_day ≤ t `div` us_per_day); [|lia].
  apply Z.div_le_mono; [done|lia].
Qed.

(** Appending under a date that is at most every date of the dict, whose
    dates fall in insertion order: the entry goes to the end of the last
    group or into a new last group. *)
Lemma defaultdict_append_descending date_groups key entry :
  StronglySorted (λ g h : Z * list LifeEntry.t, h.1 < g.1) date_groups →
  Forall (λ g, key ≤ g.1) date_groups →
  concat (snd <$> defaultdict_append date_groups key entry)
  = concat (snd <$> date_groups) ++ [entry]
  ∧ StronglySorted (λ g h : Z * list LifeEntry.t, h.1 < g.1)
      (defaultdict_append date_groups key entry)
  ∧ (∀ g, g ∈ defaultdict_append date_groups key entry →
          g.1 = key ∨ ∃ g', g' ∈ date_groups ∧ g'.1 = g.1)
  ∧ (∀ g, g ∈ defaultdict_append date_groups key entry →
          g = (key, [entry]) ∨ g ∈ date_groups
          ∨ ∃ entries_list, (key, entries_list) ∈ date_groups
                            ∧ g = (key, entries_list ++ [entry])).
Proof.
  induction date_groups as [|[k es] rest IH]; intros Hsorted Hle.
  - simpl. split_and!; [done|repeat constructor| |].
    + intros g Hg. apply list_elem_of_singleton in Hg as ->. by left.
    + intros g Hg. apply list_elem_of_singleton in Hg as ->. by left.
  - apply StronglySorted_cons in Hsorted as [Hhd Hsorted].
    apply Forall_cons in Hle as [Hk Hle]. simpl in Hk. simpl.
    case_bool_decide as Hkey.
    + subst k. assert (rest = []) as ->.
      { destruct rest as [|g rest]; [done|].
        apply Forall_cons in Hhd as [Hg _]. apply Forall_cons in Hle as [Hg' _].
        simpl in *. lia. }
      simpl. rewrite !app_nil_r. split_and!; [done|repeat constructor| |].
      * intros g Hg. apply list_elem_of_singleton in Hg as ->. by left.
      * intros g Hg. apply list_elem_of_singleton in Hg as ->.
        right. right. exists es. split; [left|done].
    + destruct (IH Hsorted Hle) as (Hcat & Hs & Hkeys & Hrows).
      split_and!.
      * change (es ++ concat (snd <$> defaultdict_append rest key entry)
                = (es ++ concat (snd <$> rest)) ++ [entry]).
        by rewrite Hcat, app_assoc.
      * apply StronglySorted_cons. split; [|done].
        apply Forall_forall. intros g Hg. simpl.
        destruct (Hkeys g Hg) as [->|(g' & Hg' & <-)]; [lia|].
        by apply (proj1 (Forall_forall _ _) Hhd g').
      * intros g Hg. apply elem_of_cons in Hg as [->|Hg].
        -- right. exists (k, es). split; [left|done].
        -- destruct (Hkeys g Hg) as [?|(g' & Hg' & ?)]; [by left|].
           right. exists g'. split; [by right|done].
      * intros g Hg. apply elem_of_cons in Hg as [->|Hg].
        -- right. left. left.
        -- destruct (Hrows g Hg) as [?|[?|(el & Hel & ?)]]; [by left|right; left; by right|].
           right. right. exists el. split; [by right|done].
Qed.

(** The loop of [get_life_entries_grouped] over entries that come newest
    first: the groups are runs of the list, in its order. *)
Lemma group_by_date_descending (entries : list LifeEntry.t) :
  StronglySorted (λ a b, LifeEntry.created_at b <= LifeEntry.created_at a) entries →
  let date_groups :=
    foldl (λ date_groups entry,
             let entry_date := date_of (LifeEntry.created_at entry) in
             defaultdict_append date_groups entry_date entry)
          [] entries in
  concat (snd <$> date_groups) = entries
  ∧ StronglySorted (λ g h : Z * list LifeEntry.t, h.1 < g.1) date_groups
  ∧ Forall (λ g, g.2 ≠ [] ∧ Forall (λ e, entry_date e = g.1) g.2) date_groups
  ∧ Forall (λ g, ∃ e, e ∈ entries ∧ entry_date e = g.1) date_groups.
Proof.
  induction entries as [|x entries IH] using rev_ind; intros Hsorted; simpl.
  { split_and!; by constructor. }
  apply StronglySorted_app in Hsorted as (Hlast & Hsorted & _).
  rewrite foldl_app. simpl.
  destruct (IH Hsorted) as (Hcat & Hs & Hgroups & Hdates).
  set (date_groups := foldl _ [] entries) in *.
  destruct (defaultdict_append_descending date_groups
              (date_of (LifeEntry.created_at x)) x Hs) as (Hcat' & Hs' & Hkeys & Hrows).
  { apply Forall_forall. intros g Hg.
    destruct (proj1 (Forall_forall _ _) Hdates g Hg) as (e & He & <-).
    apply date_of_mono. apply (Hlast e x He). left. }
  split_and!; [by rewrite Hcat', Hcat|done| |].
  - apply Forall_forall. intros g Hg.
    destruct (Hrows g Hg) as [->|[Hold|(el & Hel & ->)]].
    + simpl. split; [done|]. by repeat constructor.
    + apply (proj1 (Forall_forall _ _) Hgroups g Hold).
    + destruct (proj1 (Forall_forall _ _) Hgroups _ Hel) as [_ Hall]. simpl in *.
      split; [by destruct el|]. apply Forall_app. split; [done|]. by repeat constructor.
  - apply Forall_forall. intros g Hg.
    destruct (Hkeys g Hg) as [Heq|(g' & Hg' & Heq)].
    + exists x. split; [apply elem_of_app; right; left|done].
    + destruct (proj1 (Forall_forall _ _) Hdates g' Hg') as (e & He & Hd).
      exists e. split; [apply elem_of_app; by left|congruence].
Qed.

(** Sorting newest first a list whose dates already fall strictly changes
    nothing. *)
Lemma order_by_desc_descending {A} (key : A → Z) (rows : list A) :
  StronglySorted (λ g h, key h < key g) rows → order_by_desc key rows = rows.
Proof.
  intros Hs.
  assert (StronglySorted (desc_by key) rows) as Hs'.
  { clear -Hs. induction Hs as [|g rows Hs IH Hhd]; constructor; [done|].
    eapply Forall_impl; [exact Hhd|]. unfold desc_by. simpl. lia. }
  apply (StronglySorted_unique_strong (desc_by key));
    [|apply order_by_desc_sorted|done|apply order_by_desc_Permutation].
  intros x1 x2 Hx1 Hx2 H12 H21. unfold desc_by in *.
  apply order_by_desc_elem in Hx1.
  apply list_elem_of_split in Hx1 as (l1 & l2 & ->).
  apply elem_of_app in Hx2 as [Hx2|Hx2].
  - apply StronglySorted_app in Hs as (Hcross & _ & _).
    specialize (Hcross x2 x1 Hx2 ltac:(left)). simpl in Hcross. lia.
  - apply elem_of_cons in Hx2 as [->|Hx2]; [done|].
    apply StronglySorted_app in Hs as (_ & _ & Hs).
    apply StronglySorted_cons in Hs as [Hhd _].
    pose proof (proj1 (Forall_forall _ _) Hhd x2 Hx2) as Hlt. simpl in Hlt. lia.
Qed.

Lemma StronglySorted_take {A} (R : relation A) (n : nat) (l : list A) :
  StronglySorted R l → StronglySorted R (take n l).
Proof.
  intros Hs. rewrite <- (take_drop n l) in Hs. by apply StronglySorted_app_1_l in Hs.
Qed.

Lemma StronglySorted_drop {A} (R : relation A) (n : nat) (l : list A) :
  StronglySorted R l → StronglySorted R (drop n l).
Proof.
  intros Hs. rewrite <- (take_drop n l) in Hs. by apply StronglySorted_app_1_r in Hs.
Qed.

Lemma get_life_entries_grouped_eq page page_size include_deleted life_entries :
  get_life_entries_grouped page page_size include_deleted life_entries
  = match get_life_entries page page_size include_deleted life_entries with
    | Ok flat =>
        let date_groups :=
          foldl (λ date_groups entry,
                   let entry_date := date_of (LifeEntry.created_at entry) in
                   defaultdict_append date_groups entry_date entry)
                [] (LifeEntryPaginatedResponse.items flat) in
        Ok (LifeEntryGroupedResponse.mk
              ((λ item, DateGroupedEntries.mk item.1 item.2)
                 <$> order_by_desc fst date_groups)
              (LifeEntryPaginatedResponse.total flat) page page_size
              (LifeEntryPaginatedResponse.total_pages flat))
    | Raise e => Raise e
    end.
Proof.
  unfold get_life_entries_grouped, get_life_entries. cbv zeta.
  by destruct (forallb sqlite_integer _).
Qed.

(* ===================================================================== *)
(** ** The streak engine *)
(* ===================================================================== *)

(** The [isoformat] of the model agrees with Python's on month ends, leap
    days, century and era boundaries. *)
Example isoformat_examples :
  isoformat <$> [1; 59; 60; 365; 366; 1461; 36524; 36525; 146097; 146098;
                 719163; 738945; 738946; 738579; 738580; 739193; 3652059]
  = ["0001-01-01"; "0001-02-28"; "0001-03-01"; "0001-12-31"; "0002-01-01";
     "0004-12-31"; "0100-12-31"; "0101-01-01"; "0400-12-31"; "0401-01-01";
     "1970-01-01"; "2024-02-29"; "2024-03-01"; "2023-02-28"; "2023-03-01";
     "2024-11-03"; "9999-12-31"]%string.
Proof. vm_compute. reflexivity. Qed.

(** C1. For every last check-in date, current streak and today,
    [calculate_streak] follows the four-branch table: 1 when there is no
    last check-in date; the current streak unchanged when the last check-in
    date is today; the current streak plus one when today is exactly one
    day after it; 1 in every other case, that is a gap of two days or more
    or a last check-in date in the future. Being a function of these three
    arguments only, its result depends on nothing else. *)
Theorem calculate_streak_table (last_checkin_date : option Z) (current_streak today : Z) :
  (last_checkin_date = None →
   calculate_streak last_checkin_date current_streak today = 1)
  ∧ (last_checkin_date = Some today →
     calculate_streak last_checkin_date current_streak today = current_streak)
  ∧ (∀ last, last_checkin_date = Some last → today - last = 1 →
     calculate_streak last_checkin_date current_streak today = current_streak + 1)
  ∧ (∀ last, last_checkin_date = Some last → 2 <= today - last ∨ today < last →
     calculate_streak last_checkin_date current_streak today = 1).
Proof.
  unfold calculate_streak. split_and!.
  - by intros ->.
  - intros ->. by rewrite bool_decide_eq_true_2.
  - intros last -> Hgap.
    rewrite bool_decide_eq_false_2 by lia. by rewrite bool_decide_eq_true_2.
  - intros last -> Hgap. by rewrite !bool_decide_eq_false_2 by lia.
Qed.

(** The four examples of the specification, D being 2024-03-01. *)
Lemma calculate_streak_table_witness :
  calculate_streak None 5 738946 = 1
  ∧ calculate_streak (Some 738946) 5 738946 = 5
  ∧ calculate_streak (Some (738946 - 1)) 5 738946 = 6
  ∧ calculate_streak (Some (738946 - 3)) 5 738946 = 1
  ∧ calculate_streak (Some (738946 + 2)) 5 738946 = 1.
Proof.
  split_and!.
  - apply (calculate_streak_table None 5 738946). reflexivity.
  - apply (calculate_streak_table (Some 738946) 5 738946). reflexivity.
  - apply (calculate_streak_table (Some (738946 - 1)) 5 738946) with (last := 738946 - 1);
      [reflexivity | lia].
  - apply (calculate_streak_table (Some (738946 - 3)) 5 738946) with (last := 738946 - 3);
      [reflexivity | lia].
  - apply (calculate_streak_table (Some (738946 + 2)) 5 738946) with (last := 738946 + 2);
      [reflexivity | lia].
Defined.

(* ===================================================================== *)
(** ** The check-in recorder *)
(* ===================================================================== *)

(** The scenario of the specification, request by request. *)
Example scenario_daily_exercise :
  streaks (run (take 2 trace_daily_exercise) init_world) = [(1, 1, Some day1)]
  ∧ streaks (run (take 3 trace_daily_exercise) init_world) = [(1, 1, Some day1)]
  ∧ length (checkin_records (run (take 3 trace_daily_exercise) init_world)) = 1%nat
  ∧ streaks (run trace_daily_exercise init_world) = [(2, 2, Some (day1 + 1))]
  ∧ length (checkin_records (run trace_daily_exercise init_world)) = 2%nat.
Proof. vm_compute. repeat split. Qed.

(** Clients east and west of UTC at the same instant: the local day is the
    UTC day shifted by the offset, and a missing offset is an error. *)
Example get_local_date_examples :
  get_local_date (noon day1) (Some 0) = Ok day1
  ∧ get_local_date (noon day1) (Some (-480)) = Ok day1
  ∧ get_local_date (noon day1) (Some (-720)) = Ok (day1 + 1)
  ∧ get_local_date (noon day1) (Some 721) = Ok (day1 - 1)
  ∧ get_local_date (noon day1) None = Raise TypeError.
Proof. vm_compute. repeat split. Qed.



(** C3. In every reachable world, every task has a longest streak at least
    as large as its current streak: a task starts with both at 0, and the
    first check-in of a day stores the new streak as the longest streak
    exactly when the new streak exceeds it. *)
Theorem longest_streak_invariant (w : World) :
  Reachable w →
  (∀ task, task ∈ task_cards w →
           TaskCard.current_streak task <= TaskCard.longest_streak task)
  ∧ (∀ clk task_data task,
       (create_task clk task_data w).2 = Ok task →
       TaskCard.current_streak task = 0 ∧ TaskCard.longest_streak task = 0)
  ∧ (∀ clk task_id checkin_data task today,
       task ∈ task_cards w → TaskCard.id task = task_id →
       get_local_date clk (requested_offset checkin_data) = Ok today →
       select_checkin task_id today w = [] →
       let new_streak := calculate_streak (TaskCard.last_checkin_date task)
                                          (TaskCard.current_streak task) today in
       ∃ task', task' ∈ task_cards (checkin_task clk task_id checkin_data w).1
                ∧ TaskCard.id task' = task_id
                ∧ TaskCard.current_streak task' = new_streak
                ∧ TaskCard.longest_streak task'
                  = (if bool_decide (new_streak > TaskCard.longest_streak task)
                     then new_streak else TaskCard.longest_streak task)).
Proof.
  intros HR. pose proof (Reachable_Inv _ HR) as HI. split_and!.
  - intros task Hin. pose proof (inv_task_consistent _ HI) as TC.
    rewrite Forall_forall in TC. destruct (TC _ Hin) as [? _]. lia.
  - intros clk task_data task. unfold create_task. rewrite bind_uuid4.
    unfold mbind, M_bind, add_task. simpl. case_bool_decide; simpl; [done|].
    by intros [= <-].
  - intros clk task_id checkin_data task today Hin Hid Hd Hsel new_streak.
    rewrite (checkin_task_first _ _ _ _ task today) by done.
    pose proof (notification_only_after_commit clk task_id today task
                  (committed_checkin clk task_id today task w)) as Hstep.
    pose proof (checked_in_fields clk today task) as F. cbv zeta in F.
    destruct F as (Fid & _ & _ & _ & _ & _ & Fcur & Flong & _).
    exists (checked_in clk today task). split_and!.
    + rewrite (ns_tasks _ _ Hstep). by apply checked_in_stored.
    + by rewrite Fid.
    + done.
    + rewrite Flong. subst new_streak. case_bool_decide; lia.
Qed.

Lemma longest_streak_invariant_witness :
  Forall (λ task, TaskCard.current_streak task <= TaskCard.longest_streak task)
         (task_cards world_checked_in)
  ∧ ∃ task', task' ∈ task_cards (checkin_task (noon (day1 + 1)) "0" None world_checked_in).1
             ∧ TaskCard.current_streak task' = 2 ∧ TaskCard.longest_streak task' = 2.
Proof.
  assert (Reachable world_checked_in) as HR.
  { exists trace_checked_in. vm_compute. reflexivity. }
  destruct (longest_streak_invariant world_checked_in HR) as (Hinv & _ & Hstep).
  split; [by apply Forall_forall|].
  destruct (Hstep (noon (day1 + 1)) "0" None
              (TaskCard.mk "0" "Daily Exercise" "" None true None 1 1 (Some day1)
                           (utc_now (noon day1)) (utc_now (noon day1)) false)
              (day1 + 1))
    as (task' & Hin & _ & Hcur & Hlong).
  - left.
  - reflexivity.
  - vm_compute. reflexivity.
  - reflexivity.
  - exists task'. split; [exact Hin|]. split; [exact Hcur|exact Hlong].
Defined.




(* ===================================================================== *)
(** ** The notification service *)
(* ===================================================================== *)

(** C9. On every day on which the window can be formed, that is every day
    before 9999-12-31, the three existence checks behind
    [generate_habit_reminders], [generate_at_risk_notifications] and
    [check_daily_complete] look at the notifications created within the UTC
    calendar day of the current server instant, from its midnight to the
    next: an existing notification of the right kind counts exactly when
    its creation timestamp lies in that day. The [today] they receive, and
    with it any local calendar day, has no influence on the answer. *)
Theorem dedup_window_is_utc_day (clk : Clock) (w : World) :
  before_last_day clk →
  (start_of_day (utc_now clk) <= utc_now clk < start_of_day (utc_now clk) + us_per_day
   ∧ start_of_day (utc_now clk) `mod` us_per_day = 0
   ∧ end_of_day (start_of_day (utc_now clk))
     = Ok (start_of_day (utc_now clk) + us_per_day)
   ∧ ∀ type n,
       n ∈ select_notifications_between type (start_of_day (utc_now clk))
             (start_of_day (utc_now clk) + us_per_day) w
       ↔ n ∈ notifications w ∧ Notification.type n = type
         ∧ date_of (Notification.created_at n) = date_of (utc_now clk))
  ∧ (∀ habit_id today, ∃ answer,
       _check_existing_reminder clk habit_id today w = (w, Ok answer)
       ∧ (answer = true ↔
          ∃ n d, n ∈ notifications w
                 ∧ Notification.type n = "habit_reminder"
                 ∧ date_of (Notification.created_at n) = date_of (utc_now clk)
                 ∧ Notification.data n = Some d
                 ∧ d !! "habit_id" = Some (JStr habit_id)
                 ∧ truthy (d !! "at_risk") = false))
  ∧ (∀ habit_id today, ∃ answer,
       _check_existing_at_risk clk habit_id today w = (w, Ok answer)
       ∧ (answer = true ↔
          ∃ n d, n ∈ notifications w
                 ∧ Notification.type n = "habit_reminder"
                 ∧ date_of (Notification.created_at n) = date_of (utc_now clk)
                 ∧ Notification.data n = Some d
                 ∧ d !! "habit_id" = Some (JStr habit_id)
                 ∧ truthy (d !! "at_risk") = true))
  ∧ (∀ today,
       (_check_existing_daily_complete clk today w).1 = w
       ∧ ((_check_existing_daily_complete clk today w).2 = Ok false ↔
          ¬ ∃ n, n ∈ notifications w
                 ∧ Notification.type n = "daily_complete"
                 ∧ date_of (Notification.created_at n) = date_of (utc_now clk))).
Proof.
  intros Hlast. split; [|split; [|split]].
  - split; [apply start_of_day_bounds|]. split; [|split].
    + unfold start_of_day. apply Z.mod_mul. unfold us_per_day. lia.
    + by apply end_of_day_ok.
    + intros type n. rewrite select_notifications_between_day.
      apply notifications_of_utc_day_elem.
  - intros habit_id today. exists (reminder_exists clk habit_id w).
    split; [by apply _check_existing_reminder_eq|].
    rewrite reminder_exists_iff.
    split; intros (n & d & Hn & Hty & Hday & Hrest); exists n, d;
      (split_and!; [done|done| |apply Hrest..]); by apply within_utc_day_iff.
  - intros habit_id today. exists (at_risk_exists clk habit_id w).
    split; [by apply _check_existing_at_risk_eq|].
    rewrite at_risk_exists_iff.
    split; intros (n & d & Hn & Hty & Hday & Hrest); exists n, d;
      (split_and!; [done|done| |apply Hrest..]); by apply within_utc_day_iff.
  - intros today. rewrite _check_existing_daily_complete_eq by done.
    destruct (notifications_of_utc_day clk "daily_complete" w) as [|n [|n' rest]] eqn:Hsel.
    + split; [done|]. split; [|done]. intros _ (n & Hn & Hty & Hday).
      assert (n ∈ notifications_of_utc_day clk "daily_complete" w) as Hin
        by by apply notifications_of_utc_day_elem.
      rewrite Hsel in Hin. by apply elem_of_nil in Hin.
    + split; [done|]. split; [done|]. intros Hno. exfalso. apply Hno.
      assert (n ∈ notifications_of_utc_day clk "daily_complete" w) as Hin
        by (rewrite Hsel; left).
      apply notifications_of_utc_day_elem in Hin. by exists n.
    + split; [done|]. split; [done|]. intros Hno. exfalso. apply Hno.
      assert (n ∈ notifications_of_utc_day clk "daily_complete" w) as Hin
        by (rewrite Hsel; left).
      apply notifications_of_utc_day_elem in Hin. by exists n.
Qed.

(** A server just after midnight UTC and a check that is handed the day
    before as [today], as for a client west of UTC: a reminder created the
    evening before, a few minutes earlier, does not count, and one created
    after midnight does. *)
Lemma dedup_window_is_utc_day_witness :
  (_check_existing_reminder after_midnight "0" day1 world_evening_reminder).2 = Ok false
  ∧ (_check_existing_reminder after_midnight "0" day1
       (generate_habit_reminders after_midnight world_evening_reminder).1).2 = Ok true.
Proof.
  assert (before_last_day after_midnight) as Hday by (vm_compute; reflexivity).
  split.
  - destruct (proj1 (proj2 (dedup_window_is_utc_day after_midnight world_evening_reminder Hday))
                "0" day1) as (answer & Heq & Hiff).
    rewrite Heq. simpl. f_equal. destruct answer; [|done].
    destruct (proj1 Hiff eq_refl) as (n & d & Hn & _ & Hdate & _).
    apply list_elem_of_singleton in Hn. subst n. vm_compute in Hdate. discriminate Hdate.
  - destruct (proj1 (proj2 (dedup_window_is_utc_day after_midnight
                              (generate_habit_reminders after_midnight
                                 world_evening_reminder).1 Hday))
                "0" day1) as (answer & Heq & Hiff).
    rewrite Heq. simpl. f_equal. apply Hiff.
    eexists _, _. split; [right; left|]. vm_compute. repeat split.
Defined.

(** The last scenario of the specification: the day is complete with one
    habit done, and one more habit that is not done suppresses the
    notification. *)
Example scenario_daily_complete :
  (∃ n, (check_daily_complete (noon day1) world_day_done).2 = Ok (Some n))
  ∧ (check_daily_complete (noon day1)
       (handle (noon day1) (POST_tasks habit_body) world_day_done)).2 = Ok None.
Proof. split; [eexists|]; vm_compute; reflexivity. Qed.

(** C6. In every reachable world and on every day before 9999-12-31 (the
    days on which the window of the existence check can be formed),
    [check_daily_complete] creates a [daily_complete] notification if and
    only if there is at least one active habit, every active habit has
    today as its last check-in date, and no [daily_complete] notification
    was created within the current UTC day. The notification it creates
    carries the payload {completed_count, date}. With no active habit, or
    with an active habit whose last check-in date is not today, it does
    nothing and answers [None]; when a [daily_complete] notification
    already exists for the day it writes nothing. *)
Theorem check_daily_complete_iff (w : World) (clk : Clock) :
  Reachable w →
  before_last_day clk →
  let habits := filter active_habit (task_cards w) in
  let all_done :=
    habits ≠ []
    ∧ Forall (λ habit, TaskCard.last_checkin_date habit = Some (date_today clk)) habits in
  let existing :=
    ∃ n, n ∈ notifications w ∧ Notification.type n = "daily_complete"
         ∧ date_of (Notification.created_at n) = date_of (utc_now clk) in
  ((∃ n, (check_daily_complete clk w).2 = Ok (Some n)) ↔ all_done ∧ ¬ existing)
  ∧ (all_done → ¬ existing →
     ∃ n, check_daily_complete clk w
          = (mkWorld (task_cards w) (checkin_records w) (notifications w ++ [n])
                     (N.succ (uuids_drawn w)), Ok (Some n))
          ∧ Notification.type n = "daily_complete"
          ∧ Notification.created_at n = utc_now clk
          ∧ Notification.data n
            = Some {[ "completed_count" := JInt (Z.of_nat (length habits));
                      "date" := JStr (isoformat (date_today clk)) ]})
  ∧ (habits = []
     ∨ (∃ habit, habit ∈ habits ∧ TaskCard.last_checkin_date habit ≠ Some (date_today clk)) →
     check_daily_complete clk w = (w, Ok None))
  ∧ (existing → (check_daily_complete clk w).1 = w).
Proof.
  intros HR Hday habits all_done existing.
  pose proof (Reachable_Inv _ HR) as HI.
  pose proof (check_daily_complete_eq clk w (inv_notification_ids _ HI)) as Heq.
  rewrite (bool_decide_eq_true_2 (before_last_day clk)) in Heq by done.
  change (select_active_habits w) with habits in Heq.
  fold all_done in Heq.
  assert (existing ↔ notifications_of_utc_day clk "daily_complete" w ≠ []) as Hex.
  { subst existing. split.
    - intros (n & Hn) Hnil.
      apply notifications_of_utc_day_elem in Hn. rewrite Hnil in Hn.
      by apply elem_of_nil in Hn.
    - destruct (notifications_of_utc_day clk "daily_complete" w) as [|n rest] eqn:Hsel;
        [done|]. intros _. exists n. apply notifications_of_utc_day_elem.
      rewrite Hsel. left. }
  assert (habits = []
          ∨ (∃ habit, habit ∈ habits
                      ∧ TaskCard.last_checkin_date habit ≠ Some (date_today clk)) →
          ¬ all_done) as Hnot.
  { intros [Hnil|(habit & Hin & Hne)] [Hne' HF]; [done|].
    rewrite Forall_forall in HF. by apply Hne, HF. }
  split_and!.
  - rewrite Heq. case_bool_decide as Hall.
    + destruct (notifications_of_utc_day clk "daily_complete" w) as [|n [|n' rest]];
        simpl; split.
      * intros _. split; [done|]. rewrite Hex. by intros Hne.
      * intros _. by eexists.
      * intros (n0 & [=]).
      * intros [_ Hne]. exfalso. apply Hne, Hex. done.
      * intros (n0 & [=]).
      * intros [_ Hne]. exfalso. apply Hne, Hex. done.
    + simpl. split; [intros (n0 & [=])|]. by intros [? _].
  - intros Hall Hne. rewrite Heq. rewrite bool_decide_eq_true_2 by done.
    destruct (notifications_of_utc_day clk "daily_complete" w) as [|n rest];
      [|exfalso; by apply Hne, Hex].
    eexists. split; [reflexivity|]. done.
  - intros Hcase. rewrite Heq. by rewrite bool_decide_eq_false_2 by by apply Hnot.
  - intros Hexists. rewrite Heq. apply Hex in Hexists.
    case_bool_decide; [|done].
    by destruct (notifications_of_utc_day clk "daily_complete" w) as [|n [|n' rest]].
Qed.

Lemma check_daily_complete_iff_witness :
  ∃ n, (check_daily_complete (noon day1) world_day_done).2 = Ok (Some n)
       ∧ Notification.data n
         = Some {[ "completed_count" := JInt 1; "date" := JStr "2024-03-01" ]}.
Proof.
  assert (Reachable world_day_done) as HR.
  { exists trace_day_done. vm_compute. reflexivity. }
  destruct (check_daily_complete_iff world_day_done (noon day1) HR)
    as (_ & Hcreate & _); [vm_compute; reflexivity|].
  destruct Hcreate as (n & Heq & _ & _ & Hdata).
  - split; [done|]. repeat constructor.
  - intros (n & Hn & _). by apply elem_of_nil in Hn.
  - exists n. rewrite Heq. split; [reflexivity|]. rewrite Hdata. reflexivity.
Defined.

(** C4. In every reachable world, [check_streak_achievement] creates an
    achievement notification if and only if the streak is one of 7, 14, 30,
    60, 100 and no achievement notification exists whose payload names this
    habit and this milestone; the match looks at the habit and the
    milestone only, never at a date. The notification created carries
    {habit_id, habit_title, streak, milestone}. Otherwise nothing is written
    and the answer is [None]; in particular a streak that is no milestone
    never produces one. Hence any sequence of invocations creates at most
    one achievement notification per habit and milestone, and none for a
    pair that already had one. *)
Theorem check_streak_achievement_iff (w : World) (clk : Clock) (habit_id : string)
        (streak : Z) (habit_title : string) :
  Reachable w →
  let existing := ∃ n, n ∈ notifications w ∧ achievement_for habit_id streak n in
  ((∃ n, (check_streak_achievement clk habit_id streak habit_title w).2 = Ok (Some n))
   ↔ streak ∈ [7; 14; 30; 60; 100] ∧ ¬ existing)
  ∧ (streak ∈ [7; 14; 30; 60; 100] → ¬ existing →
     ∃ n, check_streak_achievement clk habit_id streak habit_title w
          = (mkWorld (task_cards w) (checkin_records w) (notifications w ++ [n])
                     (N.succ (uuids_drawn w)), Ok (Some n))
          ∧ Notification.type n = "achievement"
          ∧ Notification.data n
            = Some {[ "habit_id" := JStr habit_id; "habit_title" := JStr habit_title;
                      "streak" := JInt streak; "milestone" := JInt streak ]})
  ∧ (streak ∉ [7; 14; 30; 60; 100] ∨ existing →
     check_streak_achievement clk habit_id streak habit_title w = (w, Ok None))
  ∧ (∀ calls, ∃ created,
       (achievement_calls calls w).2 = Ok created
       ∧ notifications (achievement_calls calls w).1 = notifications w ++ created
       ∧ ∀ h m,
           (length (filter (achievement_for h m) created) <= 1)%nat
           ∧ ((∃ n, n ∈ notifications w ∧ achievement_for h m n) →
              filter (achievement_for h m) created = [])).
Proof.
  intros HR existing. pose proof (Reachable_Inv _ HR) as HI.
  pose proof (inv_notification_ids _ HI) as Hb.
  change [7; 14; 30; 60; 100] with ACHIEVEMENT_MILESTONES.
  assert (streak ∈ ACHIEVEMENT_MILESTONES →
          (existing ↔ select_achievements habit_id streak w ≠ [])) as Hex.
  { intros Hm. subst existing. split.
    - intros (n & Hn & Hfor) Hnil.
      pose proof (achievement_for_selected _ _ _ _ Hn Hfor) as Hin.
      rewrite Hnil in Hin. by apply elem_of_nil in Hin.
    - destruct (select_achievements habit_id streak w) as [|n rest] eqn:Hsel; [done|].
      intros _. exists n. apply (selected_achievement_for habit_id streak w n Hm).
      rewrite Hsel. left. }
  assert (streak ∉ ACHIEVEMENT_MILESTONES ∨ existing →
          check_streak_achievement clk habit_id streak habit_title w = (w, Ok None))
    as Hskip.
  { intros Hcase. apply check_streak_achievement_skip.
    destruct (decide (streak ∈ ACHIEVEMENT_MILESTONES)) as [Hm|Hm]; [|by left].
    right. apply Hex; [done|]. by destruct Hcase. }
  assert (streak ∈ ACHIEVEMENT_MILESTONES → ¬ existing →
          check_streak_achievement clk habit_id streak habit_title w
          = (with_notification w (achievement_notification clk w habit_id streak habit_title),
             Ok (Some (achievement_notification clk w habit_id streak habit_title))))
    as Hcreate.
  { intros Hm Hne. apply check_streak_achievement_create; [done|done|].
    destruct (select_achievements habit_id streak w) eqn:Hsel; [done|].
    exfalso. apply Hne, Hex; [done|]. rewrite ?Hsel. done. }
  split_and!.
  - split.
    + intros (n & Hn).
      destruct (decide (streak ∈ ACHIEVEMENT_MILESTONES)) as [Hm|Hm].
      * split; [done|]. intros Hexists. rewrite Hskip in Hn by by right. done.
      * rewrite Hskip in Hn by by left. done.
    + intros [Hm Hne]. rewrite Hcreate by done. by eexists.
  - intros Hm Hne. eexists. split; [by apply Hcreate|]. done.
  - exact Hskip.
  - intros calls. by apply achievement_calls_spec.
Qed.

Lemma check_streak_achievement_iff_witness :
  (∃ n, (check_streak_achievement (noon day1) "0" 7 "Daily Exercise" world_checked_in).2
        = Ok (Some n))
  ∧ check_streak_achievement (noon day1) "0" 8 "Daily Exercise" world_checked_in
    = (world_checked_in, Ok None)
  ∧ check_streak_achievement (noon day1) "0" 50 "Daily Exercise" world_checked_in
    = (world_checked_in, Ok None)
  ∧ check_streak_achievement (noon day1) "0" 101 "Daily Exercise" world_checked_in
    = (world_checked_in, Ok None)
  ∧ ∃ created,
      (achievement_calls [ (noon day1, "0", 7, "Daily Exercise");
                           (noon (day1 + 1), "0", 7, "Daily Exercise");
                           (noon (day1 + 9), "0", 7, "Daily Exercise") ]
                         world_checked_in).2 = Ok created
      ∧ length created = 1%nat.
Proof.
  assert (Reachable world_checked_in) as HR.
  { exists trace_checked_in. vm_compute. reflexivity. }
  assert (∀ s, s ∉ [7; 14; 30; 60; 100] →
               check_streak_achievement (noon day1) "0" s "Daily Exercise" world_checked_in
               = (world_checked_in, Ok None)) as Hnon.
  { intros s Hs.
    apply (check_streak_achievement_iff world_checked_in (noon day1) "0" s
             "Daily Exercise" HR). by left. }
  split_and!.
  - apply (check_streak_achievement_iff world_checked_in (noon day1) "0" 7
             "Daily Exercise" HR).
    split; [left|].
    intros (n & Hn & Hfor). apply list_elem_of_singleton in Hn. subst n.
    by destruct Hfor as [Hty _].
  - apply Hnon. by apply (bool_decide_eq_false_1 (_ ∈ _)).
  - apply Hnon. by apply (bool_decide_eq_false_1 (_ ∈ _)).
  - apply Hnon. by apply (bool_decide_eq_false_1 (_ ∈ _)).
  - eexists. split; [vm_compute; reflexivity|reflexivity].
Defined.

(** C5. Take any store in which the task ids are unique, the ids of the
    stored notifications were drawn from the uuid supply, and a task with a
    positive streak has a last check-in date; the tasks may have been
    written by check-ins or put there directly, and a task with streak 0
    may have any last check-in date or none. On every day before
    9999-12-31, [generate_at_risk_notifications] creates, for every active
    (is-habit, not deleted) task whose current streak is positive and whose
    last check-in date is not today, exactly one [habit_reminder]
    notification naming the task and carrying [at_risk = true], unless a
    notification of that kind and with a truthy at-risk marker for the task
    was already created within the current UTC day, in which case it
    creates none. A task with current streak 0 gets none, whatever its last
    check-in date; neither does a task that is inactive or was checked in
    today. Every notification it creates is an at-risk [habit_reminder]. *)
Theorem generate_at_risk_notifications_spec (w : World) (clk : Clock) :
  NoDup (TaskCard.id <$> task_cards w) →
  ids_below (uuids_drawn w) (Notification.id <$> notifications w) →
  (∀ task, task ∈ task_cards w → TaskCard.current_streak task > 0 →
           TaskCard.last_checkin_date task ≠ None) →
  before_last_day clk →
  ∃ created,
    (generate_at_risk_notifications clk w).2 = Ok created
    ∧ notifications (generate_at_risk_notifications clk w).1 = notifications w ++ created
    ∧ Forall (λ n, Notification.type n = "habit_reminder"
                   ∧ data_get (Notification.data n) "at_risk" = Some (JBool true))
             created
    ∧ ∀ task, task ∈ task_cards w →
        let existing :=
          ∃ n d, n ∈ notifications w
                 ∧ Notification.type n = "habit_reminder"
                 ∧ date_of (Notification.created_at n) = date_of (utc_now clk)
                 ∧ Notification.data n = Some d
                 ∧ d !! "habit_id" = Some (JStr (TaskCard.id task))
                 ∧ truthy (d !! "at_risk") = true in
        let mine := filter (for_habit (TaskCard.id task)) created in
        (active_habit task → TaskCard.current_streak task > 0 →
         TaskCard.last_checkin_date task ≠ Some (date_today clk) → ¬ existing →
         length mine = 1%nat)
        ∧ (existing → mine = [])
        ∧ (TaskCard.current_streak task = 0 → mine = [])
        ∧ (¬ active_habit task ∨ TaskCard.last_checkin_date task = Some (date_today clk) →
           mine = []).
Proof.
  intros Hpk Hb Hdated Hday.
  unfold generate_at_risk_notifications. rewrite bind_execute.
  set (habits := select_at_risk_habits (date_today clk) w).
  assert (NoDup (TaskCard.id <$> habits)) as Hnd.
  { by apply NoDup_fmap_filter. }
  destruct (at_risk_loop_spec clk (date_today clk) habits Hday w [] Hb Hnd)
    as (created & Hres & Hnot & Hall & Hcount).
  exists created. split; [exact Hres|]. split; [exact Hnot|]. split.
  { eapply Forall_impl; [exact Hall|]. intros n (Hty & _ & h & _ & Hdata).
    split; [done|]. rewrite Hdata. apply at_risk_data_get. }
  intros task Hin.
  set (existing := ∃ (n : Notification.t) (d : gmap string json), _).
  set (mine := filter _ created).
  assert (existing ↔ at_risk_exists clk (TaskCard.id task) w = true) as Hex.
  { rewrite at_risk_exists_iff. subst existing.
    split; intros (n & d & Hn & Hty & Hwin & Hrest); exists n, d;
      (split_and!; [done|done| |apply Hrest..]); by apply within_utc_day_iff. }
  assert (TaskCard.id task ∈ (TaskCard.id <$> habits)
          ↔ active_habit task ∧ TaskCard.current_streak task > 0
            ∧ TaskCard.last_checkin_date task ≠ Some (date_today clk)) as Hsel.
  { assert (task ∈ habits
            ↔ active_habit task ∧ TaskCard.current_streak task > 0
              ∧ TaskCard.last_checkin_date task ≠ Some (date_today clk)) as Hmem.
    { subst habits. unfold select_at_risk_habits, active_habit.
      rewrite list_elem_of_filter.
      split.
      - intros [(Hh & Hd & Hs & Hne) _]. split_and!; try done.
        intros Heq. rewrite Heq in Hne. simpl in Hne. by rewrite Z.eqb_refl in Hne.
      - intros ([Hh Hd] & Hs & Hne). split; [|done]. split_and!; try done.
        destruct (TaskCard.last_checkin_date task) as [d|] eqn:Hd';
          [|by destruct (Hdated task Hin Hs)].
        simpl. apply negb_true_iff, Z.eqb_neq. congruence. }
    rewrite <- Hmem. split.
    - intros (h & Heq & Hh)%list_elem_of_fmap.
      assert (h ∈ task_cards w) as Hh'.
      { subst habits. unfold select_at_risk_habits in Hh.
        by apply list_elem_of_filter in Hh as [_ ?]. }
      by rewrite (NoDup_fmap_eq TaskCard.id (task_cards w) task h Hpk Hin Hh' Heq).
    - apply list_elem_of_fmap_2. }
  assert (∀ l : list Notification.t, length l = 0%nat → l = []) as Hnil.
  { by intros [|? ?]. }
  subst mine. specialize (Hcount (TaskCard.id task)).
  split_and!.
  - intros Ha Hs Hl Hne. rewrite Hcount.
    rewrite bool_decide_eq_true_2 by by apply Hsel.
    destruct (at_risk_exists clk (TaskCard.id task) w); [|done].
    exfalso. by apply Hne, Hex.
  - intros Hexists. apply Hnil. rewrite Hcount.
    apply Hex in Hexists. rewrite Hexists. by rewrite andb_false_r.
  - intros Hzero. apply Hnil. rewrite Hcount.
    rewrite bool_decide_eq_false_2; [done|]. rewrite Hsel. lia.
  - intros Hcase. apply Hnil. rewrite Hcount.
    rewrite bool_decide_eq_false_2; [done|]. rewrite Hsel. tauto.
Qed.

(** The store of the repository's own test of the generator, with three
    habits at once: on the day after [day1], the habit with a streak of 3
    last checked in on [day1] gets its one at-risk notification, and the
    habit with streak 0 last checked in on [day1] gets none; neither does
    the habit checked in on the day itself. *)
Lemma generate_at_risk_notifications_spec_witness :
  ∃ created,
    (generate_at_risk_notifications (noon (day1 + 1)) world_streaks_set).2 = Ok created
    ∧ length (filter (for_habit "a") created) = 1%nat
    ∧ filter (for_habit "b") created = []
    ∧ filter (for_habit "c") created = [].
Proof.
  destruct (generate_at_risk_notifications_spec world_streaks_set (noon (day1 + 1)))
    as (created & Hres & _ & _ & Htasks).
  - apply (bool_decide_unpack _). vm_compute. exact I.
  - constructor.
  - intros task Htask Hpos. repeat (apply elem_of_cons in Htask as [->|Htask]);
      [done|done|done|by apply elem_of_nil in Htask].
  - vm_compute. reflexivity.
  - exists created. split; [exact Hres|]. split_and!.
    + refine (proj1 (Htasks (streak_habit "a" 3 (Some day1)) _) _ _ _ _).
      * left.
      * split; reflexivity.
      * reflexivity.
      * discriminate.
      * intros (n & d & Hn & _). by apply elem_of_nil in Hn.
    + refine (proj1 (proj2 (proj2 (Htasks (streak_habit "b" 0 (Some day1)) _))) _).
      * right. left.
      * reflexivity.
    + refine (proj2 (proj2 (proj2 (Htasks (streak_habit "c" 2 (Some (day1 + 1))) _))) _).
      * right. right. left.
      * right. reflexivity.
Defined.

(* ===================================================================== *)
(** ** Check-in and the notification checks that follow it *)
(* ===================================================================== *)

(** C8 (amended). In every reachable world, once a check-in has inserted its
    record and committed the streak fields, nothing the achievement check
    or the daily-complete check does afterwards undoes it: the tasks and
    the check-in records of the committed world [w0] are those of the world
    the call leaves behind, whatever it answers. An exception raised by
    either check is however not caught: [checkin_task] answers with that
    exception, and it answers the updated task only when both checks
    returned. *)
Theorem checkin_commit_survives_checks (w : World) (clk : Clock) (task_id : string)
        (checkin_data : option CheckinRequest.t) (task : TaskCard.t) (today : Z) :
  Reachable w →
  task ∈ task_cards w → TaskCard.id task = task_id →
  get_local_date clk (requested_offset checkin_data) = Ok today →
  select_checkin task_id today w = [] →
  let outcome := checkin_task clk task_id checkin_data w in
  let new_streak := calculate_streak (TaskCard.last_checkin_date task)
                                     (TaskCard.current_streak task) today in
  ∃ w0 task',
    (* what the commit wrote *)
    checkin_records w0
    = checkin_records w ++ [CheckinRecord.mk (pretty (uuids_drawn w)) task_id today
                                             (utc_now clk)]
    ∧ task_cards w0
      = ((λ row, if bool_decide (TaskCard.id row = task_id) then task' else row)
           <$> task_cards w)
    ∧ notifications w0 = notifications w
    ∧ TaskCard.id task' = task_id
    ∧ TaskCard.title task' = TaskCard.title task
    ∧ TaskCard.current_streak task' = new_streak
    ∧ TaskCard.last_checkin_date task' = Some today
    ∧ TaskCard.longest_streak task' = Z.max (TaskCard.longest_streak task) new_streak
    (* it is still there after the checks *)
    ∧ checkin_records outcome.1 = checkin_records w0
    ∧ task_cards outcome.1 = task_cards w0
    (* and the answer is theirs when they raise *)
    ∧ match check_streak_achievement clk task_id new_streak (TaskCard.title task') w0 with
      | (w1, Raise e) => outcome = (w1, Raise e)
      | (w1, Ok _) =>
          match check_daily_complete clk w1 with
          | (w2, Raise e) => outcome = (w2, Raise e)
          | (w2, Ok _) => outcome = (w2, Ok task')
          end
      end.
Proof.
  intros HR Hin Hid Hd Hsel outcome new_streak.
  pose proof (Reachable_Inv _ HR) as HI.
  subst outcome. rewrite (checkin_task_first _ _ _ _ task today) by done.
  set (w0 := committed_checkin clk task_id today task w).
  pose proof (notification_only_after_commit clk task_id today task w0) as Hstep.
  pose proof (checked_in_fields clk today task) as F. cbv zeta in F.
  destruct F as (Fid & Ftitle & _ & _ & _ & _ & Fcur & Flong & Flast & _).
  exists w0, (checked_in clk today task). split_and!; try done.
  - simpl. by rewrite Hid.
  - by rewrite Fid.
  - apply (ns_checkins _ _ Hstep).
  - apply (ns_tasks _ _ Hstep).
  - unfold after_commit, mbind, M_bind. fold new_streak.
    destruct (check_streak_achievement clk task_id new_streak
                (TaskCard.title (checked_in clk today task)) w0) as [w1 [a|e]]; [|done].
    by destruct (check_daily_complete clk w1) as [w2 [b|e]].
Qed.

Lemma checkin_commit_survives_checks_witness :
  ∃ task',
    task' ∈ task_cards (checkin_task (noon day1) "0" None world_two_daily).1
    ∧ TaskCard.current_streak task' = 1
    ∧ TaskCard.last_checkin_date task' = Some day1
    ∧ length (checkin_records (checkin_task (noon day1) "0" None world_two_daily).1)
      = 1%nat.
Proof.
  destruct (checkin_commit_survives_checks world_two_daily (noon day1) "0" None
              (TaskCard.mk "0" "Daily Exercise" "" None true None 0 0 None
                           (utc_now (noon day1)) (utc_now (noon day1)) false)
              day1)
    as (w0 & task' & Hrec & Htasks & _ & _ & _ & Hcur & Hlast & _ & Hrec' & Htasks' & _).
  - exists trace_two_daily. vm_compute. reflexivity.
  - left.
  - reflexivity.
  - vm_compute. reflexivity.
  - reflexivity.
  - exists task'. split_and!.
    + rewrite Htasks', Htasks. left.
    + exact Hcur.
    + exact Hlast.
    + rewrite Hrec', Hrec. reflexivity.
Defined.

(** C8 as stated fails: with two [daily_complete] notifications of the day
    in the store, the check-in of the only habit commits its record and its
    streak, and the call then fails with the exception that
    [check_daily_complete] raises. *)
Lemma checkin_fails_after_commit :
  let outcome := checkin_task (noon day1) "0" None world_two_daily in
  Reachable world_two_daily
  ∧ outcome.2 = Raise MultipleResultsFound
  ∧ (check_daily_complete (noon day1) outcome.1).2 = Raise MultipleResultsFound
  ∧ checkin_records world_two_daily = []
  ∧ checkin_records outcome.1 = [CheckinRecord.mk "3" "0" day1 (utc_now (noon day1))]
  ∧ (TaskCard.current_streak <$> task_cards world_two_daily) = [0]
  ∧ (TaskCard.current_streak <$> task_cards outcome.1) = [1].
Proof.
  split; [exists trace_two_daily; vm_compute; reflexivity|].
  vm_compute. repeat split.
Qed.





(* ===================================================================== *)
(** ** Task endpoints: lookup, creation, update, deletion *)
(* ===================================================================== *)

(** X1. In every reachable world [get_task] answers the stored task that
    carries the id, soft-deleted or not, and answers NotFound when no stored
    task carries it; no other outcome exists, and nothing is written. *)
Theorem get_task_lookup (w : World) (task_id : string) :
  Reachable w →
  (∀ task, task ∈ task_cards w → TaskCard.id task = task_id →
           get_task task_id w = (w, Ok task))
  ∧ ((∀ task, task ∈ task_cards w → TaskCard.id task ≠ task_id) →
     get_task task_id w = (w, Raise HTTP_404_NOT_FOUND)).
Proof.
  intros HR. pose proof (Reachable_Inv _ HR) as HI. split.
  - intros task Hin <-. apply get_task_found; [apply HI|done].
  - apply get_task_missing.
Qed.

Lemma get_task_lookup_witness :
  (∃ task, get_task "0" world_deleted_plain = (world_deleted_plain, Ok task)
           ∧ TaskCard.is_deleted task = true)
  ∧ get_task "1" world_deleted_plain = (world_deleted_plain, Raise HTTP_404_NOT_FOUND).
Proof.
  assert (Reachable world_deleted_plain) as HR.
  { exists trace_deleted_plain. vm_compute. reflexivity. }
  split.
  - eexists. split.
    + apply (proj1 (get_task_lookup world_deleted_plain "0" HR)); [left|reflexivity].
    + reflexivity.
  - apply (proj2 (get_task_lookup world_deleted_plain "1" HR)).
    intros task Htask. apply list_elem_of_singleton in Htask. by subst task.
Defined.

(** X2. In every reachable world [create_task] succeeds: it appends one
    row under an id no stored task carries, with both streaks at 0, no last
    check-in date, not deleted, created and updated at the instant of the
    request, and leaves every other row and table as they were. [get_task]
    on the new id then answers exactly the task that was returned. *)
Theorem create_task_round_trip (w : World) (clk : Clock) (task_data : TaskCardCreate.t) :
  Reachable w →
  ∃ task w',
    create_task clk task_data w = (w', Ok task)
    ∧ task_cards w' = task_cards w ++ [task]
    ∧ checkin_records w' = checkin_records w
    ∧ notifications w' = notifications w
    ∧ (∀ t, t ∈ task_cards w → TaskCard.id t ≠ TaskCard.id task)
    ∧ task = TaskCard.mk (TaskCard.id task) (TaskCardCreate.title task_data)
               (TaskCardCreate.content task_data) (TaskCardCreate.list_id task_data)
               (TaskCardCreate.is_habit task_data) (TaskCardCreate.reminder_time task_data)
               0 0 None (utc_now clk) (utc_now clk) false
    ∧ get_task (TaskCard.id task) w' = (w', Ok task).
Proof.
  intros HR. pose proof (Reachable_Inv_history _ HR) as HH.
  pose proof (hist_task_ids _ HH) as Hb.
  assert (Reachable (create_task clk task_data w).1) as HR'
    by apply (Reachable_handle clk (POST_tasks task_data) w HR).
  rewrite create_task_eq in * by done. simpl in HR'.
  eexists _, _. split; [reflexivity|]. simpl. split_and!; try done.
  - intros t Ht Heq. apply (ids_below_fresh _ _ Hb). rewrite <- Heq.
    by apply list_elem_of_fmap_2.
  - apply (get_task_found _ (new_task clk task_data w)).
    + apply (Reachable_Inv _ HR').
    + simpl. apply elem_of_app. right. left.
Qed.

Lemma create_task_round_trip_witness :
  ∃ task w',
    create_task (noon (day1 + 1)) plain_body world_checked_in = (w', Ok task)
    ∧ TaskCard.title task = "Buy milk"
    ∧ TaskCard.current_streak task = 0
    ∧ get_task (TaskCard.id task) w' = (w', Ok task).
Proof.
  destruct (create_task_round_trip world_checked_in (noon (day1 + 1)) plain_body)
    as (task & w' & Hc & _ & _ & _ & _ & Hrow & Hget).
  - exists trace_checked_in. vm_compute. reflexivity.
  - exists task, w'. split; [exact Hc|]. rewrite Hrow. split; [reflexivity|].
    split; [reflexivity|]. rewrite <- Hrow. exact Hget.
Defined.

(** X3. In every reachable world [update_task] on a stored task replaces
    that one row and nothing else. Each of title, content, list and habit
    flag takes the submitted value when one is submitted and keeps the
    stored one otherwise (so a list can be changed but never cleared);
    [clear_reminder] wins over a submitted reminder time. The id, the
    creation time, both streaks, the last check-in date and the deletion
    flag are never changed. [get_task] afterwards answers the task that was
    returned. On an id that no stored task carries the answer is NotFound
    and nothing is written. *)
Theorem update_task_fields (w : World) (clk : Clock) (task_id : string)
        (task_data : TaskCardUpdate.t) :
  Reachable w →
  (∀ task, task ∈ task_cards w → TaskCard.id task = task_id →
     ∃ task' w',
       update_task clk task_id task_data w = (w', Ok task')
       ∧ task_cards w' = replace_task task_id task' (task_cards w)
       ∧ checkin_records w' = checkin_records w
       ∧ notifications w' = notifications w
       ∧ TaskCard.title task'
         = default (TaskCard.title task) (TaskCardUpdate.title task_data)
       ∧ TaskCard.content task'
         = default (TaskCard.content task) (TaskCardUpdate.content task_data)
       ∧ TaskCard.list_id task'
         = match TaskCardUpdate.list_id task_data with
           | Some l => Some l
           | None => TaskCard.list_id task
           end
       ∧ TaskCard.is_habit task'
         = default (TaskCard.is_habit task) (TaskCardUpdate.is_habit task_data)
       ∧ TaskCard.reminder_time task'
         = (if TaskCardUpdate.clear_reminder task_data then None
            else match TaskCardUpdate.reminder_time task_data with
                 | Some v => Some v
                 | None => TaskCard.reminder_time task
                 end)
       ∧ TaskCard.id task' = task_id
       ∧ TaskCard.created_at task' = TaskCard.created_at task
       ∧ TaskCard.current_streak task' = TaskCard.current_streak task
       ∧ TaskCard.longest_streak task' = TaskCard.longest_streak task
       ∧ TaskCard.last_checkin_date task' = TaskCard.last_checkin_date task
       ∧ TaskCard.is_deleted task' = TaskCard.is_deleted task
       ∧ get_task task_id w' = (w', Ok task'))
  ∧ ((∀ task, task ∈ task_cards w → TaskCard.id task ≠ task_id) →
     update_task clk task_id task_data w = (w, Raise HTTP_404_NOT_FOUND)).
Proof.
  intros HR. pose proof (Reachable_Inv _ HR) as HI. split.
  - intros task Hin <-.
    pose proof (select_task_by_id_unique w task (inv_task_pk _ HI) Hin) as Hsel.
    rewrite (update_task_eq _ _ _ _ task Hsel).
    pose proof (flushed_task_fields clk task (assigned task_data task)) as F.
    pose proof (assigned_fields task_data task) as G. cbv zeta in F, G.
    destruct F as (F1 & F2 & F3 & F4 & F5 & F6 & F7 & F8 & F9 & F10 & F11).
    destruct G as (G1 & G2 & G3 & G4 & G5 & G6 & G7 & G8 & G9 & G10 & G11 & G12).
    eexists _, _. split; [reflexivity|]. simpl.
    split_and!; try done; try congruence.
    destruct (replace_task_elem (TaskCard.id task)
                (flushed_task clk task (assigned task_data task)) (task_cards w))
      as [Hin' Hnd']; [apply HI|congruence|by exists task|].
    assert (TaskCard.id task = TaskCard.id (flushed_task clk task (assigned task_data task)))
      as Heq by congruence.
    rewrite Heq at 1. by apply get_task_found.
  - intros Hno. unfold update_task.
    rewrite bind_execute, select_task_by_id_none by done. done.
Qed.

Lemma update_task_fields_witness :
  ∃ task' w',
    update_task (noon (day1 + 1)) "0"
      (TaskCardUpdate.mk (Some "Morning run") None None None (Some 5) true)
      world_checked_in = (w', Ok task')
    ∧ TaskCard.title task' = "Morning run"
    ∧ TaskCard.reminder_time task' = None
    ∧ TaskCard.current_streak task' = 1
    ∧ get_task "0" w' = (w', Ok task').
Proof.
  assert (Reachable world_checked_in) as HR.
  { exists trace_checked_in. vm_compute. reflexivity. }
  destruct (proj1 (update_task_fields world_checked_in (noon (day1 + 1)) "0"
                     (TaskCardUpdate.mk (Some "Morning run") None None None (Some 5) true)
                     HR)
              (TaskCard.mk "0" "Daily Exercise" "" None true None 1 1 (Some day1)
                           (utc_now (noon day1)) (utc_now (noon day1)) false))
    as (task' & w' & Hu & _ & _ & _ & Ht & _ & _ & _ & Hrem & _ & _ & Hcur & _ & _ & _ & Hget).
  - left.
  - reflexivity.
  - exists task', w'. split; [exact Hu|]. split; [exact Ht|]. split; [exact Hrem|].
    split; [exact Hcur|exact Hget].
Defined.

(** X4. [updated_at] moves exactly when an update changes something. In
    every reachable world, when every submitted value equals the stored one
    (in particular when nothing is submitted) [update_task] writes nothing
    and answers the task as stored, [updated_at] included; when some
    submitted value differs, the row is stored with [updated_at] set to the
    instant of the request. *)
Theorem update_task_touches_when_changed (w : World) (clk : Clock) (task_id : string)
        (task_data : TaskCardUpdate.t) (task : TaskCard.t) :
  Reachable w → task ∈ task_cards w → TaskCard.id task = task_id →
  let unchanged :=
    (∀ v, TaskCardUpdate.title task_data = Some v → v = TaskCard.title task)
    ∧ (∀ v, TaskCardUpdate.content task_data = Some v → v = TaskCard.content task)
    ∧ (∀ v, TaskCardUpdate.list_id task_data = Some v → Some v = TaskCard.list_id task)
    ∧ (∀ v, TaskCardUpdate.is_habit task_data = Some v → v = TaskCard.is_habit task)
    ∧ (if TaskCardUpdate.clear_reminder task_data
       then TaskCard.reminder_time task = None
       else ∀ v, TaskCardUpdate.reminder_time task_data = Some v →
                 Some v = TaskCard.reminder_time task) in
  (unchanged → update_task clk task_id task_data w = (w, Ok task))
  ∧ (¬ unchanged →
     ∃ task', (update_task clk task_id task_data w).2 = Ok task'
              ∧ task' ∈ task_cards (update_task clk task_id task_data w).1
              ∧ TaskCard.updated_at task' = utc_now clk)
  ∧ update_task clk task_id empty_update w = (w, Ok task).
Proof.
  intros HR Hin <- unchanged. pose proof (Reachable_Inv _ HR) as HI.
  pose proof (select_task_by_id_unique w task (inv_task_pk _ HI) Hin) as Hsel.
  pose proof (assigned_fields task_data task) as G. cbv zeta in G.
  destruct G as (G1 & G2 & G3 & G4 & G5 & G6 & G7 & G8 & G9 & G10 & G11 & G12).
  assert (unchanged ↔ assigned task_data task = task) as Hiff.
  { subst unchanged. split.
    - intros (U1 & U2 & U3 & U4 & U5). apply task_ext; try done.
      + rewrite G2. destruct (TaskCardUpdate.title task_data); simpl; [by apply U1|done].
      + rewrite G3. destruct (TaskCardUpdate.content task_data); simpl; [by apply U2|done].
      + rewrite G4. destruct (TaskCardUpdate.list_id task_data); simpl; [by apply U3|done].
      + rewrite G5. destruct (TaskCardUpdate.is_habit task_data); simpl; [by apply U4|done].
      + rewrite G6. destruct (TaskCardUpdate.clear_reminder task_data); [done|].
        destruct (TaskCardUpdate.reminder_time task_data); [by apply U5|done].
    - intros Heq. rewrite Heq in G2, G3, G4, G5, G6. split_and!.
      + intros v Hv. rewrite Hv in G2. done.
      + intros v Hv. rewrite Hv in G3. done.
      + intros v Hv. rewrite Hv in G4. done.
      + intros v Hv. rewrite Hv in G5. done.
      + destruct (TaskCardUpdate.clear_reminder task_data); [done|].
        intros v Hv. rewrite Hv in G6. done. }
  assert (∀ data, assigned data task = task →
                  update_task clk (TaskCard.id task) data w = (w, Ok task)) as Hsame.
  { intros data Heq. rewrite (update_task_eq _ _ _ _ task Hsel). rewrite Heq.
    unfold flushed_task. rewrite bool_decide_eq_true_2 by done.
    rewrite replace_task_same by (done || apply HI). by destruct w. }
  split_and!.
  - intros Hu. by apply Hsame, Hiff.
  - intros Hch. rewrite (update_task_eq _ _ _ _ task Hsel). simpl.
    eexists. split; [reflexivity|]. split.
    + apply replace_task_elem; [apply HI| |by exists task].
      destruct (flushed_task_fields clk task (assigned task_data task)) as (-> & _).
      done.
    + unfold flushed_task. rewrite bool_decide_eq_false_2; [done|].
      intros Heq. by apply Hch, Hiff.
  - by apply Hsame.
Qed.

Lemma update_task_touches_when_changed_witness :
  update_task (noon (day1 + 1)) "0"
    (TaskCardUpdate.mk (Some "Daily Exercise") None None (Some true) None true)
    world_checked_in
  = (world_checked_in,
     Ok (TaskCard.mk "0" "Daily Exercise" "" None true None 1 1 (Some day1)
                     (utc_now (noon day1)) (utc_now (noon day1)) false))
  ∧ ∃ task', (update_task (noon (day1 + 1)) "0"
                (TaskCardUpdate.mk None (Some "10 minutes") None None None false)
                world_checked_in).2 = Ok task'
             ∧ TaskCard.updated_at task' = utc_now (noon (day1 + 1)).
Proof.
  assert (Reachable world_checked_in) as HR.
  { exists trace_checked_in. vm_compute. reflexivity. }
  split.
  - refine (proj1 (update_task_touches_when_changed world_checked_in (noon (day1 + 1)) "0"
                     (TaskCardUpdate.mk (Some "Daily Exercise") None None (Some true) None true)
                     _ HR ltac:(left) eq_refl) _).
    simpl. split_and!; try done; by intros v [= <-].
  - destruct (proj1 (proj2 (update_task_touches_when_changed world_checked_in
                              (noon (day1 + 1)) "0"
                              (TaskCardUpdate.mk None (Some "10 minutes") None None None false)
                              _ HR ltac:(left) eq_refl)))
      as (task' & Hres & _ & Hup).
    + simpl. intros (_ & Hc & _). by specialize (Hc _ eq_refl).
    + exists task'. split; [exact Hres|exact Hup].
Defined.

(** X5. [get_tasks] writes nothing and answers a rearrangement of exactly
    the stored tasks it is asked to list, each once and with the creation
    times descending: the deleted ones are listed only with
    [include_deleted]; with a [list_id] only the tasks of that list are
    listed (a task in no list never is), and without one no task is left
    out for its list. *)
Theorem get_tasks_listing (w : World) (list_id : option string) (include_deleted : bool) :
  ∃ tasks,
    get_tasks list_id include_deleted w = (w, Ok tasks)
    ∧ tasks ≡ₚ filter (listed list_id include_deleted) (task_cards w)
    ∧ (∀ t, t ∈ tasks ↔
            t ∈ task_cards w
            ∧ (include_deleted = true ∨ TaskCard.is_deleted t = false)
            ∧ (∀ l, list_id = Some l → TaskCard.list_id t = Some l))
    ∧ StronglySorted (λ a b, TaskCard.created_at b <= TaskCard.created_at a) tasks.
Proof.
  eexists. split; [apply get_tasks_eq|]. split_and!.
  - apply order_by_desc_Permutation.
  - intros t. rewrite order_by_desc_elem, list_elem_of_filter. unfold listed. tauto.
  - apply order_by_desc_sorted.
Qed.

(** X6. A soft delete hides, it does not remove. In every reachable world
    [delete_task] without [hard_delete] on a stored task sets its deletion
    flag and touches no other column but [updated_at], no other row, no
    check-in record and no notification. Afterwards [get_task] still
    answers the task, now flagged; [get_tasks] lists it only with
    [include_deleted]; and deleting it again succeeds and writes nothing. *)
Theorem delete_task_soft (w : World) (clk : Clock) (task_id : string) (task : TaskCard.t) :
  Reachable w → task ∈ task_cards w → TaskCard.id task = task_id →
  ∃ task' w',
    delete_task clk task_id false w = (w', Ok ())
    ∧ task_cards w' = replace_task task_id task' (task_cards w)
    ∧ checkin_records w' = checkin_records w
    ∧ notifications w' = notifications w
    ∧ TaskCard.is_deleted task' = true
    ∧ task' = TaskCard.set_updated_at (TaskCard.updated_at task')
                (TaskCard.set_is_deleted true task)
    ∧ get_task task_id w' = (w', Ok task')
    ∧ (∀ list_id tasks, (get_tasks list_id false w').2 = Ok tasks →
                        ∀ t, t ∈ tasks → TaskCard.id t ≠ task_id)
    ∧ (∃ tasks, (get_tasks None true w').2 = Ok tasks ∧ task' ∈ tasks)
    ∧ (∀ clk', delete_task clk' task_id false w' = (w', Ok ())).
Proof.
  intros HR Hin <-. pose proof (Reachable_Inv _ HR) as HI.
  pose proof (select_task_by_id_unique w task (inv_task_pk _ HI) Hin) as Hsel.
  assert (Reachable (delete_task clk (TaskCard.id task) false w).1) as HR'
    by apply (Reachable_handle clk (DELETE_task (TaskCard.id task) false) w HR).
  rewrite (delete_task_soft_eq _ _ _ task Hsel) in *. simpl in HR'.
  set (task' := flushed_task clk task (TaskCard.set_is_deleted true task)) in *.
  set (w' := mkWorld _ _ _ _) in *.
  pose proof (Reachable_Inv _ HR') as HI'.
  pose proof (flushed_task_fields clk task (TaskCard.set_is_deleted true task)) as F.
  cbv zeta in F. fold task' in F.
  destruct F as (F1 & F2 & F3 & F4 & F5 & F6 & F7 & F8 & F9 & F10 & F11).
  simpl in F1, F2, F3, F4, F5, F6, F7, F8, F9, F10, F11.
  assert (task' ∈ task_cards w') as Hin'.
  { apply replace_task_elem; [apply HI|done|by exists task]. }
  exists task', w'. split_and!; try done.
  - by apply task_ext.
  - rewrite <- F1. apply get_task_found; [apply HI'|done].
  - intros list_id tasks. rewrite get_tasks_eq. simpl. intros [= <-] t Ht Hid.
    apply order_by_desc_elem, list_elem_of_filter in Ht as [[[Hd|Hd] _] Ht]; [done|].
    assert (t = task') as ->; [|congruence].
    apply (NoDup_fmap_eq TaskCard.id (task_cards w') t task' (inv_task_pk _ HI') Ht Hin').
    congruence.
  - eexists. rewrite get_tasks_eq. split; [reflexivity|].
    apply order_by_desc_elem, list_elem_of_filter. split; [|done].
    split; [by left|]. by intros ? [=].
  - intros clk'.
    pose proof (select_task_by_id_unique w' task' (inv_task_pk _ HI') Hin') as Hsel'.
    rewrite F1 in Hsel'. rewrite (delete_task_soft_eq _ _ _ task' Hsel').
    assert (TaskCard.set_is_deleted true task' = task') as ->.
    { apply task_ext; try done. }
    unfold flushed_task at 1. rewrite bool_decide_eq_true_2 by done.
    rewrite replace_task_same by (done || apply HI'). done.
Qed.

Lemma delete_task_soft_witness :
  ∃ task' w',
    delete_task (noon (day1 + 1)) "0" false world_checked_in = (w', Ok ())
    ∧ get_task "0" w' = (w', Ok task')
    ∧ TaskCard.is_deleted task' = true
    ∧ TaskCard.current_streak task' = 1
    ∧ (get_tasks None false w').2 = Ok []
    ∧ delete_task (noon (day1 + 2)) "0" false w' = (w', Ok ()).
Proof.
  destruct (delete_task_soft world_checked_in (noon (day1 + 1)) "0"
              (TaskCard.mk "0" "Daily Exercise" "" None true None 1 1 (Some day1)
                           (utc_now (noon day1)) (utc_now (noon day1)) false))
    as (task' & w' & Hdel & _ & _ & _ & Hflag & Hrow & Hget & _ & _ & Hagain).
  - exists trace_checked_in. vm_compute. reflexivity.
  - left.
  - reflexivity.
  - exists task', w'. split; [exact Hdel|]. split; [exact Hget|]. split; [exact Hflag|].
    split; [by rewrite Hrow|]. split; [|apply Hagain].
    injection Hdel as <-. reflexivity.
Defined.

(** X7. A hard delete removes the row and nothing else. In every reachable
    world [delete_task] with [hard_delete] on a stored task removes exactly
    that task and leaves its check-in records and every notification in
    place. The id is gone for good: [get_task], [update_task], a second
    [delete_task], [checkin_task] and [get_task_checkins] all answer
    NotFound afterwards and write nothing. On an id that no stored task
    carries, [delete_task] answers NotFound either way. *)
Theorem delete_task_hard (w : World) (clk : Clock) (task_id : string) :
  Reachable w →
  (∀ task, task ∈ task_cards w → TaskCard.id task = task_id →
     ∃ w',
       delete_task clk task_id true w = (w', Ok ())
       ∧ (∀ t, t ∈ task_cards w' ↔ t ∈ task_cards w ∧ t ≠ task)
       ∧ length (task_cards w) = S (length (task_cards w'))
       ∧ checkin_records w' = checkin_records w
       ∧ notifications w' = notifications w
       ∧ get_task task_id w' = (w', Raise HTTP_404_NOT_FOUND)
       ∧ (∀ clk' task_data,
            update_task clk' task_id task_data w' = (w', Raise HTTP_404_NOT_FOUND))
       ∧ (∀ clk' hard_delete,
            delete_task clk' task_id hard_delete w' = (w', Raise HTTP_404_NOT_FOUND))
       ∧ (∀ clk' checkin_data,
            checkin_task clk' task_id checkin_data w' = (w', Raise HTTP_404_NOT_FOUND))
       ∧ (∀ limit, get_task_checkins task_id limit w' = (w', Raise HTTP_404_NOT_FOUND)))
  ∧ ((∀ task, task ∈ task_cards w → TaskCard.id task ≠ task_id) →
     ∀ hard_delete,
       delete_task clk task_id hard_delete w = (w, Raise HTTP_404_NOT_FOUND)).
Proof.
  intros HR. pose proof (Reachable_Inv _ HR) as HI. split.
  - intros task Hin <-.
    pose proof (select_task_by_id_unique w task (inv_task_pk _ HI) Hin) as Hsel.
    rewrite (delete_task_hard_eq _ _ _ task Hsel).
    set (w' := mkWorld _ _ _ _).
    assert (select_task_by_id (TaskCard.id task) w' = []) as Hgone.
    { apply select_task_by_id_none. intros t Ht. simpl in Ht.
      by apply list_elem_of_filter in Ht as [Hne _]. }
    exists w'. split_and!; try done.
    + intros t. simpl. rewrite list_elem_of_filter. split.
      * intros [Hne Ht]. split; [done|]. by intros ->.
      * intros [Ht Hne]. split; [|done]. intros Heq. apply Hne.
        by apply (NoDup_fmap_eq TaskCard.id (task_cards w) t task (inv_task_pk _ HI)).
    + simpl. unfold select_task_by_id in Hsel.
      pose proof (filter_app_complement (λ t, TaskCard.id t = TaskCard.id task)
                    (task_cards w)) as Hperm.
      rewrite Hsel in Hperm. apply Permutation_length in Hperm. simpl in Hperm.
      rewrite <- Hperm. done.
    + unfold get_task. by rewrite bind_execute, Hgone.
    + intros clk' task_data. by apply update_task_missing.
    + intros clk' hard_delete. by apply delete_task_missing.
    + intros clk' checkin_data. by apply checkin_task_not_found.
    + intros limit. by apply get_task_checkins_missing.
  - intros Hno hard_delete. apply delete_task_missing. by apply select_task_by_id_none.
Qed.

Lemma delete_task_hard_witness :
  ∃ w',
    delete_task (noon (day1 + 1)) "0" true world_checked_in = (w', Ok ())
    ∧ task_cards w' = []
    ∧ length (checkin_records w') = 1%nat
    ∧ get_task_checkins "0" 30 w' = (w', Raise HTTP_404_NOT_FOUND).
Proof.
  assert (Reachable world_checked_in) as HR.
  { exists trace_checked_in. vm_compute. reflexivity. }
  destruct (proj1 (delete_task_hard world_checked_in (noon (day1 + 1)) "0" HR)
              (TaskCard.mk "0" "Daily Exercise" "" None true None 1 1 (Some day1)
                           (utc_now (noon day1)) (utc_now (noon day1)) false))
    as (w' & Hdel & _ & _ & Hrec & _ & _ & _ & _ & _ & Hlist).
  - left.
  - reflexivity.
  - exists w'. split; [exact Hdel|]. split; [|split; [|apply Hlist]].
    + injection Hdel as <-. reflexivity.
    + rewrite Hrec. reflexivity.
Defined.

(* ===================================================================== *)
(** ** Check-in history and the streak columns *)
(* ===================================================================== *)



(** X9. The streak columns of a task and its check-in records agree in
    every reachable world. A task without records has no last check-in date
    and both streaks at 0. A task with records has a last check-in date,
    which is the date of one of its records, a current streak of at least
    1, and a longest streak no larger than the number of its records. *)
Theorem streaks_match_history (w : World) (task : TaskCard.t) :
  Reachable w → task ∈ task_cards w →
  let history := checkins_of (TaskCard.id task) w in
  (TaskCard.last_checkin_date task = None ↔ history = [])
  ∧ (history = [] →
     TaskCard.current_streak task = 0 ∧ TaskCard.longest_streak task = 0)
  ∧ (∀ d, TaskCard.last_checkin_date task = Some d →
          ∃ r, r ∈ history ∧ CheckinRecord.checkin_date r = d)
  ∧ (history ≠ [] →
     1 <= TaskCard.current_streak task <= TaskCard.longest_streak task
     ∧ TaskCard.longest_streak task <= Z.of_nat (length history)).
Proof.
  intros HR Hin history.
  pose proof (Reachable_Inv _ HR) as HI. pose proof (Reachable_Inv_history _ HR) as HH.
  pose proof (inv_task_consistent _ HI) as TC. rewrite Forall_forall in TC.
  destruct (TC _ Hin) as [Hb _].
  pose proof (hist_longest_le_records _ HH _ Hin) as Hlen. fold history in Hlen.
  assert (history ≠ [] → is_Some (TaskCard.last_checkin_date task)) as Hsome.
  { destruct history as [|r rest] eqn:Hh; [done|]. intros _.
    assert (r ∈ history) as Hr by (rewrite Hh; left).
    apply checkins_of_elem in Hr as [Hr Hid].
    by apply (hist_recorded_last _ HH r task). }
  assert (∀ d, TaskCard.last_checkin_date task = Some d →
               ∃ r, r ∈ history ∧ CheckinRecord.checkin_date r = d) as Hlast.
  { intros d Hd. destruct (hist_last_recorded _ HH _ _ Hin Hd) as (r & Hr & Hid & Hdate).
    exists r. split; [by apply checkins_of_elem|done]. }
  split_and!.
  - split.
    + intros Hnone. destruct history as [|r rest] eqn:Hh; [done|].
      destruct Hsome as [d Hd]; [done|]. congruence.
    + intros Hnil. destruct (TaskCard.last_checkin_date task) as [d|] eqn:Hd; [|done].
      destruct (Hlast d eq_refl) as (r & Hr & _). rewrite Hnil in Hr.
      by apply elem_of_nil in Hr.
  - intros Hnil. rewrite Hnil in Hlen. simpl in Hlen. lia.
  - exact Hlast.
  - intros Hne. split; [|done].
    pose proof (hist_streak_positive _ HH _ Hin (Hsome Hne)). lia.
Qed.

Lemma streaks_match_history_witness :
  Forall (λ task,
            (checkins_of (TaskCard.id task) world_mixed = [] →
             TaskCard.current_streak task = 0 ∧ TaskCard.longest_streak task = 0)
            ∧ (checkins_of (TaskCard.id task) world_mixed ≠ [] →
               1 <= TaskCard.current_streak task))
         (task_cards world_mixed)
  ∧ (TaskCard.id <$> task_cards world_mixed) = ["0"; "3"; "4"]
  ∧ length (checkins_of "0" world_mixed) = 1%nat
  ∧ checkins_of "3" world_mixed = [].
Proof.
  assert (Reachable world_mixed) as HR.
  { exists trace_mixed. vm_compute. reflexivity. }
  split; [|split_and!; reflexivity].
  apply Forall_forall. intros task Hin.
  destruct (streaks_match_history world_mixed task HR Hin) as (_ & Hnone & _ & Hsome).
  split; [exact Hnone|]. intros Hne. apply (Hsome Hne).
Defined.

(** X10. A check-in that commits never leaves the streak as it was. In
    every reachable world, when the task has no record for the day, its
    last check-in date is not that day, so the same-day branch of
    [calculate_streak] is not the one taken: the streak stored is the
    previous one plus 1 when the last check-in was the day before, and 1 in
    every other case. *)
Theorem committed_streak_is_fresh (w : World) (clk : Clock) (task_id : string)
        (checkin_data : option CheckinRequest.t) (task : TaskCard.t) (today : Z) :
  Reachable w → task ∈ task_cards w → TaskCard.id task = task_id →
  get_local_date clk (requested_offset checkin_data) = Ok today →
  select_checkin task_id today w = [] →
  TaskCard.last_checkin_date task ≠ Some today
  ∧ ∃ task',
      task' ∈ task_cards (checkin_task clk task_id checkin_data w).1
      ∧ TaskCard.id task' = task_id
      ∧ TaskCard.last_checkin_date task' = Some today
      ∧ TaskCard.current_streak task'
        = (if bool_decide (TaskCard.last_checkin_date task = Some (today - 1))
           then TaskCard.current_streak task + 1 else 1)
      ∧ 1 <= TaskCard.current_streak task'.
Proof.
  intros HR Hin Hid Hd Hsel.
  pose proof (Reachable_Inv _ HR) as HI. pose proof (Reachable_Inv_history _ HR) as HH.
  assert (TaskCard.last_checkin_date task ≠ Some today) as Hne.
  { intros Hlast. destruct (hist_last_recorded _ HH _ _ Hin Hlast) as (r & Hr & Hrid & Hdate).
    assert (r ∈ select_checkin task_id today w) as Habs.
    { unfold select_checkin. apply list_elem_of_filter. split; [|done]. split; congruence. }
    rewrite Hsel in Habs. by apply elem_of_nil in Habs. }
  split; [done|].
  rewrite (checkin_task_first _ _ _ _ task today) by done.
  pose proof (notification_only_after_commit clk task_id today task
                (committed_checkin clk task_id today task w)) as Hstep.
  pose proof (checked_in_fields clk today task) as F. cbv zeta in F.
  destruct F as (Fid & _ & _ & _ & _ & _ & Fcur & _ & Flast & _).
  pose proof (inv_task_consistent _ HI) as TC. rewrite Forall_forall in TC.
  destruct (TC _ Hin) as [Hb _].
  assert (calculate_streak (TaskCard.last_checkin_date task)
                           (TaskCard.current_streak task) today
          = if bool_decide (TaskCard.last_checkin_date task = Some (today - 1))
            then TaskCard.current_streak task + 1 else 1) as Hcalc.
  { unfold calculate_streak. destruct (TaskCard.last_checkin_date task) as [last|].
    - rewrite bool_decide_eq_false_2 by congruence.
      destruct (decide (last = today - 1)) as [->|Hgap].
      + rewrite !bool_decide_eq_true_2; [done|done|lia].
      + rewrite !bool_decide_eq_false_2; [done|congruence|lia].
    - by rewrite bool_decide_eq_false_2. }
  exists (checked_in clk today task). split_and!.
  - rewrite (ns_tasks _ _ Hstep). by apply checked_in_stored.
  - congruence.
  - done.
  - congruence.
  - rewrite Fcur, Hcalc. case_bool_decide; lia.
Qed.

Lemma committed_streak_is_fresh_witness :
  ∃ task',
    task' ∈ task_cards (checkin_task (noon (day1 + 5)) "0" None world_streak3).1
    ∧ TaskCard.id task' = "0"
    ∧ TaskCard.current_streak task' = 1
    ∧ TaskCard.longest_streak task' = 3.
Proof.
  destruct (committed_streak_is_fresh world_streak3 (noon (day1 + 5)) "0" None
              (TaskCard.mk "0" "Daily Exercise" "" None true None 3 3
                           (Some (day1 + 2)) (utc_now (noon day1))
                           (utc_now (noon (day1 + 2))) false)
              (day1 + 5))
    as (_ & task' & Hin & Hid & _ & Hcur & _).
  - exists trace_streak3. vm_compute. reflexivity.
  - left.
  - reflexivity.
  - vm_compute. reflexivity.
  - reflexivity.
  - exists task'. split; [exact Hin|]. split; [exact Hid|]. split; [exact Hcur|].
    vm_compute in Hin.
    apply elem_of_cons in Hin as [->|Hin]; [reflexivity|].
    apply list_elem_of_singleton in Hin. subst task'. discriminate Hid.
Defined.

(** X11. A run of check-ins on consecutive local days counts up. In every
    reachable world, for a stored task whose check-in records all lie
    before day [d], check-in requests that fall on the days [d], [d + 1],
    ..., one per day and whatever clock and offset each of them comes with,
    leave the task with the last day of the run as its last check-in date
    and with a current streak equal to the length of the run, added to the
    previous streak exactly when the last check-in before the run was on
    day [d - 1]. The longest streak is the larger of the previous one and
    the new current streak, and one record per day has been inserted. *)
Theorem consecutive_checkins_streak (w : World) (task : TaskCard.t) (d : Z)
        (days : list (Clock * option CheckinRequest.t)) :
  Reachable w → task ∈ task_cards w →
  (∀ r, r ∈ checkins_of (TaskCard.id task) w → CheckinRecord.checkin_date r < d) →
  consecutive_from d days → days ≠ [] →
  let w' := run (checkins_trace (TaskCard.id task) days) w in
  ∃ task',
    task' ∈ task_cards w' ∧ TaskCard.id task' = TaskCard.id task
    ∧ TaskCard.last_checkin_date task' = Some (d + Z.of_nat (length days) - 1)
    ∧ TaskCard.current_streak task'
      = (if bool_decide (TaskCard.last_checkin_date task = Some (d - 1))
         then TaskCard.current_streak task else 0) + Z.of_nat (length days)
    ∧ TaskCard.longest_streak task'
      = Z.max (TaskCard.longest_streak task) (TaskCard.current_streak task')
    ∧ length (checkins_of (TaskCard.id task) w')
      = (length (checkins_of (TaskCard.id task) w) + length days)%nat.
Proof.
  intros HR Hin Hbefore Hcons Hne. destruct days as [|step days]; [done|].
  destruct (consecutive_checkins_run days step w task d HR Hin Hbefore Hcons)
    as (task' & Hin' & Hid' & Hlast' & Hcur' & Hlong' & Hrec').
  exists task'. split_and!; try done.
  rewrite Hlast'. f_equal. simpl length. lia.
Qed.

Lemma consecutive_checkins_streak_witness :
  let days := [ (noon (day1 + 3), None);
                (noon (day1 + 4), Some (CheckinRequest.mk (Some 60)));
                (noon (day1 + 5), Some (CheckinRequest.mk (Some (-60)))) ] in
  ∃ task',
    task' ∈ task_cards (run (checkins_trace "0" days) world_streak3)
    ∧ TaskCard.id task' = "0"
    ∧ TaskCard.current_streak task' = 6
    ∧ TaskCard.longest_streak task' = 6
    ∧ TaskCard.last_checkin_date task' = Some (day1 + 5).
Proof.
  intros days.
  destruct (consecutive_checkins_streak world_streak3
              (TaskCard.mk "0" "Daily Exercise" "" None true None 3 3
                           (Some (day1 + 2)) (utc_now (noon day1))
                           (utc_now (noon (day1 + 2))) false)
              (day1 + 3) days)
    as (task' & Hin & Hid & Hlast & Hcur & Hlong & _).
  - exists trace_streak3. vm_compute. reflexivity.
  - left.
  - intros r Hr. vm_compute in Hr.
    repeat (apply elem_of_cons in Hr as [->|Hr]; [vm_compute; reflexivity|]).
    by apply elem_of_nil in Hr.
  - intros i step Hi. destruct i as [|[|[|i]]]; simpl in Hi;
      try (injection Hi as <-; vm_compute; reflexivity). discriminate Hi.
  - discriminate.
  - exists task'. split; [exact Hin|]. split; [exact Hid|].
    split; [rewrite Hcur; reflexivity|].
    split; [rewrite Hlong, Hcur; reflexivity|]. rewrite Hlast. reflexivity.
Defined.

(** X12. The local day of [get_local_date] is the UTC day shifted by the
    offset. With offset 0 it is the UTC day; it never increases when the
    offset grows (west of UTC is never a later day than east of it); an
    offset larger by [k] whole days gives exactly the day [k] days earlier;
    and an offset of at most one day either way gives the UTC day, the day
    before or the day after. The call raises exactly when there is no
    offset or the shifted instant leaves the range of [datetime]. *)
Theorem get_local_date_shift (clk : Clock) :
  (∀ d, get_local_date clk (Some 0) = Ok d → d = date_of (utc_now clk))
  ∧ (∀ off1 off2 d1 d2,
       off1 <= off2 →
       get_local_date clk (Some off1) = Ok d1 → get_local_date clk (Some off2) = Ok d2 →
       d2 <= d1)
  ∧ (∀ off k d d',
       get_local_date clk (Some off) = Ok d →
       get_local_date clk (Some (off + 1440 * k)) = Ok d' →
       d' = d - k)
  ∧ (∀ off d,
       -1440 <= off <= 1440 → get_local_date clk (Some off) = Ok d →
       date_of (utc_now clk) - 1 <= d <= date_of (utc_now clk) + 1)
  ∧ (∀ off,
       (∃ d, get_local_date clk (Some off) = Ok d)
       ↔ 0 <= utc_now clk - off * us_per_minute < max_ordinal * us_per_day)
  ∧ get_local_date clk None = Raise TypeError.
Proof.
  assert (∀ off d, get_local_date clk (Some off) = Ok d →
                   d = (utc_now clk - off * us_per_minute) / us_per_day + 1) as Hval.
  { intros off d. unfold get_local_date, date_of.
    destruct (datetime_in_range _); [by intros [= <-]|done]. }
  assert (0 < us_per_day) as Hpos by (unfold us_per_day; lia).
  assert (1440 * us_per_minute = us_per_day) as Hday by reflexivity.
  split_and!.
  - intros d Hd. rewrite (Hval _ _ Hd). unfold date_of. f_equal. f_equal. lia.
  - intros off1 off2 d1 d2 Hle H1 H2. rewrite (Hval _ _ H1), (Hval _ _ H2).
    assert ((utc_now clk - off2 * us_per_minute) / us_per_day
            <= (utc_now clk - off1 * us_per_minute) / us_per_day); [|lia].
    apply Z.div_le_mono; [done|]. unfold us_per_minute. nia.
  - intros off k d d' H1 H2. rewrite (Hval _ _ H1), (Hval _ _ H2).
    replace (utc_now clk - (off + 1440 * k) * us_per_minute)
      with (utc_now clk - off * us_per_minute + (- k) * us_per_day)
      by (rewrite <- Hday; ring).
    rewrite Z.div_add by lia. lia.
  - intros off d Hoff Hd. rewrite (Hval _ _ Hd). unfold date_of.
    assert ((utc_now clk + (-1) * us_per_day) / us_per_day
            <= (utc_now clk - off * us_per_minute) / us_per_day) as Hlo.
    { apply Z.div_le_mono; [done|]. rewrite <- Hday. unfold us_per_minute. nia. }
    assert ((utc_now clk - off * us_per_minute) / us_per_day
            <= (utc_now clk + 1 * us_per_day) / us_per_day) as Hhi.
    { apply Z.div_le_mono; [done|]. rewrite <- Hday. unfold us_per_minute. nia. }
    rewrite Z.div_add in Hlo, Hhi by lia. lia.
  - intros off. unfold get_local_date, datetime_in_range. case_bool_decide; split.
    + done.
    + intros _. by eexists.
    + by intros [d [=]].
    + done.
  - done.
Qed.

(* ===================================================================== *)
(** ** Notification endpoints *)
(* ===================================================================== *)

(** X13. [mark_all_as_read] reports how many notifications were unread,
    which is what [get_unread_count] answered before, and leaves every
    notification read and otherwise as it was: no row is added, removed or
    reordered, [get_unread_count] answers 0 afterwards, and a second call
    reports 0 and writes nothing. Tasks and check-in records are not
    touched. *)
Theorem mark_all_as_read_clears (w : World) :
  ∃ w' count,
    mark_all_as_read w = (w', Ok count)
    ∧ get_unread_count w = (w, Ok (Z.of_nat count))
    ∧ notifications w' = Notification.set_is_read true <$> notifications w
    ∧ task_cards w' = task_cards w
    ∧ checkin_records w' = checkin_records w
    ∧ get_unread_count w' = (w', Ok 0)
    ∧ mark_all_as_read w' = (w', Ok 0%nat).
Proof.
  eexists _, _. split; [reflexivity|].
  assert (((λ row, if Notification.is_read row then row
                   else Notification.set_is_read true row) <$> notifications w)
          = Notification.set_is_read true <$> notifications w) as Hmap.
  { apply list_fmap_ext. intros i row _. simpl.
    destruct (Notification.is_read row) eqn:Hr; [by rewrite set_is_read_read|done]. }
  set (w' := mkWorld _ _ _ _).
  assert (select_unread w' = []) as Hnone.
  { unfold select_unread. apply filter_none. subst w'. simpl. rewrite Hmap.
    by intros x (row & -> & _)%list_elem_of_fmap. }
  split_and!; try done.
  - apply get_unread_count_eq.
  - by rewrite get_unread_count_eq, Hnone.
  - by apply mark_all_as_read_nothing.
Qed.

(** X14. In every reachable world [mark_as_read] on a stored notification
    answers it with [is_read] set and stores it so, changing no other
    column and no other row. The unread count drops by one when the
    notification was unread and stays when it was read already, and a
    second call answers the same and writes nothing. On an id that no
    stored notification carries the answer is NotFound and nothing is
    written. *)
Theorem mark_as_read_once (w : World) (notification_id : string) :
  Reachable w →
  (∀ n, n ∈ notifications w → Notification.id n = notification_id →
     ∃ w',
       mark_as_read notification_id w = (w', Ok (Notification.set_is_read true n))
       ∧ notifications w'
         = replace_notification notification_id (Notification.set_is_read true n)
                                (notifications w)
       ∧ task_cards w' = task_cards w
       ∧ checkin_records w' = checkin_records w
       ∧ get_unread_count w'
         = (w', Ok (Z.of_nat (length (select_unread w))
                    - (if Notification.is_read n then 0 else 1)))
       ∧ mark_as_read notification_id w' = (w', Ok (Notification.set_is_read true n)))
  ∧ ((∀ n, n ∈ notifications w → Notification.id n ≠ notification_id) →
     mark_as_read notification_id w = (w, Raise HTTP_404_NOT_FOUND)).
Proof.
  intros HR. pose proof (Reachable_notifications_unique _ HR) as Hu. split.
  - intros n Hin <-.
    assert (Reachable (mark_as_read (Notification.id n) w).1) as HR'
      by apply (Reachable_handle (noon 1) (PATCH_notification_read (Notification.id n)) w HR).
    rewrite (mark_as_read_eq _ _ n) in * by by apply select_notification_by_id_unique.
    simpl in HR'. set (w' := mkWorld _ _ _ _) in *.
    pose proof (Reachable_notifications_unique _ HR') as Hu'.
    set (n' := Notification.set_is_read true n) in *.
    assert (n' ∈ notifications w') as Hin'.
    { subst w'. simpl. apply list_elem_of_fmap. exists n.
      by rewrite bool_decide_eq_true_2. }
    exists w'. split_and!; try done.
    + rewrite get_unread_count_eq. do 2 f_equal.
      pose proof (unread_after_replace (notifications w) n n' Hu Hin eq_refl) as Hcount.
      simpl in Hcount. unfold select_unread. subst w'. simpl.
      unfold replace_notification.
      destruct (Notification.is_read n); lia.
    + change (Notification.id n) with (Notification.id n').
      rewrite (mark_as_read_eq _ _ n') by by apply select_notification_by_id_unique.
      assert (Notification.set_is_read true n' = n') as -> by done.
      rewrite replace_notification_same by done. done.
  - intros Hno. apply mark_as_read_missing. by apply select_notification_by_id_none.
Qed.

Lemma mark_as_read_once_witness :
  (∃ w', (mark_as_read "3" world_inbox).1 = w'
         ∧ get_unread_count world_inbox = (world_inbox, Ok 1)
         ∧ get_unread_count w' = (w', Ok 0))
  ∧ mark_as_read "2" world_inbox
    = (world_inbox,
       Ok (Notification.mk "2" "daily_complete" "🌟 今日习惯全部完成！"
             "太棒了！你已完成今天的所有 1 个习惯！"
             (Some (daily_complete_data 1 day1)) true (utc_now (noon day1)) "default"))
  ∧ mark_as_read "9" world_inbox = (world_inbox, Raise HTTP_404_NOT_FOUND).
Proof.
  assert (Reachable world_inbox) as HR.
  { exists trace_inbox. vm_compute. reflexivity. }
  split_and!.
  - destruct (proj1 (mark_as_read_once world_inbox "3" HR)
                (Notification.mk "3" "system" "Welcome" "" None false
                                 (utc_now (noon day1)) "default"))
      as (w' & Hm & _ & _ & _ & Hcount & _).
    + right. left.
    + reflexivity.
    + exists w'. split; [by rewrite Hm|]. split; [reflexivity|exact Hcount].
  - destruct (proj1 (mark_as_read_once world_inbox "2" HR)
                (Notification.mk "2" "daily_complete" "🌟 今日习惯全部完成！"
                   "太棒了！你已完成今天的所有 1 个习惯！"
                   (Some (daily_complete_data 1 day1)) true (utc_now (noon day1))
                   "default"))
      as (w' & Hm & _).
    + left.
    + reflexivity.
    + rewrite Hm. injection Hm as <-. reflexivity.
  - apply (proj2 (mark_as_read_once world_inbox "9" HR)).
    intros n Hn. 
    repeat (apply elem_of_cons in Hn as [->|Hn]; [discriminate|]).
    by apply elem_of_nil in Hn.
Defined.

(** X15. In every reachable world [delete_notification] on a stored
    notification removes exactly that row: the others stay, in their order
    and unchanged, and tasks and check-in records are not touched.
    Afterwards the id is unknown: deleting it again or marking it as read
    answers NotFound. On an id that no stored notification carries the
    answer is NotFound and nothing is written. *)
Theorem delete_notification_removes (w : World) (notification_id : string) :
  Reachable w →
  (∀ n, n ∈ notifications w → Notification.id n = notification_id →
     ∃ w',
       delete_notification notification_id w = (w', Ok ())
       ∧ notifications w'
         = filter (λ row, Notification.id row ≠ notification_id) (notifications w)
       ∧ (∀ m, m ∈ notifications w' ↔ m ∈ notifications w ∧ m ≠ n)
       ∧ length (notifications w) = S (length (notifications w'))
       ∧ task_cards w' = task_cards w
       ∧ checkin_records w' = checkin_records w
       ∧ delete_notification notification_id w' = (w', Raise HTTP_404_NOT_FOUND)
       ∧ mark_as_read notification_id w' = (w', Raise HTTP_404_NOT_FOUND))
  ∧ ((∀ n, n ∈ notifications w → Notification.id n ≠ notification_id) →
     delete_notification notification_id w = (w, Raise HTTP_404_NOT_FOUND)).
Proof.
  intros HR. pose proof (Reachable_notifications_unique _ HR) as Hu. split.
  - intros n Hin <-.
    pose proof (select_notification_by_id_unique w n Hu Hin) as Hsel.
    rewrite (delete_notification_eq _ _ n Hsel).
    set (w' := mkWorld _ _ _ _).
    assert (select_notification_by_id (Notification.id n) w' = []) as Hgone.
    { apply select_notification_by_id_none. intros m Hm. simpl in Hm.
      by apply list_elem_of_filter in Hm as [Hne _]. }
    exists w'. split_and!; try done.
    + intros m. simpl. rewrite list_elem_of_filter. split.
      * intros [Hne Hm]. split; [done|]. by intros ->.
      * intros [Hm Hne]. split; [|done]. intros Heq. apply Hne.
        by apply (NoDup_fmap_eq Notification.id (notifications w) m n Hu).
    + simpl. unfold select_notification_by_id in Hsel.
      pose proof (filter_app_complement (λ m, Notification.id m = Notification.id n)
                    (notifications w)) as Hperm.
      rewrite Hsel in Hperm. apply Permutation_length in Hperm. simpl in Hperm.
      rewrite <- Hperm. done.
    + by apply delete_notification_missing.
    + by apply mark_as_read_missing.
  - intros Hno. apply delete_notification_missing.
    by apply select_notification_by_id_none.
Qed.

Lemma delete_notification_removes_witness :
  ∃ w',
    delete_notification "2" world_inbox = (w', Ok ())
    ∧ (Notification.id <$> notifications w') = ["3"]
    ∧ delete_notification "2" w' = (w', Raise HTTP_404_NOT_FOUND).
Proof.
  assert (Reachable world_inbox) as HR.
  { exists trace_inbox. vm_compute. reflexivity. }
  destruct (proj1 (delete_notification_removes world_inbox "2" HR)
              (Notification.mk "2" "daily_complete" "🌟 今日习惯全部完成！"
                 "太棒了！你已完成今天的所有 1 个习惯！"
                 (Some (daily_complete_data 1 day1)) true (utc_now (noon day1))
                 "default"))
    as (w' & Hdel & Hrows & _ & _ & _ & _ & Hagain & _).
  - left.
  - reflexivity.
  - exists w'. split; [exact Hdel|]. split; [|exact Hagain].
    rewrite Hrows. reflexivity.
Defined.

(** X16. In every reachable world the [create_notification] endpoint
    succeeds: it appends one unread notification for the default user,
    created at the instant of the request, with the submitted type, title,
    message and payload, under an id that no stored notification carries,
    and leaves every stored row as it was. The unread count grows by one,
    and marking the new id as read answers the notification with [is_read]
    set. *)
Theorem create_notification_round_trip (w : World) (clk : Clock)
        (notification : NotificationCreate.t) :
  Reachable w →
  ∃ n w',
    create_notification clk notification w = (w', Ok n)
    ∧ notifications w' = notifications w ++ [n]
    ∧ task_cards w' = task_cards w
    ∧ checkin_records w' = checkin_records w
    ∧ (∀ m, m ∈ notifications w → Notification.id m ≠ Notification.id n)
    ∧ n = Notification.mk (Notification.id n) (NotificationCreate.type notification)
            (NotificationCreate.title notification)
            (NotificationCreate.message notification)
            (NotificationCreate.data notification) false (utc_now clk) "default"
    ∧ get_unread_count w' = (w', Ok (Z.of_nat (length (select_unread w)) + 1))
    ∧ (mark_as_read (Notification.id n) w').2 = Ok (Notification.set_is_read true n).
Proof.
  intros HR. pose proof (Reachable_Inv _ HR) as HI.
  pose proof (inv_notification_ids _ HI) as Hb.
  assert (Reachable (create_notification clk notification w).1) as HR'
    by apply (Reachable_handle clk (POST_notifications notification) w HR).
  pose proof (create_notification_eq clk notification w Hb) as Heq. cbv zeta in Heq.
  rewrite Heq in *. simpl in HR'.
  eexists _, _. split; [reflexivity|]. split_and!; try done.
  - intros m Hm Hid. simpl in Hid. apply (ids_below_fresh _ _ Hb). rewrite <- Hid.
    by apply list_elem_of_fmap_2.
  - rewrite get_unread_count_eq. do 2 f_equal. unfold select_unread. simpl.
    rewrite filter_app, length_app. simpl. lia.
  - match goal with |- (mark_as_read (Notification.id ?n) ?w').2 = _ =>
      rewrite (mark_as_read_eq _ w' n) end; [done|].
    apply select_notification_by_id_unique.
    + by apply Reachable_notifications_unique.
    + simpl. apply elem_of_app. right. left.
Qed.

Lemma create_notification_round_trip_witness :
  ∃ n w',
    create_notification (noon day1) system_body world_checked_in = (w', Ok n)
    ∧ Notification.type n = "system"
    ∧ Notification.is_read n = false
    ∧ length (notifications w') = 2%nat.
Proof.
  destruct (create_notification_round_trip world_checked_in (noon day1) system_body)
    as (n & w' & Hc & Hrows & _ & _ & _ & Hn & _).
  - exists trace_checked_in. vm_compute. reflexivity.
  - exists n, w'. split; [exact Hc|]. rewrite Hn, Hrows. repeat split.
Defined.

(** X17. [get_notifications] writes nothing. For a [limit] and an
    [offset] that fit SQLite's 64-bit INTEGER, its [total] is the number of
    stored notifications whatever the page and whether or not only unread
    ones were asked for, its [unread_count] is what [get_unread_count]
    answers and never exceeds [total]. The page holds stored notifications
    only, unread ones only under [unread_only], none of them twice, with the
    creation times descending and at most [limit] of them when the limit is
    not negative; a negative limit with no offset returns all of them. For
    a [limit] or an [offset] that does not fit, which the route lets
    through, the call fails with OverflowError. *)
Theorem get_notifications_page (w : World) (limit offset : Z) (unread_only : bool) :
  (sqlite_integer limit = true → sqlite_integer offset = true →
   ∃ page,
    get_notifications limit offset unread_only w
    = (w, Ok (NotificationListResponse.mk page
                (Z.of_nat (length (notifications w)))
                (Z.of_nat (length (select_unread w)))))
    ∧ get_unread_count w = (w, Ok (Z.of_nat (length (select_unread w))))
    ∧ (length (select_unread w) <= length (notifications w))%nat
    ∧ (∀ n, n ∈ page →
            n ∈ notifications w ∧ (unread_only = true → Notification.is_read n = false))
    ∧ (∃ skipped rest,
         skipped ++ page ++ rest
         ≡ₚ (if unread_only then select_unread w else notifications w))
    ∧ StronglySorted (λ a b, Notification.created_at b <= Notification.created_at a) page
    ∧ (0 <= limit → (length page <= Z.to_nat limit)%nat)
    ∧ (limit < 0 → offset <= 0 →
       page ≡ₚ (if unread_only then select_unread w else notifications w)))
  ∧ (¬ (- 2 ^ 63 <= limit < 2 ^ 63) ∨ ¬ (- 2 ^ 63 <= offset < 2 ^ 63) →
     get_notifications limit offset unread_only w = (w, Raise OverflowError)).
Proof.
  split.
  2:{ intros Hcase. apply get_notifications_overflow. unfold sqlite_integer.
      destruct Hcase as [H|H]; [left|right]; by apply bool_decide_eq_false. }
  intros Hl Ho.
  exists (select_notifications_page limit offset unread_only w).
  split; [by apply get_notifications_eq|]. split; [apply get_unread_count_eq|].
  split; [apply length_filter|].
  unfold select_notifications_page.
  set (rows := if unread_only then select_unread w else notifications w).
  set (sorted := order_by_desc Notification.created_at rows).
  destruct (sql_offset_sublist offset sorted) as (skipped & Hskip).
  destruct (sql_limit_sublist limit (sql_offset offset sorted)) as (rest & Hrest).
  assert (skipped ++ sql_limit limit (sql_offset offset sorted) ++ rest ≡ₚ rows) as Hperm.
  { rewrite <- Hrest, <- Hskip. apply order_by_desc_Permutation. }
  assert (StronglySorted (λ a b, Notification.created_at b <= Notification.created_at a)
                         (sql_limit limit (sql_offset offset sorted))) as Hsorted.
  { pose proof (order_by_desc_sorted Notification.created_at rows) as Hs.
    fold sorted in Hs. rewrite Hskip, Hrest in Hs.
    apply StronglySorted_app_1_r in Hs. by apply StronglySorted_app_1_l in Hs. }
  split_and!.
  - intros n Hn.
    assert (n ∈ rows) as Hrows.
    { rewrite <- Hperm. apply elem_of_app. right. apply elem_of_app. by left. }
    subst rows. destruct unread_only.
    + unfold select_unread in Hrows. apply list_elem_of_filter in Hrows as [? ?]. done.
    + done.
  - by exists skipped, rest.
  - done.
  - intros Hlim. unfold sql_limit. rewrite bool_decide_eq_false_2 by lia.
    rewrite length_take. lia.
  - intros Hlim Hoff. unfold sql_limit, sql_offset.
    rewrite bool_decide_eq_true_2 by done.
    replace (Z.to_nat offset) with 0%nat by lia. simpl.
    apply order_by_desc_Permutation.
Qed.

(* ===================================================================== *)
(** ** The reminder generators *)
(* ===================================================================== *)

(** X18. In every reachable world and on every day before 9999-12-31,
    [generate_habit_reminders] succeeds and appends what it returns. It
    creates, for every active (is-habit, not deleted) task with no streak
    whose last check-in date is not today, exactly one unread
    [habit_reminder] notification naming the task and carrying no at-risk
    marker, unless a [habit_reminder] for the task without a truthy at-risk
    marker was already created within the current UTC day, in which case it
    creates none. A task with a positive streak gets none (it is left to
    [generate_at_risk_notifications]); neither does a task that is inactive
    or was checked in today. Tasks and check-in records are not touched. On
    9999-12-31, where the end of the UTC day is no [datetime], it writes
    nothing: it fails with OverflowError as soon as an active habit with no
    streak and not checked in today is met, and answers the empty list when
    there is none. *)
Theorem generate_habit_reminders_spec (w : World) (clk : Clock) :
  Reachable w →
  (before_last_day clk →
   ∃ created,
    generate_habit_reminders clk w
    = (mkWorld (task_cards w) (checkin_records w) (notifications w ++ created)
               (uuids_drawn w + N.of_nat (length created))%N, Ok created)
    ∧ Forall (λ n, Notification.type n = "habit_reminder"
                   ∧ Notification.created_at n = utc_now clk
                   ∧ Notification.is_read n = false
                   ∧ data_get (Notification.data n) "at_risk" = None)
             created
    ∧ ∀ task, task ∈ task_cards w →
        let existing :=
          ∃ n d, n ∈ notifications w
                 ∧ Notification.type n = "habit_reminder"
                 ∧ date_of (Notification.created_at n) = date_of (utc_now clk)
                 ∧ Notification.data n = Some d
                 ∧ d !! "habit_id" = Some (JStr (TaskCard.id task))
                 ∧ truthy (d !! "at_risk") = false in
        let mine := filter (for_habit (TaskCard.id task)) created in
        (active_habit task → TaskCard.current_streak task = 0 →
         TaskCard.last_checkin_date task ≠ Some (date_today clk) → ¬ existing →
         length mine = 1%nat)
        ∧ (existing → mine = [])
        ∧ (TaskCard.current_streak task > 0 → mine = [])
        ∧ (¬ active_habit task ∨ TaskCard.last_checkin_date task = Some (date_today clk) →
           mine = []))
  ∧ (¬ before_last_day clk →
     generate_habit_reminders clk w
     = (w, match filter (λ task, active_habit task ∧ reminder_due (date_today clk) task)
                        (task_cards w) with
           | [] => Ok []
           | _ :: _ => Raise OverflowError
           end)).
Proof.
  intros HR. pose proof (Reachable_Inv _ HR) as HI. split; [intros Hlast|].
  2:{ intros Hlast. rewrite generate_habit_reminders_last by done.
      unfold select_active_habits. rewrite list_filter_filter. f_equal.
      rewrite (list_filter_iff _ (λ task, active_habit task ∧ reminder_due (date_today clk) task));
        [done|].
      intros task. unfold active_habit. tauto. }
  unfold generate_habit_reminders. rewrite bind_execute.
  set (habits := select_active_habits w).
  assert (NoDup (TaskCard.id <$> habits)) as Hnd.
  { apply NoDup_fmap_filter, HI. }
  destruct (habit_reminders_loop_spec clk (date_today clk) habits Hlast w []
              (inv_notification_ids _ HI) Hnd) as (created & Hres & Hall & Hcount).
  exists created. split; [exact Hres|]. split.
  { eapply Forall_impl; [exact Hall|]. intros n (Hty & Hat & Hread & h & _ & Hdata).
    split_and!; try done. rewrite Hdata. apply reminder_data_get. }
  intros task Hin.
  set (existing := ∃ (n : Notification.t) (d : gmap string json), _).
  set (mine := filter _ created).
  assert (existing ↔ reminder_exists clk (TaskCard.id task) w = true) as Hex.
  { rewrite reminder_exists_iff. subst existing.
    split; intros (n & d & Hn & Hty & Hday & Hrest); exists n, d;
      (split_and!; [done|done| |apply Hrest..]); by apply within_utc_day_iff. }
  assert (TaskCard.id task ∈ (TaskCard.id <$> filter (reminder_due (date_today clk)) habits)
          ↔ active_habit task ∧ reminder_due (date_today clk) task) as Hsel.
  { split.
    - intros (h & Heq & Hh)%list_elem_of_fmap.
      apply list_elem_of_filter in Hh as [Hdue Hh].
      subst habits. unfold select_active_habits in Hh.
      apply list_elem_of_filter in Hh as [Hact Hh].
      by rewrite (NoDup_fmap_eq TaskCard.id (task_cards w) task h (inv_task_pk _ HI) Hin Hh Heq).
    - intros [Hact Hdue]. apply list_elem_of_fmap_2, list_elem_of_filter.
      split; [done|]. subst habits. unfold select_active_habits.
      by apply list_elem_of_filter. }
  subst mine. specialize (Hcount (TaskCard.id task)).
  split_and!.
  - intros Ha Hs Hl Hne. rewrite Hcount.
    rewrite bool_decide_eq_true_2.
    2:{ apply Hsel. split; [done|]. split; [done|lia]. }
    destruct (reminder_exists clk (TaskCard.id task) w); [|done].
    exfalso. by apply Hne, Hex.
  - intros Hexists. apply length_zero_nil. rewrite Hcount.
    apply Hex in Hexists. rewrite Hexists. by rewrite andb_false_r.
  - intros Hpos. apply length_zero_nil. rewrite Hcount.
    rewrite bool_decide_eq_false_2; [done|]. rewrite Hsel. intros [_ [_ Hno]]. done.
  - intros Hcase. apply length_zero_nil. rewrite Hcount.
    rewrite bool_decide_eq_false_2; [done|]. rewrite Hsel. unfold reminder_due. tauto.
Qed.

Lemma generate_habit_reminders_spec_witness :
  (∃ created,
     (generate_habit_reminders (noon (day1 + 3)) world_streak3).2 = Ok created
     ∧ length (filter (for_habit "1") created) = 1%nat
     ∧ filter (for_habit "0") created = [])
  ∧ generate_habit_reminders last_day world_streak3
    = (world_streak3, Raise OverflowError).
Proof.
  assert (Reachable world_streak3) as HR.
  { exists trace_streak3. vm_compute. reflexivity. }
  destruct (generate_habit_reminders_spec world_streak3 (noon (day1 + 3)) HR)
    as [Hspec _].
  destruct Hspec as (created & Hres & _ & Htasks); [vm_compute; reflexivity|].
  split.
  - exists created. split; [by rewrite Hres|]. split.
    + refine (proj1 (Htasks (TaskCard.mk "1" "Daily Exercise" "" None true None
                                         0 0 None (utc_now (noon day1))
                                         (utc_now (noon day1)) false) _) _ _ _ _).
      * right. left.
      * split; reflexivity.
      * reflexivity.
      * discriminate.
      * intros (n & d & Hn & Hty & _). vm_compute in Hn.
        repeat (apply elem_of_cons in Hn as [->|Hn]; [discriminate Hty|]).
        by apply elem_of_nil in Hn.
    + refine (proj1 (proj2 (proj2 (Htasks (TaskCard.mk "0" "Daily Exercise" "" None true None 3 3
                                             (Some (day1 + 2)) (utc_now (noon day1))
                                             (utc_now (noon (day1 + 2))) false) _))) _).
      * left.
      * reflexivity.
  - rewrite (proj2 (generate_habit_reminders_spec world_streak3 last_day HR)).
    + reflexivity.
    + vm_compute. discriminate.
Defined.

(** X19. Calling [generate_habit_reminders] again within the same UTC day
    (and the same server date) creates nothing: in every reachable world
    and on every day before 9999-12-31, the second call returns the empty
    list and leaves the world as the first call left it, so each habit gets
    at most one plain reminder per day however often the endpoint is hit.
    On 9999-12-31 no call creates anything: the world stays as it is and
    the second call answers as the first did. *)
Theorem generate_habit_reminders_idempotent (w : World) (clk clk' : Clock) :
  Reachable w →
  date_of (utc_now clk') = date_of (utc_now clk) → date_today clk' = date_today clk →
  (before_last_day clk →
   generate_habit_reminders clk' (generate_habit_reminders clk w).1
   = ((generate_habit_reminders clk w).1, Ok []))
  ∧ (¬ before_last_day clk →
     (generate_habit_reminders clk w).1 = w
     ∧ generate_habit_reminders clk' w = (w, (generate_habit_reminders clk w).2)).
Proof.
  intros HR Hday Htoday. pose proof (Reachable_Inv _ HR) as HI. split; intros Hlast.
  - assert (before_last_day clk') as Hlast' by by apply (before_last_day_same_day clk).
    set (w1 := (generate_habit_reminders clk w).1).
    pose proof (notification_only_generate_habit_reminders clk w) as Hstep. fold w1 in Hstep.
    unfold generate_habit_reminders at 1. rewrite bind_execute.
    assert (select_active_habits w1 = select_active_habits w) as ->.
    { unfold select_active_habits. by rewrite (ns_tasks _ _ Hstep). }
    apply habit_reminders_loop_nothing; [done|]. intros habit Hh Hdue.
    rewrite (reminder_exists_same_day clk clk') by done.
    apply generate_habit_reminders_exists; [done|done|done|]. by rewrite <- Htoday.
  - assert (¬ before_last_day clk') as Hlast'.
    { intros Hb. by apply Hlast, (before_last_day_same_day clk'). }
    rewrite !generate_habit_reminders_last by done. by rewrite Htoday.
Qed.

Lemma generate_habit_reminders_idempotent_witness :
  (∃ n, (generate_habit_reminders (noon (day1 + 3)) world_streak3).2 = Ok [n])
  ∧ (generate_habit_reminders (noon (day1 + 3))
       (generate_habit_reminders (noon (day1 + 3)) world_streak3).1).2 = Ok []
  ∧ (generate_habit_reminders last_day world_streak3).1 = world_streak3.
Proof.
  assert (Reachable world_streak3) as HR.
  { exists trace_streak3. vm_compute. reflexivity. }
  split; [eexists; vm_compute; reflexivity|]. split.
  - rewrite (proj1 (generate_habit_reminders_idempotent world_streak3
                      (noon (day1 + 3)) (noon (day1 + 3)) HR eq_refl eq_refl));
      [reflexivity|vm_compute; reflexivity].
  - apply (proj2 (generate_habit_reminders_idempotent world_streak3
                    last_day last_day HR eq_refl eq_refl)).
    vm_compute. discriminate.
Defined.

(** X20. Calling [generate_at_risk_notifications] again within the same UTC
    day (and the same server date) creates nothing: in every reachable
    world and on every day before 9999-12-31, the second call returns the
    empty list and leaves the world as the first call left it. On
    9999-12-31 no call creates anything: the world stays as it is and the
    second call answers as the first did, with OverflowError whenever a
    habit is at risk. *)
Theorem generate_at_risk_idempotent (w : World) (clk clk' : Clock) :
  Reachable w →
  date_of (utc_now clk') = date_of (utc_now clk) → date_today clk' = date_today clk →
  (before_last_day clk →
   generate_at_risk_notifications clk' (generate_at_risk_notifications clk w).1
   = ((generate_at_risk_notifications clk w).1, Ok []))
  ∧ (¬ before_last_day clk →
     (generate_at_risk_notifications clk w).1 = w
     ∧ generate_at_risk_notifications clk' w
       = (w, (generate_at_risk_notifications clk w).2)
     ∧ ((∃ task, task ∈ task_cards w ∧ active_habit task
                 ∧ TaskCard.current_streak task > 0
                 ∧ TaskCard.last_checkin_date task ≠ Some (date_today clk)) →
        (generate_at_risk_notifications clk w).2 = Raise OverflowError)).
Proof.
  intros HR Hday Htoday. pose proof (Reachable_Inv _ HR) as HI. split; intros Hlast.
  - assert (before_last_day clk') as Hlast' by by apply (before_last_day_same_day clk).
    set (w1 := (generate_at_risk_notifications clk w).1).
    pose proof (notification_only_generate_at_risk clk w) as Hstep. fold w1 in Hstep.
    unfold generate_at_risk_notifications at 1. rewrite bind_execute.
    assert (select_at_risk_habits (date_today clk') w1
            = select_at_risk_habits (date_today clk) w) as ->.
    { unfold select_at_risk_habits. by rewrite (ns_tasks _ _ Hstep), Htoday. }
    apply at_risk_loop_nothing; [done|]. intros habit Hh.
    rewrite (at_risk_exists_same_day clk clk') by done.
    by apply generate_at_risk_exists.
  - assert (¬ before_last_day clk') as Hlast'.
    { intros Hb. by apply Hlast, (before_last_day_same_day clk'). }
    rewrite !generate_at_risk_last by done. rewrite Htoday. split_and!; [done|done|].
    intros (task & Hin & [Hh Hd] & Hpos & Hne). simpl.
    assert (task ∈ select_at_risk_habits (date_today clk) w) as Hsel.
    { unfold select_at_risk_habits. apply list_elem_of_filter. split; [|done].
      split_and!; try done.
      pose proof (inv_task_consistent _ HI) as TC. rewrite Forall_forall in TC.
      destruct (TC _ Hin) as [_ Hdated]. destruct Hdated as [d Hd']; [lia|].
      rewrite Hd' in *. simpl. apply negb_true_iff, Z.eqb_neq. congruence. }
    destruct (select_at_risk_habits (date_today clk) w); [|done].
    by apply elem_of_nil in Hsel.
Qed.

Lemma generate_at_risk_idempotent_witness :
  (∃ n, (generate_at_risk_notifications (noon (day1 + 3)) world_streak3).2 = Ok [n])
  ∧ (generate_at_risk_notifications (noon (day1 + 3))
       (generate_at_risk_notifications (noon (day1 + 3)) world_streak3).1).2 = Ok []
  ∧ (generate_at_risk_notifications last_day world_streak3).2 = Raise OverflowError.
Proof.
  assert (Reachable world_streak3) as HR.
  { exists trace_streak3. vm_compute. reflexivity. }
  split; [eexists; vm_compute; reflexivity|]. split.
  - rewrite (proj1 (generate_at_risk_idempotent world_streak3
                      (noon (day1 + 3)) (noon (day1 + 3)) HR eq_refl eq_refl));
      [reflexivity|vm_compute; reflexivity].
  - apply (proj2 (generate_at_risk_idempotent world_streak3
                    last_day last_day HR eq_refl eq_refl)).
    + vm_compute. discriminate.
    + eexists. split; [left|]. split; [by split|]. split; [done|discriminate].
Defined.

(** X21. The two generators keep out of each other's way. In every
    reachable world, the reminders [generate_habit_reminders] creates never
    change what [_check_existing_at_risk] answers, for any habit and at any
    instant, and the notifications [generate_at_risk_notifications] creates
    never change what [_check_existing_reminder] answers. And no habit is
    notified by both: out of one world, a habit that gets a plain reminder
    gets no at-risk notification, and the other way round. *)
Theorem generators_are_separate (w : World) (clk : Clock) :
  Reachable w →
  (∀ clk' habit_id today,
     (_check_existing_at_risk clk' habit_id today (generate_habit_reminders clk w).1).2
     = (_check_existing_at_risk clk' habit_id today w).2
     ∧ (_check_existing_reminder clk' habit_id today
          (generate_at_risk_notifications clk w).1).2
       = (_check_existing_reminder clk' habit_id today w).2)
  ∧ (∀ reminders warnings habit_id,
       (generate_habit_reminders clk w).2 = Ok reminders →
       (generate_at_risk_notifications clk w).2 = Ok warnings →
       filter (for_habit habit_id) reminders = []
       ∨ filter (for_habit habit_id) warnings = []).
Proof.
  intros HR. pose proof (Reachable_Inv _ HR) as HI.
  pose proof (inv_notification_ids _ HI) as Hb.
  split.
  - destruct (generate_habit_reminders_appends clk w HI) as (created1 & Hnot1 & Hall1).
    destruct (generate_at_risk_appends clk w HI) as (created2 & Hnot2 & Hall2).
    intros clk' habit_id today.
    destruct (decide (before_last_day clk')) as [Hday'|Hday'].
    2:{ by rewrite !_check_existing_at_risk_last, !_check_existing_reminder_last by done. }
    rewrite !_check_existing_at_risk_eq, !_check_existing_reminder_eq by done.
    cbn [fst snd].
    split; f_equal; apply eq_true_iff_eq; split.
    + rewrite !at_risk_exists_iff. intros (n & d & Hn & Hty & Hday & Hdata & Hid & Hrisk).
      exists n, d. split_and!; try done. rewrite Hnot1 in Hn.
      apply elem_of_app in Hn as [Hn|Hn]; [done|]. exfalso.
      rewrite Forall_forall in Hall1.
      destruct (Hall1 _ Hn) as (h & Hdata').
      rewrite Hdata' in Hdata. injection Hdata as <-. done.
    + by apply (at_risk_exists_mono _ _ _ _ created1).
    + rewrite !reminder_exists_iff. intros (n & d & Hn & Hty & Hday & Hdata & Hid & Hrisk).
      exists n, d. split_and!; try done. rewrite Hnot2 in Hn.
      apply elem_of_app in Hn as [Hn|Hn]; [done|]. exfalso.
      rewrite Forall_forall in Hall2.
      destruct (Hall2 _ Hn) as (h & Hdata').
      rewrite Hdata' in Hdata. injection Hdata as <-. done.
    + by apply (reminder_exists_mono _ _ _ _ created2).
  - intros reminders warnings habit_id Hr Hw.
    destruct (decide (before_last_day clk)) as [Hday|Hday].
    2:{ left. rewrite generate_habit_reminders_last in Hr by done. simpl in Hr.
        destruct (filter _ (select_active_habits w)); [|discriminate Hr].
        by injection Hr as <-. }
    assert (NoDup (TaskCard.id <$> select_active_habits w)) as Hnd1.
    { apply NoDup_fmap_filter, HI. }
    assert (NoDup (TaskCard.id <$> select_at_risk_habits (date_today clk) w)) as Hnd2.
    { apply NoDup_fmap_filter, HI. }
    destruct (habit_reminders_loop_spec clk (date_today clk) (select_active_habits w)
                Hday w [] Hb Hnd1) as (created1 & Hres1 & Hall1 & Hcount1).
    destruct (at_risk_loop_spec clk (date_today clk)
                (select_at_risk_habits (date_today clk) w) Hday w [] Hb Hnd2)
      as (created2 & Hres2 & Hnot2 & Hall2 & Hcount2).
    unfold generate_habit_reminders, generate_at_risk_notifications in Hr, Hw.
    rewrite !bind_execute in Hr, Hw. rewrite Hres1 in Hr. rewrite Hres2 in Hw.
    cbn [fst snd] in Hr. injection Hr as <-. injection Hw as <-.
    specialize (Hcount1 habit_id). specialize (Hcount2 habit_id).
    destruct (decide (habit_id ∈ (TaskCard.id <$> filter (reminder_due (date_today clk))
                                                     (select_active_habits w))))
      as [Hin1|Hout1].
    + right. apply length_zero_nil. rewrite Hcount2.
      rewrite bool_decide_eq_false_2; [done|]. intros Hin2.
      apply list_elem_of_fmap in Hin1 as (h1 & -> & Hh1).
      apply list_elem_of_fmap in Hin2 as (h2 & Heq & Hh2).
      apply list_elem_of_filter in Hh1 as [[_ Hno] Hh1].
      unfold select_active_habits in Hh1. apply list_elem_of_filter in Hh1 as [_ Hh1].
      unfold select_at_risk_habits in Hh2.
      apply list_elem_of_filter in Hh2 as [(_ & _ & Hpos & _) Hh2].
      rewrite (NoDup_fmap_eq TaskCard.id (task_cards w) h1 h2 (inv_task_pk _ HI) Hh1 Hh2 Heq)
        in Hno. done.
    + left. apply length_zero_nil. rewrite Hcount1.
      by rewrite bool_decide_eq_false_2.
Qed.

Lemma generators_are_separate_witness :
  ∃ reminders warnings,
    (generate_habit_reminders (noon (day1 + 3)) world_streak3).2 = Ok reminders
    ∧ (generate_at_risk_notifications (noon (day1 + 3)) world_streak3).2 = Ok warnings
    ∧ filter (for_habit "0") reminders = []
    ∧ filter (for_habit "1") warnings = [].
Proof.
  assert (Reachable world_streak3) as HR.
  { exists trace_streak3. vm_compute. reflexivity. }
  destruct (generate_habit_reminders (noon (day1 + 3)) world_streak3).2
    as [reminders|e] eqn:Hr; [|vm_compute in Hr; discriminate Hr].
  destruct (generate_at_risk_notifications (noon (day1 + 3)) world_streak3).2
    as [warnings|e] eqn:Hw; [|vm_compute in Hw; discriminate Hw].
  exists reminders, warnings. split; [done|]. split; [done|].
  pose proof (proj2 (generators_are_separate world_streak3 (noon (day1 + 3)) HR)
                reminders warnings) as Hsep.
  split.
  - destruct (Hsep "0" Hr Hw) as [H|H]; [exact H|].
    vm_compute in Hw. injection Hw as <-. vm_compute in H. discriminate H.
  - destruct (Hsep "1" Hr Hw) as [H|H]; [|exact H].
    vm_compute in Hr. injection Hr as <-. vm_compute in H. discriminate H.
Defined.

(* ===================================================================== *)
(** ** Statistics *)
(* ===================================================================== *)

(** X22. In every reachable world [calculate_daily_ring] writes nothing
    and answers, for the day asked, the number of active (is-habit, not
    deleted) tasks as [total_habits] and the number of those that have a
    check-in record on that day as [completed_habits], each habit counted
    once; so the completed habits never exceed the total. Asked through
    [get_daily_ring] with an explicit date, the answer is the same whatever
    the clock and the offset are. *)
Theorem daily_ring_counts (w : World) (target_date : Z) :
  Reachable w →
  ∃ ring,
    calculate_daily_ring target_date w = (w, Ok ring)
    ∧ DailyRingData.date ring = target_date
    ∧ DailyRingData.total_habits ring
      = Z.of_nat (length (filter active_habit (task_cards w)))
    ∧ DailyRingData.completed_habits ring
      = Z.of_nat (length (filter (λ t, active_habit t ∧ done_on target_date w t)
                                 (task_cards w)))
    ∧ 0 <= DailyRingData.completed_habits ring <= DailyRingData.total_habits ring
    ∧ (∀ clk timezone_offset,
         get_daily_ring clk timezone_offset (Some target_date) w = (w, Ok ring)).
Proof.
  intros HR. pose proof (Reachable_Inv _ HR) as HI.
  pose proof (calculate_daily_ring_eq target_date w (inv_task_pk _ HI)) as Heq.
  eexists. split; [exact Heq|]. simpl. split_and!; try done.
  - lia.
  - pose proof (habits_done_on_le target_date w). lia.
Qed.

Lemma daily_ring_counts_witness :
  calculate_daily_ring day1 world_mixed
  = (world_mixed, Ok (DailyRingData.mk day1 2 1))
  ∧ calculate_daily_ring (day1 + 1) world_mixed
    = (world_mixed, Ok (DailyRingData.mk (day1 + 1) 2 0)).
Proof.
  assert (Reachable world_mixed) as HR.
  { exists trace_mixed. vm_compute. reflexivity. }
  split.
  - destruct (daily_ring_counts world_mixed day1 HR) as (ring & Heq & _).
    rewrite Heq. injection Heq as <-. reflexivity.
  - destruct (daily_ring_counts world_mixed (day1 + 1) HR) as (ring & Heq & _).
    rewrite Heq. injection Heq as <-. reflexivity.
Defined.

(** X23. When the day is complete, the ring is full. In every reachable
    world in which [check_daily_complete] creates its notification, the
    daily ring of the server's date shows every active habit completed, at
    least one of them, and the [completed_count] of the notification is
    that number. *)
Theorem daily_complete_means_full_ring (w : World) (clk : Clock) (n : Notification.t) :
  Reachable w →
  (check_daily_complete clk w).2 = Ok (Some n) →
  ∃ ring,
    calculate_daily_ring (date_today clk) w = (w, Ok ring)
    ∧ 0 < DailyRingData.total_habits ring
    ∧ DailyRingData.completed_habits ring = DailyRingData.total_habits ring
    ∧ data_get (Notification.data n) "completed_count"
      = Some (JInt (DailyRingData.total_habits ring)).
Proof.
  intros HR Hn. pose proof (Reachable_Inv _ HR) as HI.
  pose proof (Reachable_Inv_history _ HR) as HH.
  rewrite (calculate_daily_ring_eq _ _ (inv_task_pk _ HI)).
  eexists. split; [reflexivity|]. cbn [DailyRingData.total_habits DailyRingData.completed_habits].
  rewrite check_daily_complete_eq in Hn by apply HI.
  case_bool_decide as Hall; [|done]. destruct Hall as [Hne Hall].
  case_bool_decide as Hday; [|done].
  assert (habits_done_on (date_today clk) w = select_active_habits w) as Hfull.
  { unfold habits_done_on. rewrite select_active_habits_filter.
    apply filter_ext_in. intros t Ht. split; [tauto|]. intros Hact. split; [done|].
    rewrite Forall_forall in Hall.
    assert (t ∈ select_active_habits w) as Hsel
      by (unfold select_active_habits; by apply list_elem_of_filter).
    destruct (hist_last_recorded _ HH _ _ Ht (Hall _ Hsel)) as (r & Hr & Hid & Hd).
    apply done_on_elem. by exists r. }
  rewrite Hfull. split_and!.
  - destruct (select_active_habits w); [done|]. simpl. lia.
  - done.
  - destruct (notifications_of_utc_day clk "daily_complete" w) as [|? [|? ?]];
      [|done|done].
    simpl in Hn. injection Hn as <-. reflexivity.
Qed.

Lemma daily_complete_means_full_ring_witness :
  ∃ n ring,
    (check_daily_complete (noon day1) world_day_done).2 = Ok (Some n)
    ∧ calculate_daily_ring day1 world_day_done = (world_day_done, Ok ring)
    ∧ DailyRingData.completed_habits ring = 1
    ∧ DailyRingData.total_habits ring = 1.
Proof.
  destruct (check_daily_complete (noon day1) world_day_done).2 as [[n|]|e] eqn:Hn;
    [|vm_compute in Hn; discriminate Hn..].
  destruct (daily_complete_means_full_ring world_day_done (noon day1) n)
    as (ring & Hring & _ & Hfull & _).
  - exists trace_day_done. vm_compute. reflexivity.
  - exact Hn.
  - exists n, ring. split; [reflexivity|]. split; [exact Hring|].
    injection Hring as <-. split; reflexivity.
Defined.

(** X24. A check-in moves the ring by one habit. In every reachable world,
    when a check-in commits for a stored task on a local day, the daily
    ring of that day keeps its total, and its completed habits grow by
    exactly one when the task is an active habit and stay as they were when
    it is not; the ring of every other day is unchanged. *)
Theorem checkin_fills_ring (w : World) (clk : Clock) (task_id : string)
        (checkin_data : option CheckinRequest.t) (task : TaskCard.t) (today : Z) :
  Reachable w → task ∈ task_cards w → TaskCard.id task = task_id →
  get_local_date clk (requested_offset checkin_data) = Ok today →
  select_checkin task_id today w = [] →
  let w' := (checkin_task clk task_id checkin_data w).1 in
  (∃ before after,
     (calculate_daily_ring today w).2 = Ok before
     ∧ (calculate_daily_ring today w').2 = Ok after
     ∧ DailyRingData.total_habits after = DailyRingData.total_habits before
     ∧ DailyRingData.completed_habits after
       = DailyRingData.completed_habits before
         + (if bool_decide (active_habit task) then 1 else 0))
  ∧ (∀ d, d ≠ today → (calculate_daily_ring d w').2 = (calculate_daily_ring d w).2).
Proof.
  intros HR Hin Hid Hd Hsel w'. pose proof (Reachable_Inv _ HR) as HI.
  assert (Reachable w') as HR'
    by apply (Reachable_handle clk (POST_task_checkin task_id checkin_data) w HR).
  pose proof (Reachable_Inv _ HR') as HI'.
  destruct (checkin_commit_tables clk task_id checkin_data w task today HI Hin Hid Hd Hsel)
    as [Htasks Hrecs]. fold w' in Htasks, Hrecs.
  pose proof (checked_in_fields clk today task) as F. cbv zeta in F.
  destruct F as (Fid & _ & _ & _ & Fhabit & _ & _ & _ & _ & _ & Fdel).
  set (g := λ row, if bool_decide (TaskCard.id row = task_id)
                   then checked_in clk today task else row).
  assert (∀ row, row ∈ task_cards w → row ≠ task → g row = row) as Hg.
  { intros row Hrow Hne. subst g. simpl. rewrite bool_decide_eq_false_2; [done|].
    intros Heq. apply Hne.
    apply (NoDup_fmap_eq TaskCard.id (task_cards w) row task (inv_task_pk _ HI)); congruence. }
  assert (g task = checked_in clk today task) as Hgt.
  { subst g. simpl. by rewrite bool_decide_eq_true_2. }
  assert (∀ row, row ∈ task_cards w → (active_habit (g row) ↔ active_habit row)) as Hact.
  { intros row Hrow. destruct (decide (row = task)) as [->|Hne]; [|by rewrite Hg].
    rewrite Hgt. unfold active_habit. by rewrite Fhabit, Fdel. }
  assert (∀ d row, row ∈ task_cards w → (d ≠ today ∨ row ≠ task) →
                   (done_on d w' (g row) ↔ done_on d w row)) as Hdone.
  { intros d row Hrow Hcase. rewrite !done_on_elem, Hrecs.
    assert (TaskCard.id (g row) = TaskCard.id row) as ->.
    { destruct (decide (row = task)) as [->|Hne]; [by rewrite Hgt|by rewrite Hg]. }
    split.
    - intros (r & [Hr|Hr]%elem_of_app & Hrid & Hrd); [by exists r|].
      apply list_elem_of_singleton in Hr. subst r. simpl in *. exfalso.
      destruct Hcase as [Hne|Hne]; [done|]. apply Hne.
      apply (NoDup_fmap_eq TaskCard.id (task_cards w) row task (inv_task_pk _ HI));
        congruence.
    - intros (r & Hr & Hrid & Hrd). exists r. split; [|done]. apply elem_of_app. by left. }
  assert (length (select_active_habits w') = length (select_active_habits w)) as Htotal.
  { rewrite !select_active_habits_filter, Htasks. unfold replace_task. fold g.
    by apply count_after_rewrite_same. }
  split.
  - rewrite (calculate_daily_ring_eq _ _ (inv_task_pk _ HI)),
      (calculate_daily_ring_eq _ _ (inv_task_pk _ HI')).
    eexists _, _. split; [reflexivity|]. split; [reflexivity|]. simpl.
    split; [by rewrite Htotal|].
    unfold habits_done_on. rewrite Htasks. unfold replace_task. fold g.
    assert (¬ done_on today w task) as Hnot.
    { unfold done_on. rewrite Hid, Hsel. by intros Hne. }
    assert (done_on today w' (g task)) as Hyes.
    { rewrite Hgt. apply done_on_elem. exists (new_checkin_record clk task_id today w).
      rewrite Hrecs. split_and!; [apply elem_of_app; right; left|simpl; congruence|done]. }
    case_bool_decide as Ha.
    + rewrite (count_after_rewrite (λ t, active_habit t ∧ done_on today w t)
                 (λ t, active_habit t ∧ done_on today w' t) g (task_cards w) task);
        [lia|apply HI|done|tauto| |].
      * split; [by apply Hact|done].
      * intros row Hrow Hne. rewrite Hact by done. rewrite Hdone; [done|done|by right].
    + rewrite (count_after_rewrite_same (λ t, active_habit t ∧ done_on today w t)
                 (λ t, active_habit t ∧ done_on today w' t) g (task_cards w)); [lia|].
      intros row Hrow. rewrite Hact by done.
      destruct (decide (row = task)) as [->|Hne]; [tauto|].
      rewrite Hdone; [done|done|by right].
  - intros d Hne.
    rewrite (calculate_daily_ring_eq _ _ (inv_task_pk _ HI)),
      (calculate_daily_ring_eq _ _ (inv_task_pk _ HI')). simpl. do 2 f_equal.
    + by rewrite Htotal.
    + f_equal. unfold habits_done_on. rewrite Htasks. unfold replace_task. fold g.
      apply count_after_rewrite_same. intros row Hrow. rewrite Hact by done.
      rewrite Hdone; [done|done|by left].
Qed.

Lemma checkin_fills_ring_witness :
  let w' := (checkin_task (noon day1) "3" None world_mixed).1 in
  (calculate_daily_ring day1 world_mixed).2 = Ok (DailyRingData.mk day1 2 1)
  ∧ (∃ after, (calculate_daily_ring day1 w').2 = Ok after
              ∧ DailyRingData.total_habits after = 2
              ∧ DailyRingData.completed_habits after = 2)
  ∧ (calculate_daily_ring (day1 + 1) w').2 = Ok (DailyRingData.mk (day1 + 1) 2 0).
Proof.
  intros w'.
  destruct (checkin_fills_ring world_mixed (noon day1) "3" None
              (TaskCard.mk "3" "Daily Exercise" "" None true None 0 0 None
                           (utc_now (noon day1)) (utc_now (noon day1)) false) day1)
    as [(before & after & Hb & Ha & Htot & Hcomp) Hother].
  - exists trace_mixed. vm_compute. reflexivity.
  - right. left.
  - reflexivity.
  - vm_compute. reflexivity.
  - reflexivity.
  - split; [reflexivity|]. split.
    + exists after. split; [exact Ha|].
      assert (before = DailyRingData.mk day1 2 1) as ->.
      { vm_compute in Hb. by injection Hb as <-. }
      split; [rewrite Htot; reflexivity|rewrite Hcomp; reflexivity].
    + subst w'. rewrite (Hother (day1 + 1)) by (unfold day1; lia). reflexivity.
Defined.

(** X25. In every reachable world [calculate_stats_overview] writes
    nothing and answers counts that fit together: [total_tasks] counts the
    tasks that are not deleted, [completed_tasks] those of them that have a
    check-in record, each once, and [pending_tasks] is their difference,
    which is never negative; [today_checkins] counts the check-in records
    of the day asked; and [longest_streak] is the largest longest streak of
    an active habit (0 when there is none), which no current streak of an
    active habit exceeds. *)
Theorem stats_overview_consistent (w : World) (target_date : Z) :
  Reachable w →
  ∃ stats,
    calculate_stats_overview target_date w = (w, Ok stats)
    ∧ StatsOverview.total_tasks stats
      = Z.of_nat (length (filter (λ t, TaskCard.is_deleted t = false) (task_cards w)))
    ∧ StatsOverview.completed_tasks stats
      = Z.of_nat (length (filter (λ t, TaskCard.is_deleted t = false
                                       ∧ checkins_of (TaskCard.id t) w ≠ [])
                                 (task_cards w)))
    ∧ StatsOverview.pending_tasks stats
      = StatsOverview.total_tasks stats - StatsOverview.completed_tasks stats
    ∧ 0 <= StatsOverview.pending_tasks stats <= StatsOverview.total_tasks stats
    ∧ StatsOverview.today_checkins stats
      = Z.of_nat (length (filter (λ r, CheckinRecord.checkin_date r = target_date)
                                 (checkin_records w)))
    ∧ StatsOverview.longest_streak stats
      = foldr Z.max 0 (TaskCard.longest_streak <$> filter active_habit (task_cards w))
    ∧ (∀ t, t ∈ task_cards w → active_habit t →
            TaskCard.current_streak t <= TaskCard.longest_streak t
            ∧ TaskCard.longest_streak t <= StatsOverview.longest_streak stats).
Proof.
  intros HR. pose proof (Reachable_Inv _ HR) as HI.
  rewrite (calculate_stats_overview_eq _ _ HI).
  assert (length (tasks_checked_in w)
          <= length (filter (λ t, TaskCard.is_deleted t = false) (task_cards w)))%nat
    as Hle.
  { unfold tasks_checked_in.
    rewrite <- (list_filter_filter_l
                  (λ t, TaskCard.is_deleted t = false ∧ checkins_of (TaskCard.id t) w ≠ [])
                  (λ t, TaskCard.is_deleted t = false)) by tauto.
    apply length_filter. }
  eexists. split; [reflexivity|]. simpl.
  split; [done|]. split; [done|]. split; [done|]. split; [lia|].
  split; [done|]. split; [done|].
  intros t Ht Hact.
  pose proof (inv_task_consistent _ HI) as TC. rewrite Forall_forall in TC.
  destruct (TC _ Ht) as [? _]. split; [lia|].
  apply foldr_max_upper, list_elem_of_fmap_2.
  unfold select_active_habits. by apply list_elem_of_filter.
Qed.

Lemma stats_overview_consistent_witness :
  calculate_stats_overview (day1 + 2) world_streak3
  = (world_streak3, Ok (StatsOverview.mk 2 1 1 3 1)).
Proof.
  destruct (stats_overview_consistent world_streak3 (day1 + 2)) as (stats & Heq & _).
  - exists trace_streak3. vm_compute. reflexivity.
  - rewrite Heq. injection Heq as <-. reflexivity.
Defined.

(* ===================================================================== *)
(** ** What the requests never do *)
(* ===================================================================== *)

(** X26. The check-in history is append-only. Whatever the stored state,
    no request removes, changes or reorders a check-in record: a request
    leaves the records as they were or appends one, and only a check-in
    request appends; not even the hard delete of a task touches its
    records. Hence after any sequence of requests the records that were
    stored are still there, at the front of the table. *)
Theorem checkin_history_append_only (w : World) :
  (∀ clk req, ∃ news,
     checkin_records (handle clk req w) = checkin_records w ++ news
     ∧ (length news <= 1)%nat
     ∧ (news ≠ [] → ∃ task_id checkin_data, req = POST_task_checkin task_id checkin_data))
  ∧ (∀ trace, checkin_records w `prefix_of` checkin_records (run trace w)).
Proof. split; [intros; apply handle_checkin_records|intros; apply run_checkin_records]. Qed.

(** X27. Every write stays in its table. Whatever the stored state, the
    task endpoints that create, update and delete leave the notifications
    as they are; a check-in never changes or removes a stored notification
    and appends at most two; the notification endpoints and the two
    generators leave the tasks and the check-in records as they are; and
    each generator appends at most one notification per active habit. *)
Theorem writes_stay_in_their_table (w : World) (clk : Clock) :
  (∀ task_data, notifications (create_task clk task_data w).1 = notifications w)
  ∧ (∀ task_id task_data,
       notifications (update_task clk task_id task_data w).1 = notifications w)
  ∧ (∀ task_id hard_delete,
       notifications (delete_task clk task_id hard_delete w).1 = notifications w)
  ∧ (∀ task_id checkin_data, ∃ news,
       notifications (checkin_task clk task_id checkin_data w).1 = notifications w ++ news
       ∧ (length news <= 2)%nat)
  ∧ (∀ w', w' ∈ [ (create_notification clk system_body w).1;
                  (mark_all_as_read w).1;
                  (generate_habit_reminders clk w).1;
                  (generate_at_risk_notifications clk w).1 ] →
           task_cards w' = task_cards w ∧ checkin_records w' = checkin_records w)
  ∧ (∀ notification notification_id w',
       w' ∈ [ (create_notification clk notification w).1;
              (mark_as_read notification_id w).1;
              (delete_notification notification_id w).1 ] →
       task_cards w' = task_cards w ∧ checkin_records w' = checkin_records w)
  ∧ (∃ news,
       notifications (generate_habit_reminders clk w).1 = notifications w ++ news
       ∧ (length news <= length (filter active_habit (task_cards w)))%nat)
  ∧ (∃ news,
       notifications (generate_at_risk_notifications clk w).1 = notifications w ++ news
       ∧ (length news <= length (filter active_habit (task_cards w)))%nat).
Proof.
  split_and!.
  - intros. apply create_task_notifications.
  - intros. apply update_task_notifications.
  - intros. apply delete_task_notifications.
  - intros task_id checkin_data.
    destruct (checkin_task_notifications clk task_id checkin_data w)
      as (w0 & Hn0 & _ & [_ _ _ (news & Hn & Hlen & _)]).
    exists news. by rewrite Hn, Hn0.
  - intros w' Hw'.
    repeat (apply elem_of_cons in Hw' as [->|Hw']); [..|by apply elem_of_nil in Hw'].
    + by destruct (notification_only_create_notification clk system_body w).
    + by destruct (notification_only_mark_all_as_read w).
    + by destruct (notification_only_generate_habit_reminders clk w).
    + by destruct (notification_only_generate_at_risk clk w).
  - intros notification notification_id w' Hw'.
    repeat (apply elem_of_cons in Hw' as [->|Hw']); [..|by apply elem_of_nil in Hw'].
    + by destruct (notification_only_create_notification clk notification w).
    + by destruct (notification_only_mark_as_read notification_id w).
    + by destruct (notification_only_delete_notification notification_id w).
  - destruct (appends_generate_habit_reminders clk w) as [_ _ _ (news & Hn & Hlen & _)].
    exists news. split; [done|]. by rewrite <- select_active_habits_filter.
  - destruct (appends_generate_at_risk clk w) as [_ _ _ (news & Hn & Hlen & _)].
    exists news. split; [done|]. etrans; [exact Hlen|].
    unfold select_at_risk_habits.
    rewrite <- (list_filter_filter_l
                  (λ t, TaskCard.is_habit t = true ∧ TaskCard.is_deleted t = false
                        ∧ TaskCard.current_streak t > 0
                        ∧ sql_date_ne (TaskCard.last_checkin_date t) (date_today clk) = true)
                  active_habit) by (unfold active_habit; tauto).
    apply length_filter.
Qed.



(* ===================================================================== *)
(** ** Life entries: the two listings *)
(* ===================================================================== *)

(** X29. For a page size the route allows and a table of fewer than 2^63
    rows, [get_life_entries] answers every page whose offset
    [(page - 1) * page_size] fits SQLite's 64-bit INTEGER: with the number of
    listed entries (all of them, or the ones not deleted) as total and with
    the same number of pages, at least 1, on every page; every page before
    the last is full, the last one is not empty unless nothing is listed,
    and every page after it is empty. A page whose offset does not fit,
    which the route lets through, fails with OverflowError. When no two
    listed entries were created at the same instant (so that the order of a
    page does not hang on how a query breaks ties), the pages 1 to
    [total_pages] are all answered and, laid end to end, hold every listed
    entry exactly once, newest first. *)
Theorem get_life_entries_pages (life_entries : list LifeEntry.t) (page_size : Z)
        (include_deleted : bool) :
  1 ≤ page_size ≤ 100 →
  Z.of_nat (length life_entries) < 2 ^ 63 →
  let listed := filter (entry_listed include_deleted) life_entries in
  let total := Z.of_nat (length listed) in
  let answer page := get_life_entries page page_size include_deleted life_entries in
  ∃ total_pages,
    1 ≤ total_pages
    ∧ (∀ page, 1 ≤ page → (page - 1) * page_size < 2 ^ 63 →
         ∃ items,
           answer page
           = Ok (LifeEntryPaginatedResponse.mk items total page page_size total_pages)
           ∧ (page < total_pages → Z.of_nat (length items) = page_size)
           ∧ (page = total_pages → listed ≠ [] →
              1 ≤ Z.of_nat (length items) ≤ page_size)
           ∧ (total_pages < page → items = []))
    ∧ (∀ page, 2 ^ 63 ≤ (page - 1) * page_size → answer page = Raise OverflowError)
    ∧ (NoDup (LifeEntry.created_at <$> listed) →
       ∃ pages,
         Forall2 (λ page items,
                    ∃ r, answer page = Ok r ∧ LifeEntryPaginatedResponse.items r = items)
                 (seqZ 1 total_pages) pages
         ∧ concat pages ≡ₚ listed
         ∧ StronglySorted (λ a b, LifeEntry.created_at b <= LifeEntry.created_at a)
             (concat pages)).
Proof.
  intros Hps Hrows listed total answer.
  set (sorted := order_by_desc LifeEntry.created_at listed).
  assert (length sorted = length listed) as Hlen by apply order_by_desc_length.
  assert (length listed ≤ length life_entries)%nat as Hle by apply length_filter.
  set (total_pages := if bool_decide (total > 0)
                      then (total + page_size - 1) `div` page_size else 1).
  assert (∀ page, 0 ≤ (page - 1) * page_size < 2 ^ 63 →
            answer page
            = Ok (LifeEntryPaginatedResponse.mk
                    (take (Z.to_nat page_size)
                       (drop (Z.to_nat ((page - 1) * page_size)) sorted))
                    total page page_size total_pages)) as Hanswer.
  { intros page Hoff. unfold answer. rewrite get_life_entries_eq; [done|done|].
    unfold sqlite_integer. apply bool_decide_eq_true. lia. }
  assert (1 ≤ total_pages ∧ total ≤ total_pages * page_size
          ∧ (0 < total → (total_pages - 1) * page_size < total)) as (Hone & Hup & Hlow).
  { unfold total_pages. case_bool_decide as Hpos.
    - pose proof (total_pages_bounds total page_size ltac:(lia) ltac:(lia)) as Hb.
      simpl in Hb. split_and!; [apply Hb|apply Hb|intros _; apply Hb].
    - unfold total in *. split_and!; lia. }
  exists total_pages. split; [done|]. split_and!.
  - intros page Hpage Hoff. eexists. split; [apply Hanswer; nia|].
    rewrite length_take, length_drop, Hlen. split_and!.
    + intros Hlt.
      assert (0 < total) as Hpos.
      { destruct (decide (0 < total)) as [|Hn]; [done|].
        unfold total_pages in Hlt. rewrite bool_decide_eq_false_2 in Hlt by lia. lia. }
      specialize (Hlow Hpos). unfold total in *. nia.
    + intros -> Hne.
      assert (0 < total) as Hpos.
      { unfold total. destruct listed; [done|]. simpl. lia. }
      specialize (Hlow Hpos). unfold total in *. nia.
    + intros Hgt. rewrite drop_ge; [by destruct (Z.to_nat page_size)|].
      rewrite Hlen. unfold total in *. nia.
  - intros page Hoff. apply get_life_entries_overflow.
    unfold sqlite_integer. apply bool_decide_eq_false. lia.
  - intros _.
    exists ((λ page, take (Z.to_nat page_size)
                       (drop (Z.to_nat ((page - 1) * page_size)) sorted))
              <$> seqZ 1 total_pages).
    assert (concat ((λ page, take (Z.to_nat page_size)
                               (drop (Z.to_nat ((page - 1) * page_size)) sorted))
                      <$> seqZ 1 total_pages) = sorted) as Hall.
    { unfold seqZ. rewrite <- list_fmap_compose.
      etrans; [|apply (chunks_concat (Z.to_nat page_size) (Z.to_nat total_pages) sorted);
                rewrite Hlen; unfold total in *; nia].
      f_equal. apply list_fmap_ext. intros _ i _. simpl. do 2 f_equal. nia. }
    split_and!.
    + apply Forall2_fmap_r, Forall_Forall2_diag, Forall_forall.
      intros page Hpage. apply elem_of_seqZ in Hpage. unfold compose.
      assert (0 ≤ (page - 1) * page_size < 2 ^ 63) as Hoff.
      { split; [nia|].
        destruct (decide (0 < total)) as [Hpos|Hzero].
        - specialize (Hlow Hpos). unfold total in *. nia.
        - unfold total_pages in Hpage. rewrite bool_decide_eq_false_2 in Hpage by lia.
          assert (page = 1) as -> by lia. lia. }
      eexists. split; [by apply Hanswer|reflexivity].
    + rewrite Hall. apply order_by_desc_Permutation.
    + rewrite Hall. apply order_by_desc_sorted.
Qed.

Lemma get_life_entries_pages_witness :
  ∃ page1 page2,
    get_life_entries 1 2 false journal = Ok page1
    ∧ get_life_entries 2 2 false journal = Ok page2
    ∧ LifeEntryPaginatedResponse.total_pages page1 = 2
    ∧ LifeEntry.id <$> (LifeEntryPaginatedResponse.items page1
                        ++ LifeEntryPaginatedResponse.items page2)
      = ["e"; "c"; "b"; "a"]
    ∧ (LifeEntryPaginatedResponse.items page1 ++ LifeEntryPaginatedResponse.items page2)
      ≡ₚ filter (entry_listed false) journal
    ∧ get_life_entries (2 ^ 63) 2 false journal = Raise OverflowError.
Proof.
  destruct (get_life_entries_pages journal 2 false ltac:(lia) ltac:(simpl; lia))
    as (total_pages & _ & Hpage & Hover & Hpages).
  destruct (Hpage 1 ltac:(lia) ltac:(lia)) as (items1 & Heq1 & _).
  pose proof Heq1 as Htp. vm_compute in Htp. injection Htp as _ <-.
  destruct Hpages as (pages & Hall & Hperm & _).
  { apply (bool_decide_unpack _). vm_compute. exact I. }
  change (seqZ 1 2) with [1; 2] in Hall.
  apply Forall2_cons_inv_l in Hall as (p1 & rest & (r1 & Hr1 & Hi1) & Hall & ->).
  apply Forall2_cons_inv_l in Hall as (p2 & rest' & (r2 & Hr2 & Hi2) & Hall & ->).
  apply Forall2_nil_inv_l in Hall as ->.
  exists r1, r2. split; [exact Hr1|]. split; [exact Hr2|].
  vm_compute in Hr1. injection Hr1 as <-. vm_compute in Hr2. injection Hr2 as <-.
  split; [reflexivity|]. split; [reflexivity|]. split.
  - simpl in Hperm. rewrite app_nil_r in Hperm. by rewrite Hi1, Hi2.
  - apply Hover. lia.
Defined.

(** X30. For a page and a page size the route allows, with an offset
    [(page - 1) * page_size] that fits SQLite's 64-bit INTEGER,
    [get_life_entries_grouped] cuts the page that [get_life_entries]
    answers for the same request into its days: the groups, laid end to
    end, are that page entry for entry; their dates fall strictly, so no
    date has two groups; no group is empty and each holds only entries
    created on its date; total and number of pages are those of the plain
    listing. With an offset that does not fit, both listings fail with
    OverflowError. *)
Theorem get_life_entries_grouped_runs (life_entries : list LifeEntry.t)
        (page page_size : Z) (include_deleted : bool) :
  1 ≤ page → 1 ≤ page_size ≤ 100 →
  ((page - 1) * page_size < 2 ^ 63 →
   ∃ grouped flat,
     get_life_entries_grouped page page_size include_deleted life_entries = Ok grouped
     ∧ get_life_entries page page_size include_deleted life_entries = Ok flat
     ∧ concat (DateGroupedEntries.entries <$> LifeEntryGroupedResponse.groups grouped)
       = LifeEntryPaginatedResponse.items flat
     ∧ StronglySorted (λ g h, DateGroupedEntries.date h < DateGroupedEntries.date g)
         (LifeEntryGroupedResponse.groups grouped)
     ∧ Forall (λ g, DateGroupedEntries.entries g ≠ []
                    ∧ Forall (λ e, entry_date e = DateGroupedEntries.date g)
                        (DateGroupedEntries.entries g))
         (LifeEntryGroupedResponse.groups grouped)
     ∧ LifeEntryGroupedResponse.total grouped = LifeEntryPaginatedResponse.total flat
     ∧ LifeEntryGroupedResponse.total_pages grouped
       = LifeEntryPaginatedResponse.total_pages flat
     ∧ LifeEntryGroupedResponse.page grouped = page
     ∧ LifeEntryGroupedResponse.page_size grouped = page_size)
  ∧ (2 ^ 63 ≤ (page - 1) * page_size →
     get_life_entries_grouped page page_size include_deleted life_entries
     = Raise OverflowError
     ∧ get_life_entries page page_size include_deleted life_entries
       = Raise OverflowError).
Proof.
  intros Hpage Hps. rewrite get_life_entries_grouped_eq. split.
  - intros Hoff.
    rewrite get_life_entries_eq;
      [|done|unfold sqlite_integer; apply bool_decide_eq_true; nia].
    cbv zeta.
    set (items := take _ (drop _ _)).
    assert (StronglySorted (λ a b, LifeEntry.created_at b <= LifeEntry.created_at a)
              items) as Hsorted.
    { apply StronglySorted_take, StronglySorted_drop, order_by_desc_sorted. }
    destruct (group_by_date_descending _ Hsorted) as (Hcat & Hs & Hgroups & _).
    eexists _, _. split; [reflexivity|]. split; [reflexivity|].
    cbn [LifeEntryGroupedResponse.groups LifeEntryGroupedResponse.total
         LifeEntryGroupedResponse.total_pages LifeEntryGroupedResponse.page
         LifeEntryGroupedResponse.page_size LifeEntryPaginatedResponse.items
         LifeEntryPaginatedResponse.total LifeEntryPaginatedResponse.total_pages].
    rewrite (order_by_desc_descending fst) by exact Hs.
    split_and!; try done.
    + by rewrite <- list_fmap_compose.
    + by apply (StronglySorted_fmap _ (λ g h : Z * list LifeEntry.t, h.1 < g.1)).
    + apply Forall_fmap. exact Hgroups.
  - intros Hoff.
    rewrite get_life_entries_overflow;
      [done|unfold sqlite_integer; apply bool_decide_eq_false; lia].
Qed.

Lemma get_life_entries_grouped_runs_witness :
  (∃ grouped flat,
     get_life_entries_grouped 1 3 true journal = Ok grouped
     ∧ get_life_entries 1 3 true journal = Ok flat
     ∧ concat (DateGroupedEntries.entries <$> LifeEntryGroupedResponse.groups grouped)
       = LifeEntryPaginatedResponse.items flat
     ∧ (λ g, (DateGroupedEntries.date g, LifeEntry.id <$> DateGroupedEntries.entries g))
         <$> LifeEntryGroupedResponse.groups grouped
       = [(day1 + 2, ["e"]); (day1 + 1, ["d"; "c"])])
  ∧ get_life_entries_grouped (2 ^ 63) 3 true journal = Raise OverflowError.
Proof.
  split.
  - destruct (proj1 (get_life_entries_grouped_runs journal 1 3 true ltac:(lia) ltac:(lia)))
      as (grouped & flat & Hg & Hf & Hcat & _); [lia|].
    exists grouped, flat. split; [exact Hg|]. split; [exact Hf|]. split; [exact Hcat|].
    vm_compute in Hg. injection Hg as <-. reflexivity.
  - apply (get_life_entries_grouped_runs journal (2 ^ 63) 3 true); lia.
Defined.

